(** * go-user-api: the authentication core, embedded and verified

    A shallow embedding of the JWT token service
    ([internal/service/jwt_service.go]), the account service
    ([internal/service/user_service.go]), the user repository
    ([internal/repository/user_repository.go]), the auth middleware
    ([internal/middleware/middleware.go]) and the error taxonomy
    ([pkg/errors/errors.go]).

    Conventions.
    - A Go [string] and a Go [[]byte] are Rocq [string]s (byte sequences).
    - A Go function returning [(T, error)] returns a [result T]; a method
      that touches the database, the clock or a random source threads an
      explicit state: [S -> result T * S].
    - [time.Time] is an integer number of nanoseconds since the Unix
      epoch, [time.Duration] a number of nanoseconds.
    - Go interfaces ([UserRepository], [JWTService]) are type classes.
    - Logging calls are left out: they return nothing and change nothing
      the functions below can observe. *)

From Stdlib Require Import ZArith Lia Bool List Ascii String.
From Stdlib Require DecimalString.
From stdpp Require Import base option gmap strings.
Import ListNotations.

Local Open Scope string_scope.
Local Open Scope Z_scope.
Set Warnings "-register-all".

(* ===================================================================== *)
(** ** Go values: errors and results                                     *)
(* ===================================================================== *)

(** The Go [error] interface, restricted to the dynamic types that flow
    through this program.
    - [errorString]: a package-level sentinel made by [errors.New]; two
      sentinels are the same pointer exactly when their texts agree (the
      sentinels used here all have different texts).
    - [opaqueError]: an error value of an external package that neither
      unwraps nor compares equal to a sentinel (base64, JSON, SQL driver).
    - [wrapError]: [fmt.Errorf] with one or more [%w] verbs.
    - [appError]: a pointer to an [errors.AppError]. *)
Inductive error : Type :=
| errorString (text : string)
| opaqueError (text : string)
| wrapError (text : string) (errs : list error)
| appError (code httpStatus : Z) (message detail : string) (err : option error).

Inductive result (A : Type) : Type :=
| Ok (a : A)
| Err (e : error).
Arguments Ok {A} a.
Arguments Err {A} e.

Definition is_ok {A} (r : result A) : bool :=
  match r with Ok _ => true | Err _ => false end.

(** [err == target] for a sentinel target. *)
Definition same_error (err target : error) : bool :=
  match err, target with
  | errorString a, errorString b => String.eqb a b
  | _, _ => false
  end.

(** [errors.Is(err, target)] of the Go standard library: walk the chain
    through [Unwrap() error] ([AppError]) and [Unwrap() []error]
    ([fmt.Errorf] with [%w]). *)
Fixpoint errors_Is (err target : error) {struct err} : bool :=
  same_error err target ||
  match err with
  | errorString _ => false
  | opaqueError _ => false
  | wrapError _ errs => existsb (fun e => errors_Is e target) errs
  | appError _ _ _ _ (Some e) => errors_Is e target
  | appError _ _ _ _ None => false
  end.

(* ===================================================================== *)
(** ** pkg/errors                                                        *)
(* ===================================================================== *)

Module apperrors.

Definition CodeInternalError : Z := 10006.
Definition CodeInvalidToken : Z := 11001.
Definition CodeTokenExpired : Z := 11002.
Definition CodeInvalidPassword : Z := 11003.
Definition CodeInvalidCredential : Z := 11004.
Definition CodeTokenMalformed : Z := 11005.
Definition CodeTokenNotFound : Z := 11006.
Definition CodeUserNotFound : Z := 20001.
Definition CodeUserDisabled : Z := 20003.
Definition CodeEmailAlreadyUsed : Z := 20004.
Definition CodeUsernameExists : Z := 20005.
Definition CodeDatabaseError : Z := 50001.
Definition CodeDuplicateEntry : Z := 50003.

Definition StatusBadRequest : Z := 400.
Definition StatusUnauthorized : Z := 401.
Definition StatusForbidden : Z := 403.
Definition StatusNotFound : Z := 404.
Definition StatusConflict : Z := 409.
Definition StatusInternalServerError : Z := 500.

Record AppError : Type := {
  Code : Z;
  HTTPStatus : Z;
  Message : string;
  Detail : string;
  Err : option error
}.

(** An [AppError] pointer stored in an [error] interface value. *)
Definition to_error (e : AppError) : error :=
  appError (Code e) (HTTPStatus e) (Message e) (Detail e) (Err e).

Definition WithDetail (e : AppError) (detail : string) : AppError :=
  {| Code := Code e; HTTPStatus := HTTPStatus e; Message := Message e;
     Detail := detail; Err := Err e |}.

Definition WithError (e : AppError) (err : error) : AppError :=
  {| Code := Code e; HTTPStatus := HTTPStatus e; Message := Message e;
     Detail := Detail e; Err := Some err |}.

(** The type assertion of [err] to a pointer to [AppError]. *)
Definition AsAppError (err : error) : option AppError :=
  match err with
  | appError c h m d e =>
      Some {| Code := c; HTTPStatus := h; Message := m; Detail := d; Err := e |}
  | _ => None
  end.


Definition predefined (code status : Z) (message : string) : AppError :=
  {| Code := code; HTTPStatus := status; Message := message;
     Detail := ""; Err := None |}.

Definition ErrInternalServer := predefined CodeInternalError StatusInternalServerError "服务器内部错误".
Definition ErrInvalidToken := predefined CodeInvalidToken StatusUnauthorized "无效的访问令牌".
Definition ErrTokenExpired := predefined CodeTokenExpired StatusUnauthorized "访问令牌已过期".
Definition ErrInvalidPassword := predefined CodeInvalidPassword StatusUnauthorized "密码错误".
Definition ErrInvalidCredential := predefined CodeInvalidCredential StatusUnauthorized "用户名或密码错误".
Definition ErrTokenMalformed := predefined CodeTokenMalformed StatusUnauthorized "令牌格式错误".
Definition ErrTokenNotFound := predefined CodeTokenNotFound StatusUnauthorized "请提供访问令牌".
Definition ErrUserNotFound := predefined CodeUserNotFound StatusNotFound "用户不存在".
Definition ErrUserDisabled := predefined CodeUserDisabled StatusForbidden "用户已被禁用".
Definition ErrEmailAlreadyUsed := predefined CodeEmailAlreadyUsed StatusConflict "该邮箱已被注册".
Definition ErrUsernameExists := predefined CodeUsernameExists StatusConflict "该用户名已被使用".
Definition ErrDatabaseError := predefined CodeDatabaseError StatusInternalServerError "数据库操作失败".
Definition ErrDuplicateEntry := predefined CodeDuplicateEntry StatusConflict "数据已存在".

(** [New], [Wrap] and [WrapWithStatus]. *)
Definition New (code httpStatus : Z) (message : string) : AppError :=
  {| Code := code; HTTPStatus := httpStatus; Message := message;
     Detail := ""; Err := None |}.

Definition Wrap (err : error) (code : Z) (message : string) : AppError :=
  {| Code := code; HTTPStatus := StatusInternalServerError; Message := message;
     Detail := ""; Err := Some err |}.

Definition WrapWithStatus (err : error) (code httpStatus : Z) (message : string) : AppError :=
  {| Code := code; HTTPStatus := httpStatus; Message := message;
     Detail := ""; Err := Some err |}.


End apperrors.

Coercion apperrors.to_error : apperrors.AppError >-> error.

(* ===================================================================== *)
(** ** Package time (as far as the program uses it)                      *)
(* ===================================================================== *)

Module time.

Definition Time : Type := Z.
Definition Duration : Type := Z.

(** The zero [Time] (January 1 of year 1, UTC). *)
Definition zero : Time := -62135596800000000000.

Definition Second : Duration := 1000000000.
Definition Hour : Duration := 3600 * Second.

(** Two's complement wrap-around of [int64] arithmetic. *)
Definition wrap64 (z : Z) : Z := (z + 2 ^ 63) mod 2 ^ 64 - 2 ^ 63.

(** [t.Add(d)] *)
Definition Add (t : Time) (d : Duration) : Time := t + d.

(** [t.Before(u)] *)
Definition Before (t u : Time) : bool := t <? u.

(** [t.Truncate(d)]: round down to a multiple of [d]; [d <= 0] returns
    [t] unchanged. *)
Definition Truncate (t : Time) (d : Duration) : Time :=
  if d <=? 0 then t else t - t mod d.

(** [int64(d.Seconds())]: whole seconds, truncated toward zero (exact
    whenever [d] is a whole number of seconds, as every duration built
    from a number of hours is). *)
Definition Seconds (d : Duration) : Z := Z.quot d Second.

(** [t.After(u)] *)
Definition After (t u : Time) : bool := u <? t.

Definition minDuration : Duration := - 2 ^ 63.
Definition maxDuration : Duration := 2 ^ 63 - 1.

(** [t.Sub(u)]: the difference, or the largest (smallest) duration when
    the difference does not fit. *)
Definition Sub (t u : Time) : Duration :=
  if maxDuration <? t - u then maxDuration
  else if t - u <? minDuration then minDuration
  else t - u.

(** [time.Until(t)], at the reading [now] of [time.Now()]. *)
Definition Until (t now : Time) : Duration := Sub t now.

End time.

(* ===================================================================== *)
(** ** github.com/golang-jwt/jwt/v5 (external library, modelled)         *)
(* ===================================================================== *)

(** The token service delegates encoding, signing, parsing and claim
    validation to the jwt library.  Its control flow (the order of the
    checks in [Parser.ParseWithClaims] and [Validator.Validate], and the
    sentinel errors each check wraps) is written out below; the byte
    level primitives (base64url, JSON, HMAC) are the fields of [Wire]. *)
Module jwt.

Definition ErrInvalidKeyType := errorString "key is of invalid type".
Definition ErrSignatureInvalid := errorString "signature is invalid".
Definition ErrTokenMalformed := errorString "token is malformed".
Definition ErrTokenUnverifiable := errorString "token is unverifiable".
Definition ErrTokenSignatureInvalid := errorString "token signature is invalid".
Definition ErrTokenExpired := errorString "token is expired".
Definition ErrTokenNotValidYet := errorString "token is not valid yet".
Definition ErrTokenInvalidClaims := errorString "token has invalid claims".
Definition NoneSignatureTypeDisallowedError :=
  wrapError "'none' signature type is not allowed" [ErrTokenUnverifiable].

(** [newError(message, err, more...)] and [joinErrors(errs...)]: both
    build a value whose [Unwrap() []error] lists the wrapped errors. *)
Definition newError (message : string) (err : error) (more : list error) : error :=
  wrapError message (err :: more).
Definition joinErrors (errs : list error) : error := wrapError "" errs.

Inductive Hash : Type := SHA256 | SHA384 | SHA512.

Inductive SigningMethod : Type :=
| SigningMethodHMAC (h : Hash)
| SigningMethodRSA (h : Hash)
| SigningMethodRSAPSS (h : Hash)
| SigningMethodECDSA (h : Hash)
| SigningMethodEd25519
| signingMethodNone.

Definition SigningMethodHS256 := SigningMethodHMAC SHA256.

Definition Alg (m : SigningMethod) : string :=
  match m with
  | SigningMethodHMAC SHA256 => "HS256"
  | SigningMethodHMAC SHA384 => "HS384"
  | SigningMethodHMAC SHA512 => "HS512"
  | SigningMethodRSA SHA256 => "RS256"
  | SigningMethodRSA SHA384 => "RS384"
  | SigningMethodRSA SHA512 => "RS512"
  | SigningMethodRSAPSS SHA256 => "PS256"
  | SigningMethodRSAPSS SHA384 => "PS384"
  | SigningMethodRSAPSS SHA512 => "PS512"
  | SigningMethodECDSA SHA256 => "ES256"
  | SigningMethodECDSA SHA384 => "ES384"
  | SigningMethodECDSA SHA512 => "ES512"
  | SigningMethodEd25519 => "EdDSA"
  | signingMethodNone => "none"
  end.

Definition registered_methods : list SigningMethod :=
  [ SigningMethodHMAC SHA256; SigningMethodHMAC SHA384; SigningMethodHMAC SHA512;
    SigningMethodRSA SHA256; SigningMethodRSA SHA384; SigningMethodRSA SHA512;
    SigningMethodRSAPSS SHA256; SigningMethodRSAPSS SHA384; SigningMethodRSAPSS SHA512;
    SigningMethodECDSA SHA256; SigningMethodECDSA SHA384; SigningMethodECDSA SHA512;
    SigningMethodEd25519; signingMethodNone ].

(** [GetSigningMethod(alg)]: the registry lookup; [None] is Go's [nil]. *)
Definition GetSigningMethod (alg : string) : option SigningMethod :=
  find (fun m => String.eqb (Alg m) alg) registered_methods.

(** The type assertion of [token.Method] to the HMAC signing method. *)
Definition is_HMAC (m : SigningMethod) : bool :=
  match m with SigningMethodHMAC _ => true | _ => false end.

(** [TimePrecision] and [NewNumericDate]. *)
Definition TimePrecision : time.Duration := time.Second.
Definition NewNumericDate (t : time.Time) : time.Time :=
  time.Truncate t TimePrecision.

Record RegisteredClaims : Type := {
  Issuer : string;
  Subject : string;
  Audience : list string;
  ExpiresAt : option time.Time;
  NotBefore : option time.Time;
  IssuedAt : option time.Time;
  ID : string
}.

(** [strings.Split(s, ".")] *)
Fixpoint Split (s : string) : list string :=
  match s with
  | EmptyString => [EmptyString]
  | String c rest =>
      if Ascii.eqb c "."%char then EmptyString :: Split rest
      else match Split rest with
           | x :: xs => String c x :: xs
           | [] => [String c EmptyString]
           end
  end.

(** [Validator] with its defaults ([NewValidator()]): no leeway, no
    issued-at check, no expected audience, issuer or subject. *)
Definition verifyExpiresAt (rc : RegisteredClaims) (cmp : time.Time) : option error :=
  match ExpiresAt rc with
  | None => None
  | Some exp => if time.Before cmp exp then None else Some ErrTokenExpired
  end.

Definition verifyNotBefore (rc : RegisteredClaims) (cmp : time.Time) : option error :=
  match NotBefore rc with
  | None => None
  | Some nbf => if negb (time.Before cmp nbf) then None else Some ErrTokenNotValidYet
  end.

Definition Validate (rc : RegisteredClaims) (now : time.Time) : option error :=
  match omap id [verifyExpiresAt rc now; verifyNotBefore rc now] with
  | [] => None
  | errs => Some (joinErrors errs)
  end.

Section Parser.

(** The claims type handed to the parser, with the [RegisteredClaims]
    it embeds (the [Claims] interface getters). *)
Context {C : Type} (registered : C -> RegisteredClaims).

(** Byte-level primitives of the library and of the packages below it.
    [unmarshalHeader] returns the header's ["alg"] entry when it is a
    string. *)
Record Wire : Type := {
  EncodeSegment : string -> string;
  DecodeSegment : string -> option string;
  marshalHeader : string -> string;
  unmarshalHeader : string -> option (option string);
  marshalClaims : C -> string;
  unmarshalClaims : string -> option C;
  hmacSum : Hash -> string -> string -> string
}.

Record Token : Type := {
  Raw : string;
  Method : SigningMethod;
  Claims : C;
  Signature : string;
  Valid : bool
}.

Variable w : Wire.

(** [Verify(signingString, sig, key)] for a key of type [[]byte], the
    only key type the program's key function returns.  The asymmetric
    methods refuse such a key, each with its own wording around
    [ErrInvalidKeyType]. *)
Definition Verify (m : SigningMethod) (signingString sig key : string) : option error :=
  match m with
  | SigningMethodHMAC h =>
      if String.eqb sig (hmacSum w h key signingString) then None
      else Some ErrSignatureInvalid
  | signingMethodNone => Some NoneSignatureTypeDisallowedError
  | _ => Some (newError "verify expects a public key" ErrInvalidKeyType [])
  end.

(** [Sign(signingString, key)] for a key of type [[]byte]. *)
Definition Sign (m : SigningMethod) (signingString key : string) : result string :=
  match m with
  | SigningMethodHMAC h => Ok (hmacSum w h key signingString)
  | signingMethodNone => Err NoneSignatureTypeDisallowedError
  | _ => Err (newError "sign expects a private key" ErrInvalidKeyType [])
  end.

(** [token.SigningString()] of [NewWithClaims(method, claims)]. *)
Definition SigningString (m : SigningMethod) (claims : C) : string :=
  EncodeSegment w (marshalHeader w (Alg m)) +:+ "." +:+
  EncodeSegment w (marshalClaims w claims).

(** [NewWithClaims(method, claims).SignedString(key)] *)
Definition SignedString (m : SigningMethod) (claims : C) (key : string) : result string :=
  let sstr := SigningString m claims in
  match Sign m sstr key with
  | Err e => Err e
  | Ok sig => Ok (sstr +:+ "." +:+ EncodeSegment w sig)
  end.

(** [Parser.ParseUnverified]: split, decode header and claims, look
    the signing method up.  (A header that does not decode gets one of
    two messages, both wrapping [ErrTokenMalformed].) *)
Definition ParseUnverified (tokenString : string) : result (Token * list string) :=
  match Split tokenString with
  | [p0; p1; p2] =>
      match DecodeSegment w p0 with
      | None => Err (newError "could not base64 decode header" ErrTokenMalformed
                              [opaqueError "illegal base64 data"])
      | Some headerBytes =>
      match unmarshalHeader w headerBytes with
      | None => Err (newError "could not JSON decode header" ErrTokenMalformed
                              [opaqueError "invalid JSON"])
      | Some alg =>
      match DecodeSegment w p1 with
      | None => Err (newError "could not base64 decode claim" ErrTokenMalformed
                              [opaqueError "illegal base64 data"])
      | Some claimBytes =>
      match unmarshalClaims w claimBytes with
      | None => Err (newError "could not JSON decode claim" ErrTokenMalformed
                              [opaqueError "invalid JSON"])
      | Some claims =>
      match alg with
      | None => Err (newError "signing method (alg) is unspecified" ErrTokenUnverifiable [])
      | Some method =>
      match GetSigningMethod method with
      | None => Err (newError "signing method (alg) is unavailable" ErrTokenUnverifiable [])
      | Some m =>
          Ok ({| Raw := tokenString; Method := m; Claims := claims;
                 Signature := ""; Valid := false |}, [p0; p1; p2])
      end end end end end end
  | _ => Err (newError "token contains an invalid number of segments" ErrTokenMalformed [])
  end.

(** [ParseWithClaims(tokenString, claims, keyFunc)] with the default
    parser options, at wall-clock reading [now]. *)
Definition ParseWithClaims (tokenString : string)
    (keyFunc : Token -> result string) (now : time.Time) : result Token :=
  match ParseUnverified tokenString with
  | Err e => Err e
  | Ok (token, parts) =>
      match DecodeSegment w (nth 2 parts "") with
      | None => Err (newError "could not base64 decode signature" ErrTokenMalformed
                              [opaqueError "illegal base64 data"])
      | Some sig =>
      let token := {| Raw := Raw token; Method := Method token;
                      Claims := Claims token; Signature := sig; Valid := false |} in
      let text := nth 0 parts "" +:+ "." +:+ nth 1 parts "" in
      match keyFunc token with
      | Err e => Err (newError "error while executing keyfunc" ErrTokenUnverifiable [e])
      | Ok key =>
      match Verify (Method token) text sig key with
      | Some e => Err (newError "" ErrTokenSignatureInvalid [e])
      | None =>
      match Validate (registered (Claims token)) now with
      | Some e => Err (newError "" ErrTokenInvalidClaims [e])
      | None =>
          Ok {| Raw := Raw token; Method := Method token;
                Claims := Claims token; Signature := sig; Valid := true |}
      end end end end
  end.

(** The decoded parts of a structurally sound token: the header's
    [alg], the claims, the signed text and the signature bytes. *)
Definition segments (tokenString : string) : option (string * C * string * string) :=
  match Split tokenString with
  | [p0; p1; p2] =>
      headerBytes ← DecodeSegment w p0;
      alg ← unmarshalHeader w headerBytes;
      claimBytes ← DecodeSegment w p1;
      claims ← unmarshalClaims w claimBytes;
      sig ← DecodeSegment w p2;
      method ← alg;
      Some (method, claims, p0 +:+ "." +:+ p1, sig)
  | _ => None
  end.

End Parser.

(** The validity window the default validator enforces; an absent
    claim constrains nothing. *)
Definition in_window (rc : RegisteredClaims) (now : time.Time) : Prop :=
  (forall nbf, NotBefore rc = Some nbf -> nbf <= now) /\
  (forall exp, ExpiresAt rc = Some exp -> now < exp).

Arguments Token : clear implicits.
Arguments Wire : clear implicits.

End jwt.

(* ===================================================================== *)
(** ** internal/config (the two records the core reads)                  *)
(* ===================================================================== *)

Module config.

Record JWTConfig : Type := {
  Secret : string;
  Issuer : string;
  AccessTokenExpire : Z;     (* hours, a Go [int] *)
  RefreshTokenExpire : Z     (* hours, a Go [int] *)
}.

(** [time.Duration(c.AccessTokenExpire) * time.Hour], an [int64] product. *)
Definition AccessTokenExpireDuration (c : JWTConfig) : time.Duration :=
  time.wrap64 (AccessTokenExpire c * time.Hour).

Definition RefreshTokenExpireDuration (c : JWTConfig) : time.Duration :=
  time.wrap64 (RefreshTokenExpire c * time.Hour).

Record Config : Type := {
  JWT : JWTConfig;
  BcryptCost : Z             (* [Security.BcryptCost] *)
}.

End config.

(* ===================================================================== *)
(** ** internal/model                                                    *)
(* ===================================================================== *)

Module model.

Record User : Type := {
  ID : string;
  CreatedAt : time.Time;
  UpdatedAt : time.Time;
  Username : string;
  Email : string;
  Password : string;
  Nickname : string;
  Avatar : string;
  Phone : string;
  Bio : string;
  Gender : Z;
  Birthday : option time.Time;
  Status : Z;
  Role : string;
  LastLoginAt : option time.Time;
  LastLoginIP : string;
  DeletedAt : option time.Time
}.

Definition UserStatusDisabled : Z := 0.
Definition UserStatusActive : Z := 1.
Definition UserStatusInactive : Z := 2.

Definition RoleUser : string := "user".
Definition RoleAdmin : string := "admin".

Definition IsActive (u : User) : bool := Status u =? UserStatusActive.
Definition IsDisabled (u : User) : bool := Status u =? UserStatusDisabled.
Definition IsAdmin (u : User) : bool := String.eqb (Role u) RoleAdmin.

Record UserResponse : Type := {
  resp_ID : string;
  resp_Username : string;
  resp_Email : string;
  resp_Nickname : string;
  resp_Avatar : string;
  resp_Phone : string;
  resp_Bio : string;
  resp_Gender : Z;
  resp_Birthday : option time.Time;
  resp_Status : Z;
  resp_Role : string;
  resp_LastLoginAt : option time.Time;
  resp_CreatedAt : time.Time;
  resp_UpdatedAt : time.Time
}.

Definition ToResponse (u : User) : UserResponse :=
  {| resp_ID := ID u; resp_Username := Username u; resp_Email := Email u;
     resp_Nickname := Nickname u; resp_Avatar := Avatar u; resp_Phone := Phone u;
     resp_Bio := Bio u; resp_Gender := Gender u; resp_Birthday := Birthday u;
     resp_Status := Status u; resp_Role := Role u;
     resp_LastLoginAt := LastLoginAt u; resp_CreatedAt := CreatedAt u;
     resp_UpdatedAt := UpdatedAt u |}.

Record RegisterRequest : Type := {
  reg_Username : string;
  reg_Email : string;
  reg_Password : string;
  reg_ConfirmPassword : string;
  reg_Nickname : string
}.

Record LoginRequest : Type := {
  login_Username : string;
  login_Password : string
}.

Record LoginResponse : Type := {
  AccessToken : string;
  RefreshToken : string;
  TokenType : string;
  ExpiresIn : Z;
  User_ : UserResponse
}.

Record RefreshTokenResponse : Type := {
  rt_AccessToken : string;
  rt_RefreshToken : string;
  rt_TokenType : string;
  rt_ExpiresIn : Z
}.

Record ChangePasswordRequest : Type := {
  OldPassword : string;
  NewPassword : string;
  ConfirmPassword : string
}.

(** [Pagination] and [NewPagination] (base.go).  The fields are Go
    [int]s; only [Offset] and the page count do arithmetic on them. *)
Record Pagination : Type := {
  Page : Z;
  PageSize : Z
}.

Definition NewPagination (page pageSize defaultPageSize maxPageSize : Z) : Pagination :=
  let page := if page <? 1 then 1 else page in
  let pageSize := if pageSize <? 1 then defaultPageSize else pageSize in
  let pageSize := if maxPageSize <? pageSize then maxPageSize else pageSize in
  {| Page := page; PageSize := pageSize |}.

Definition Offset (p : Pagination) : Z :=
  time.wrap64 (time.wrap64 (Page p - 1) * PageSize p).

Definition Limit (p : Pagination) : Z := PageSize p.

Record PageResult (T : Type) : Type := {
  pr_List : list T;
  pr_Total : Z;
  pr_Page : Z;
  pr_PageSize : Z;
  pr_TotalPages : Z
}.
Arguments pr_List {T} _.
Arguments pr_Total {T} _.
Arguments pr_Page {T} _.
Arguments pr_PageSize {T} _.
Arguments pr_TotalPages {T} _.

(** [NewPageResult]; [None] is the run-time panic of an integer division
    by zero. *)
Definition NewPageResult {T : Type} (list : list T) (total : Z) (pagination : Pagination)
    : option (PageResult T) :=
  if PageSize pagination =? 0 then None
  else
    let totalPages := time.wrap64 (Z.quot total (PageSize pagination)) in
    let totalPages :=
      if 0 <? Z.rem total (PageSize pagination) then time.wrap64 (totalPages + 1)
      else totalPages in
    Some {| pr_List := list; pr_Total := total; pr_Page := Page pagination;
            pr_PageSize := PageSize pagination; pr_TotalPages := totalPages |}.

(** [UserListRequest] (dto.go) with its two defaulting getters. *)
Record UserListRequest : Type := {
  list_Page : Z;
  list_PageSize : Z;
  list_Username : string;
  list_Email : string;
  list_Status : option Z;
  list_Role : string;
  list_SortBy : string;
  list_SortOrder : string
}.

Definition GetDefaultPage (r : UserListRequest) : Z :=
  if list_Page r <? 1 then 1 else list_Page r.

Definition GetDefaultPageSize (r : UserListRequest) (defaultSize maxSize : Z) : Z :=
  if list_PageSize r <? 1 then defaultSize
  else if maxSize <? list_PageSize r then maxSize
  else list_PageSize r.

End model.

(* ===================================================================== *)
(** ** internal/service/jwt_service.go                                   *)
(* ===================================================================== *)

Module jwtService.

Definition TokenTypeAccess : string := "access".
Definition TokenTypeRefresh : string := "refresh".

Record TokenClaims : Type := {
  UserID : string;
  Username : string;
  Email : string;
  Role : string;
  TokenType : string;
  RegisteredClaims : jwt.RegisteredClaims
}.

Definition IsAccessToken (c : TokenClaims) : bool :=
  String.eqb (TokenType c) TokenTypeAccess.

Definition IsRefreshToken (c : TokenClaims) : bool :=
  String.eqb (TokenType c) TokenTypeRefresh.

(** [IsExpired], at the reading [now] of [time.Now()]. *)
Definition IsExpired (c : TokenClaims) (now : time.Time) : bool :=
  match jwt.ExpiresAt (RegisteredClaims c) with
  | None => true
  | Some exp => time.After now exp
  end.

(** [TimeToExpire], at the reading [now] of [time.Now()]. *)
Definition TimeToExpire (c : TokenClaims) (now : time.Time) : time.Duration :=
  match jwt.ExpiresAt (RegisteredClaims c) with
  | None => -1
  | Some exp => time.Until exp now
  end.

(** [handleParseError] *)
Definition handleParseError (err : error) : apperrors.AppError :=
  if errors_Is err jwt.ErrTokenExpired then apperrors.ErrTokenExpired
  else if errors_Is err jwt.ErrSignatureInvalid then
    apperrors.WithDetail apperrors.ErrInvalidToken "令牌签名无效"
  else if errors_Is err jwt.ErrTokenMalformed then apperrors.ErrTokenMalformed
  else if errors_Is err jwt.ErrTokenNotValidYet then
    apperrors.WithDetail apperrors.ErrInvalidToken "令牌尚未生效"
  else apperrors.WithError apperrors.ErrInvalidToken err.

Section Service.

Variable wire : jwt.Wire TokenClaims.
Variable cfg : config.JWTConfig.

(** The claims literal of [generateToken]. *)
Definition newClaims (user : model.User) (tokenType : string)
    (expiration : time.Duration) (now : time.Time) : TokenClaims :=
  {| UserID := model.ID user;
     Username := model.Username user;
     Email := model.Email user;
     Role := model.Role user;
     TokenType := tokenType;
     RegisteredClaims :=
       {| jwt.Issuer := config.Issuer cfg;
          jwt.Subject := model.ID user;
          jwt.Audience := [];
          jwt.ExpiresAt := Some (jwt.NewNumericDate (time.Add now expiration));
          jwt.NotBefore := Some (jwt.NewNumericDate now);
          jwt.IssuedAt := Some (jwt.NewNumericDate now);
          jwt.ID := "" |} |}.

(** [generateToken], at the reading [now] of [time.Now()]. *)
Definition generateToken (user : model.User) (tokenType : string)
    (expiration : time.Duration) (now : time.Time) : result string :=
  let claims := newClaims user tokenType expiration now in
  match jwt.SignedString wire jwt.SigningMethodHS256 claims (config.Secret cfg) with
  | Err err => Err err
  | Ok tokenString => Ok tokenString
  end.

Definition GenerateAccessToken (user : model.User) (now : time.Time) : result string :=
  generateToken user TokenTypeAccess (config.AccessTokenExpireDuration cfg) now.

Definition GenerateRefreshToken (user : model.User) (now : time.Time) : result string :=
  generateToken user TokenTypeRefresh (config.RefreshTokenExpireDuration cfg) now.

(** The key function passed to [jwt.ParseWithClaims]. *)
Definition keyFunc (token : jwt.Token TokenClaims) : result string :=
  if negb (jwt.is_HMAC (jwt.Method token)) then
    Err (apperrors.WithDetail apperrors.ErrTokenMalformed "无效的签名算法")
  else Ok (config.Secret cfg).

(** [ValidateToken], at the reading [now] of the validator's
    [time.Now()].  The final type assertion of [token.Claims] cannot
    fail: the parser stores the claims value it was given. *)
Definition ValidateToken (tokenString : string) (now : time.Time) : result TokenClaims :=
  match jwt.ParseWithClaims RegisteredClaims wire tokenString keyFunc now with
  | Err err => Err (handleParseError err)
  | Ok token =>
      if negb (jwt.Valid token) then Err apperrors.ErrInvalidToken
      else Ok (jwt.Claims token)
  end.

(** [GenerateTokenPair]; [now1] and [now2] are the two readings of the
    clock, one per token. *)
Definition GenerateTokenPair (user : model.User) (now1 now2 : time.Time)
    : result (string * string) :=
  match GenerateAccessToken user now1 with
  | Err err => Err err
  | Ok accessToken =>
      match GenerateRefreshToken user now2 with
      | Err err => Err err
      | Ok refreshToken => Ok (accessToken, refreshToken)
      end
  end.

(** [ParseTokenUnvalidated] *)
Definition ParseTokenUnvalidated (tokenString : string) : result TokenClaims :=
  match jwt.ParseUnverified wire tokenString with
  | Err err => Err (apperrors.WithError apperrors.ErrTokenMalformed err)
  | Ok (token, _) => Ok (jwt.Claims token)
  end.

End Service.

End jwtService.

(* ===================================================================== *)
(** ** Stateful calls                                                    *)
(* ===================================================================== *)

(** A method that may touch the store, the clock or a random source. *)
Definition M (S A : Type) : Type := S -> result A * S.

Definition ret {S A} (a : A) : M S A := fun s => (Ok a, s).
Definition fail {S A} (e : error) : M S A := fun s => (Err e, s).

(** Run [m]; on an error return [h err], otherwise continue with [k]. *)
Definition bindE {S A B} (m : M S A) (h : error -> error) (k : A -> M S B) : M S B :=
  fun s => match m s with
           | (Err e, s') => (Err (h e), s')
           | (Ok a, s') => k a s'
           end.

Definition bind {S A B} (m : M S A) (k : A -> M S B) : M S B := bindE m id k.

(** Run [m] and drop its error, as in [if err := m; err != nil { log }]. *)
Definition ignore_error {S A} (m : M S A) : M S unit :=
  fun s => (Ok tt, snd (m s)).

Declare Scope go_scope.
Delimit Scope go_scope with go.
Notation "x <- m ;; k" := (bind m (fun x => k))
  (at level 100, m at level 99, k at level 200, only parsing) : go_scope.
Notation "x <- m 'onerr' h ;; k" := (bindE m h (fun x => k))
  (at level 100, m at level 99, h at level 99, k at level 200, only parsing) : go_scope.
Notation "m ;;; k" := (bind m (fun _ => k))
  (at level 100, k at level 200, only parsing) : go_scope.

(* ===================================================================== *)
(** ** The interfaces the services are written against                   *)
(* ===================================================================== *)

(** [repository.UserRepository], the methods the core calls.  [Create]
    returns the record as the store completed it (Go fills the pointed-to
    [User] in place). *)
Module UserRepository.
Class UserRepository (S : Type) : Type := {
  Create : model.User -> M S model.User;
  GetByID : string -> M S model.User;
  GetByUsernameOrEmail : string -> M S model.User;
  ExistsByUsername : string -> M S bool;
  ExistsByEmail : string -> M S bool;
  UpdatePassword : string -> string -> M S unit;
  UpdateLastLogin : string -> string -> M S unit
}.
End UserRepository.

(** [service.JWTService], the methods the core calls. *)
Module JWTService.
Class JWTService (S : Type) : Type := {
  GenerateAccessToken : model.User -> M S string;
  GenerateRefreshToken : model.User -> M S string;
  ValidateToken : string -> M S jwtService.TokenClaims
}.
End JWTService.

(** [golang.org/x/crypto/bcrypt] (external): hashing draws a salt from
    the random source; comparison is a pure function of its arguments. *)
Module bcrypt.
Class Bcrypt (S : Type) : Type := {
  GenerateFromPassword : string -> Z -> M S string;
  CompareHashAndPassword : string -> string -> option error
}.
End bcrypt.

(** The methods of [repository.UserRepository] that the service's
    [Delete] and [CreateAdmin] call besides. *)
Module UserRepositoryAdmin.
Class UserRepositoryAdmin (S : Type) : Type := {
  Delete : string -> M S unit;
  Count : M S Z
}.
End UserRepositoryAdmin.

(** [time.Now()] *)
Module clock.
Class Clock (S : Type) : Type := {
  Now : M S time.Time
}.
End clock.

(* ===================================================================== *)
(** ** internal/service/user_service.go                                  *)
(* ===================================================================== *)

Module userService.

Section Service.

Context {S : Type}.
Context {userRepo : UserRepository.UserRepository S}.
Context {jwtSvc : JWTService.JWTService S}.
Context {crypt : bcrypt.Bcrypt S}.
Variable cfg : config.Config.

Local Open Scope go_scope.

(** [hashPassword] *)
Definition hashPassword (password : string) : M S string :=
  bytes <- bcrypt.GenerateFromPassword password (config.BcryptCost cfg) ;;
  ret bytes.

(** [checkPassword] *)
Definition checkPassword (password hashedPassword : string) : bool :=
  match bcrypt.CompareHashAndPassword hashedPassword password with
  | None => true
  | Some _ => false
  end.

(** [Register] *)
Definition Register (req : model.RegisterRequest) : M S model.User :=
  exists_ <- UserRepository.ExistsByUsername (model.reg_Username req) ;;
  if (exists_ : bool) then fail apperrors.ErrUsernameExists else
  exists_ <- UserRepository.ExistsByEmail (model.reg_Email req) ;;
  if (exists_ : bool) then fail apperrors.ErrEmailAlreadyUsed else
  hashedPassword <- hashPassword (model.reg_Password req)
    onerr (fun err => apperrors.WithError apperrors.ErrInternalServer err) ;;
  let user :=
    {| model.ID := ""; model.CreatedAt := time.zero; model.UpdatedAt := time.zero;
       model.Username := model.reg_Username req;
       model.Email := model.reg_Email req;
       model.Password := hashedPassword;
       model.Nickname :=
         (if String.eqb (model.reg_Nickname req) "" then model.reg_Username req
          else model.reg_Nickname req);
       model.Avatar := ""; model.Phone := ""; model.Bio := "";
       model.Gender := 0; model.Birthday := None;
       model.Status := model.UserStatusActive;
       model.Role := model.RoleUser;
       model.LastLoginAt := None; model.LastLoginIP := "";
       model.DeletedAt := None |} in
  user <- UserRepository.Create user ;;
  ret user.

(** [Login] *)
Definition Login (req : model.LoginRequest) (clientIP : string) : M S model.LoginResponse :=
  user <- UserRepository.GetByUsernameOrEmail (model.login_Username req)
    onerr (fun err =>
             match apperrors.AsAppError err with
             | Some appErr =>
                 if apperrors.Code appErr =? apperrors.CodeUserNotFound
                 then apperrors.to_error apperrors.ErrInvalidCredential
                 else err
             | None => err
             end) ;;
  if model.IsDisabled user then fail apperrors.ErrUserDisabled else
  if negb (checkPassword (model.login_Password req) (model.Password user))
  then fail apperrors.ErrInvalidCredential else
  accessToken <- JWTService.GenerateAccessToken user
    onerr (fun err => apperrors.WithError apperrors.ErrInternalServer err) ;;
  refreshToken <- JWTService.GenerateRefreshToken user
    onerr (fun err => apperrors.WithError apperrors.ErrInternalServer err) ;;
  ignore_error (UserRepository.UpdateLastLogin (model.ID user) clientIP) ;;;
  ret {| model.AccessToken := accessToken;
         model.RefreshToken := refreshToken;
         model.TokenType := "Bearer";
         model.ExpiresIn :=
           time.Seconds (config.AccessTokenExpireDuration (config.JWT cfg));
         model.User_ := model.ToResponse user |}.

(** [UpdatePassword] *)
Definition UpdatePassword (id : string) (req : model.ChangePasswordRequest) : M S unit :=
  user <- UserRepository.GetByID id ;;
  if negb (checkPassword (model.OldPassword req) (model.Password user))
  then fail apperrors.ErrInvalidPassword else
  hashedPassword <- hashPassword (model.NewPassword req)
    onerr (fun err => apperrors.WithError apperrors.ErrInternalServer err) ;;
  UserRepository.UpdatePassword id hashedPassword ;;;
  ret tt.

(** [RefreshToken] *)
Definition RefreshToken (refreshToken : string) : M S model.RefreshTokenResponse :=
  claims <- JWTService.ValidateToken refreshToken ;;
  if negb (String.eqb (jwtService.TokenType claims) jwtService.TokenTypeRefresh)
  then fail (apperrors.WithDetail apperrors.ErrInvalidToken "不是有效的刷新令牌") else
  user <- UserRepository.GetByID (jwtService.UserID claims) ;;
  if model.IsDisabled user then fail apperrors.ErrUserDisabled else
  accessToken <- JWTService.GenerateAccessToken user
    onerr (fun err => apperrors.WithError apperrors.ErrInternalServer err) ;;
  ret {| model.rt_AccessToken := accessToken;
         model.rt_RefreshToken := "";
         model.rt_TokenType := "Bearer";
         model.rt_ExpiresIn :=
           time.Seconds (config.AccessTokenExpireDuration (config.JWT cfg)) |}.

End Service.

Section Administration.

Context {S : Type}.
Context {userRepo : UserRepository.UserRepository S}.
Context {userRepoAdmin : UserRepositoryAdmin.UserRepositoryAdmin S}.
Context {crypt : bcrypt.Bcrypt S}.
Context {clk : clock.Clock S}.
Variable cfg : config.Config.

Local Open Scope go_scope.

(** [Delete] *)
Definition Delete (id : string) : M S unit :=
  user <- UserRepository.GetByID id ;;
  UserRepositoryAdmin.Delete id ;;;
  ret tt.

(** [CreateAdmin]; [None] is the [nil] user returned, with a [nil]
    error, when an account exists already. *)
Definition CreateAdmin (username email password : string) : M S (option model.User) :=
  count <- UserRepositoryAdmin.Count ;;
  if 0 <? count then ret None else
  hashedPassword <- hashPassword cfg password
    onerr (fun err => apperrors.WithError apperrors.ErrInternalServer err) ;;
  now <- clock.Now ;;
  let admin :=
    {| model.ID := ""; model.CreatedAt := time.zero; model.UpdatedAt := time.zero;
       model.Username := username;
       model.Email := email;
       model.Password := hashedPassword;
       model.Nickname := "Administrator";
       model.Avatar := ""; model.Phone := ""; model.Bio := "";
       model.Gender := 0; model.Birthday := None;
       model.Status := model.UserStatusActive;
       model.Role := model.RoleAdmin;
       model.LastLoginAt := Some now; model.LastLoginIP := "";
       model.DeletedAt := None |} in
  admin <- UserRepository.Create admin ;;
  ret (Some admin).

End Administration.

End userService.

(* ===================================================================== *)
(** ** gin.Context and pkg/response (as far as the middleware uses them) *)
(* ===================================================================== *)

Module gin.

(** Values stored under the context keys. *)
Inductive Value : Type :=
| VString (s : string)
| VClaims (c : jwtService.TokenClaims).

(** [response.Response] with a [nil] [Data]. *)
Record Body : Type := { body_Code : Z; body_Message : string }.

Record Context : Type := {
  Header : gmap string string;       (* request headers *)
  Keys : gmap string Value;          (* per-request key/value store *)
  IsAborted : bool;
  Written : option (Z * Body)        (* HTTP status and JSON body sent *)
}.

(** [c.GetHeader(key)]: the empty string when the header is absent. *)
Definition GetHeader (c : Context) (key : string) : string :=
  default "" (Header c !! key).

Definition Set_ (c : Context) (key : string) (v : Value) : Context :=
  {| Header := Header c; Keys := <[key := v]> (Keys c);
     IsAborted := IsAborted c; Written := Written c |}.

Definition Get (c : Context) (key : string) : option Value := Keys c !! key.

Definition Abort (c : Context) : Context :=
  {| Header := Header c; Keys := Keys c; IsAborted := true; Written := Written c |}.

Definition JSON (c : Context) (httpCode : Z) (body : Body) : Context :=
  {| Header := Header c; Keys := Keys c; IsAborted := IsAborted c;
     Written := Some (httpCode, body) |}.

End gin.

Module response.

Definition CodeUnauthorized : Z := 10002.
Definition MsgUnauthorized : string := "请先登录".

Definition JSON (c : gin.Context) (httpCode code : Z) (message : string) : gin.Context :=
  gin.JSON c httpCode {| gin.body_Code := code; gin.body_Message := message |}.

Definition Abort (c : gin.Context) (httpCode code : Z) (message : string) : gin.Context :=
  JSON (gin.Abort c) httpCode code message.

Definition AbortWithUnauthorized (c : gin.Context) (message : string) : gin.Context :=
  let message := if String.eqb message "" then MsgUnauthorized else message in
  Abort c apperrors.StatusUnauthorized CodeUnauthorized message.

Definition CodeForbidden : Z := 10003.
Definition MsgForbidden : string := "没有权限访问".

Definition AbortWithForbidden (c : gin.Context) (message : string) : gin.Context :=
  let message := if String.eqb message "" then MsgForbidden else message in
  Abort c apperrors.StatusForbidden CodeForbidden message.

End response.

(* ===================================================================== *)
(** ** internal/middleware/middleware.go: AuthMiddleware                 *)
(* ===================================================================== *)

Module middleware.

Definition AuthorizationHeader : string := "Authorization".
Definition BearerPrefix : string := "Bearer ".
Definition ContextKeyUserID : string := "userID".
Definition ContextKeyUsername : string := "username".
Definition ContextKeyUserRole : string := "userRole".
Definition ContextKeyUserEmail : string := "userEmail".
Definition ContextKeyClaims : string := "claims".

(** [strings.TrimPrefix] *)
Definition TrimPrefix (s p : string) : string :=
  if String.prefix p s
  then String.substring (String.length p) (String.length s - String.length p) s
  else s.

(** [extractToken] *)
Definition extractToken (c : gin.Context) : apperrors.AppError + string :=
  let authHeader := gin.GetHeader c AuthorizationHeader in
  if String.eqb authHeader "" then inl apperrors.ErrTokenNotFound
  else if negb (String.prefix BearerPrefix authHeader) then
    inl (apperrors.WithDetail apperrors.ErrTokenMalformed "令牌必须以 Bearer 开头")
  else
    let token := TrimPrefix authHeader BearerPrefix in
    if String.eqb token "" then inl apperrors.ErrTokenNotFound
    else inr token.

(** [setContextValues] *)
Definition setContextValues (c : gin.Context) (claims : jwtService.TokenClaims) : gin.Context :=
  let c := gin.Set_ c ContextKeyUserID (gin.VString (jwtService.UserID claims)) in
  let c := gin.Set_ c ContextKeyUsername (gin.VString (jwtService.Username claims)) in
  let c := gin.Set_ c ContextKeyUserRole (gin.VString (jwtService.Role claims)) in
  let c := gin.Set_ c ContextKeyUserEmail (gin.VString (jwtService.Email claims)) in
  gin.Set_ c ContextKeyClaims (gin.VClaims claims).

Section AuthMiddleware.

Context {S : Type} {jwtSvc : JWTService.JWTService S}.

(** [validateToken] *)
Definition validateToken (token : string) (s : S)
    : (apperrors.AppError + jwtService.TokenClaims) * S :=
  match JWTService.ValidateToken token s with
  | (Err err, s') =>
      match apperrors.AsAppError err with
      | Some appErr => (inl appErr, s')
      | None => (inl (apperrors.WithError apperrors.ErrInvalidToken err), s')
      end
  | (Ok claims, s') => (inr claims, s')
  end.

(** The handler returned by [RequireAuth]; [next] is the rest of the
    handler chain, run by [c.Next()]. *)
Definition RequireAuth (next : gin.Context -> S -> gin.Context * S)
    (c : gin.Context) (s : S) : gin.Context * S :=
  match extractToken c with
  | inl err => (response.AbortWithUnauthorized c (apperrors.Message err), s)
  | inr token =>
      match validateToken token s with
      | (inl err, s') => (response.AbortWithUnauthorized c (apperrors.Message err), s')
      | (inr claims, s') =>
          if negb (jwtService.IsAccessToken claims) then
            (response.AbortWithUnauthorized c "请使用访问令牌", s')
          else next (setContextValues c claims) s'
      end
  end.

(** The handler returned by [OptionalAuth]. *)
Definition OptionalAuth (next : gin.Context -> S -> gin.Context * S)
    (c : gin.Context) (s : S) : gin.Context * S :=
  match extractToken c with
  | inl _ => next c s
  | inr token =>
      match validateToken token s with
      | (inl _, s') => next c s'
      | (inr claims, s') =>
          if negb (jwtService.IsAccessToken claims) then next c s'
          else next (setContextValues c claims) s'
      end
  end.

End AuthMiddleware.

(** [RequireRole(roles...)]: the set built from [roles], then the
    handler.  A stored role that is not a string reads as the empty
    role and is refused. *)
Definition roleSet (roles : list string) : gmap string bool :=
  fold_left (fun m role => <[role := true]> m) roles ∅.

Definition RequireRole {S : Type} (roles : list string)
    (next : gin.Context -> S -> gin.Context * S)
    (c : gin.Context) (s : S) : gin.Context * S :=
  let roleSet := roleSet roles in
  match gin.Get c ContextKeyUserRole with
  | None => (response.AbortWithUnauthorized c "", s)
  | Some userRole =>
      let (role, ok) :=
        match userRole with
        | gin.VString role => (role, true)
        | gin.VClaims _ => ("", false)
        end in
      if negb ok || negb (default false (roleSet !! role)) then
        (response.AbortWithForbidden c "权限不足", s)
      else next c s
  end.

(** [RequireAdmin] *)
Definition RequireAdmin {S : Type} (next : gin.Context -> S -> gin.Context * S)
    : gin.Context -> S -> gin.Context * S :=
  RequireRole ["admin"] next.

(** [GetUserID], [GetUsername], [GetUserRole], [GetUserEmail]. *)
Definition get_string (c : gin.Context) (key : string) : string :=
  match gin.Get c key with
  | None => ""
  | Some (gin.VString v) => v
  | Some (gin.VClaims _) => ""
  end.

Definition GetUserID (c : gin.Context) : string := get_string c ContextKeyUserID.
Definition GetUsername (c : gin.Context) : string := get_string c ContextKeyUsername.
Definition GetUserRole (c : gin.Context) : string := get_string c ContextKeyUserRole.
Definition GetUserEmail (c : gin.Context) : string := get_string c ContextKeyUserEmail.

(** [GetClaims]; [None] is Go's [nil]. *)
Definition GetClaims (c : gin.Context) : option jwtService.TokenClaims :=
  match gin.Get c ContextKeyClaims with
  | None => None
  | Some (gin.VClaims claims) => Some claims
  | Some (gin.VString _) => None
  end.

(** [IsAuthenticated] and [IsAdmin]. *)
Definition IsAuthenticated (c : gin.Context) : bool := negb (String.eqb (GetUserID c) "").
Definition IsAdmin (c : gin.Context) : bool := String.eqb (GetUserRole c) "admin".

End middleware.

(* ===================================================================== *)
(** ** The world outside the process                                     *)
(* ===================================================================== *)

(** The [users] table, the availability of the database, and a counter
    of the readings taken so far from the clock and the random source. *)
Record World : Type := {
  rows : list model.User;      (* in primary key order *)
  down : option string;        (* [Some text]: every statement fails with this driver error *)
  ticks : nat
}.

(** What the environment answers: the clock and random readings, how the
    database compares two texts under the collation of its columns
    (byte-wise in SQLite, case-insensitive under the MySQL schema), the
    text the SQL driver reports for a violated unique index, the bcrypt
    functions and the jwt library's byte-level primitives. *)
Record Env : Type := {
  wall : nat -> time.Time;
  random : nat -> string;
  sql_eq : string -> string -> bool;
  unique_violation : string -> string;
  bcrypt_generate : string -> string -> Z -> result string;
  bcrypt_compare : string -> string -> option error;
  wire : jwt.Wire jwtService.TokenClaims
}.

Definition tick (w : World) : World :=
  {| rows := rows w; down := down w; ticks := Datatypes.S (ticks w) |}.

Definition set_rows (w : World) (l : list model.User) : World :=
  {| rows := l; down := down w; ticks := ticks w |}.

(* ===================================================================== *)
(** ** gorm (external library, modelled)                                 *)
(* ===================================================================== *)

Module gorm.

Definition ErrRecordNotFound := errorString "record not found".

(** A model with a [gorm.DeletedAt] field is queried with
    [deleted_at IS NULL] added to every condition. *)
Definition live (u : model.User) : bool :=
  match model.DeletedAt u with None => true | Some _ => false end.

(** [db.Where(cond).First(&user)]: the first matching live row in
    primary key order, or [ErrRecordNotFound]. *)
Definition First (cond : model.User -> bool) (w : World) : result model.User :=
  match down w with
  | Some text => Err (opaqueError text)
  | None =>
      match find (fun u => live u && cond u) (rows w) with
      | Some u => Ok u
      | None => Err ErrRecordNotFound
      end
  end.

(** [db.Model(&User{}).Where(cond).Count(&count)] *)
Definition Count (cond : model.User -> bool) (w : World) : result Z :=
  match down w with
  | Some text => Err (opaqueError text)
  | None => Ok (Z.of_nat (length (List.filter (fun u => live u && cond u) (rows w))))
  end.

(** A value in an [Updates] map: a string, or [gorm.Expr("NOW()")]. *)
Inductive FieldValue : Type :=
| FString (s : string)
| FNow.

Definition set_column (now : time.Time) (u : model.User) (col : string * FieldValue)
    : model.User :=
  let (name, v) := col in
  let str := match v with FString s => s | FNow => "" end in
  {| model.ID := model.ID u; model.CreatedAt := model.CreatedAt u;
     model.UpdatedAt := model.UpdatedAt u;
     model.Username := model.Username u; model.Email := model.Email u;
     model.Password := if String.eqb name "password" then str else model.Password u;
     model.Nickname := model.Nickname u; model.Avatar := model.Avatar u;
     model.Phone := model.Phone u; model.Bio := model.Bio u;
     model.Gender := model.Gender u; model.Birthday := model.Birthday u;
     model.Status := model.Status u; model.Role := model.Role u;
     model.LastLoginAt :=
       if String.eqb name "last_login_at"
       then match v with FNow => Some now | FString _ => model.LastLoginAt u end
       else model.LastLoginAt u;
     model.LastLoginIP :=
       if String.eqb name "last_login_ip" then str else model.LastLoginIP u;
     model.DeletedAt := model.DeletedAt u |}.

Definition touch (now : time.Time) (u : model.User) : model.User :=
  {| model.ID := model.ID u; model.CreatedAt := model.CreatedAt u;
     model.UpdatedAt := now;
     model.Username := model.Username u; model.Email := model.Email u;
     model.Password := model.Password u;
     model.Nickname := model.Nickname u; model.Avatar := model.Avatar u;
     model.Phone := model.Phone u; model.Bio := model.Bio u;
     model.Gender := model.Gender u; model.Birthday := model.Birthday u;
     model.Status := model.Status u; model.Role := model.Role u;
     model.LastLoginAt := model.LastLoginAt u;
     model.LastLoginIP := model.LastLoginIP u;
     model.DeletedAt := model.DeletedAt u |}.

(** [db.Model(&User{}).Where(cond).Updates(fields)] over the columns
    [password], [last_login_at] and [last_login_ip]; [updated_at] is
    set as well.  Returns the error and [RowsAffected], counted as the
    rows the condition matches. *)
Definition Updates (env : Env) (cond : model.User -> bool)
    (fields : list (string * FieldValue)) (w : World) : result Z * World :=
  let now := wall env (ticks w) in
  let w := tick w in
  match down w with
  | Some text => (Err (opaqueError text), w)
  | None =>
      let hit u := live u && cond u in
      let upd u := if hit u then touch now (fold_left (set_column now) fields u) else u in
      (Ok (Z.of_nat (length (List.filter hit (rows w)))), set_rows w (map upd (rows w)))
  end.

(** The [BeforeCreate] hook of [BaseModel] and the automatic creation
    and update timestamps. *)
Definition prepare (uuid : string) (now : time.Time) (u : model.User) : model.User :=
  {| model.ID := if String.eqb (model.ID u) "" then uuid else model.ID u;
     model.CreatedAt := if model.CreatedAt u =? time.zero then now else model.CreatedAt u;
     model.UpdatedAt := if model.UpdatedAt u =? time.zero then now else model.UpdatedAt u;
     model.Username := model.Username u; model.Email := model.Email u;
     model.Password := model.Password u;
     model.Nickname := model.Nickname u; model.Avatar := model.Avatar u;
     model.Phone := model.Phone u; model.Bio := model.Bio u;
     model.Gender := model.Gender u; model.Birthday := model.Birthday u;
     model.Status := model.Status u; model.Role := model.Role u;
     model.LastLoginAt := model.LastLoginAt u;
     model.LastLoginIP := model.LastLoginIP u;
     model.DeletedAt := model.DeletedAt u |}.

Fixpoint insert_by_key (u : model.User) (l : list model.User) : list model.User :=
  match l with
  | [] => [u]
  | x :: rest =>
      if String.leb (model.ID u) (model.ID x) then u :: x :: rest
      else x :: insert_by_key u rest
  end.

(** [db.Create(user)]: the insert fails on a database outage or when a
    unique index (primary key, username, email; soft-deleted rows
    count) is violated; the driver words the violation. *)
Definition Create (env : Env) (u : model.User) (w : World) : result model.User * World :=
  let u := prepare (random env (ticks w)) (wall env (ticks w)) u in
  let w := tick w in
  match down w with
  | Some text => (Err (opaqueError text), w)
  | None =>
      if existsb (fun x => sql_eq env (model.ID x) (model.ID u)) (rows w) then
        (Err (opaqueError (unique_violation env "PRIMARY")), w)
      else if existsb (fun x => sql_eq env (model.Username x) (model.Username u)) (rows w) then
        (Err (opaqueError (unique_violation env "idx_users_username")), w)
      else if existsb (fun x => sql_eq env (model.Email x) (model.Email u)) (rows w) then
        (Err (opaqueError (unique_violation env "idx_users_email")), w)
      else (Ok u, set_rows w (insert_by_key u (rows w)))
  end.

Definition mark_deleted (now : time.Time) (u : model.User) : model.User :=
  {| model.ID := model.ID u; model.CreatedAt := model.CreatedAt u;
     model.UpdatedAt := model.UpdatedAt u;
     model.Username := model.Username u; model.Email := model.Email u;
     model.Password := model.Password u;
     model.Nickname := model.Nickname u; model.Avatar := model.Avatar u;
     model.Phone := model.Phone u; model.Bio := model.Bio u;
     model.Gender := model.Gender u; model.Birthday := model.Birthday u;
     model.Status := model.Status u; model.Role := model.Role u;
     model.LastLoginAt := model.LastLoginAt u;
     model.LastLoginIP := model.LastLoginIP u;
     model.DeletedAt := Some now |}.

(** [db.Where(cond).Delete(&User{})] on a model with a [DeletedAt]
    field: the live matching rows get their [deleted_at] set.  Returns
    the error and [RowsAffected]. *)
Definition Delete (env : Env) (cond : model.User -> bool) (w : World) : result Z * World :=
  let now := wall env (ticks w) in
  let w := tick w in
  match down w with
  | Some text => (Err (opaqueError text), w)
  | None =>
      let hit u := live u && cond u in
      (Ok (Z.of_nat (length (List.filter hit (rows w)))),
       set_rows w (map (fun u => if hit u then mark_deleted now u else u) (rows w)))
  end.

(** [db.Unscoped().Where(cond).Delete(&User{})]: the matching rows,
    soft-deleted or not, are removed. *)
Definition UnscopedDelete (cond : model.User -> bool) (w : World) : result Z * World :=
  match down w with
  | Some text => (Err (opaqueError text), w)
  | None =>
      (Ok (Z.of_nat (length (List.filter cond (rows w)))),
       set_rows w (List.filter (fun u => negb (cond u)) (rows w)))
  end.

End gorm.

(* ===================================================================== *)
(** ** Package strings (as far as the repository uses it)                *)
(* ===================================================================== *)

Module strings.

(** [strings.Contains(s, substr)] *)
Definition Contains (s substr : string) : bool :=
  match String.index 0 substr s with Some _ => true | None => false end.

Definition lower (c : ascii) : ascii :=
  let n := nat_of_ascii c in
  if ((65 <=? n) && (n <=? 90))%nat then ascii_of_nat (n + 32) else c.

(** [strings.ToLower(s)] on ASCII text. *)
Fixpoint ToLower (s : string) : string :=
  match s with
  | EmptyString => EmptyString
  | String c rest => String (lower c) (ToLower rest)
  end.

End strings.

(** [err.Error()] for the errors of the SQL driver and of gorm. *)
Definition Error_ (err : error) : string :=
  match err with
  | errorString text | opaqueError text | wrapError text _ => text
  | appError _ _ message _ _ => message
  end.

(* ===================================================================== *)
(** ** internal/repository/user_repository.go                            *)
(* ===================================================================== *)

Module userRepository.

(** [isDuplicateKeyError] (never called with a [nil] error here). *)
Definition isDuplicateKeyError (err : error) : bool :=
  let errStr := strings.ToLower (Error_ err) in
  if strings.Contains errStr "duplicate" && strings.Contains errStr "entry" then true
  else if strings.Contains errStr "unique constraint" then true
  else if strings.Contains errStr "duplicate key" then true
  else false.

Section Repo.

Variable env : Env.

Definition Create (user : model.User) : M World model.User :=
  fun w =>
    match gorm.Create env user w with
    | (Err err, w') =>
        if isDuplicateKeyError err then
          if strings.Contains (Error_ err) "username" then
            (Err apperrors.ErrUsernameExists, w')
          else if strings.Contains (Error_ err) "email" then
            (Err apperrors.ErrEmailAlreadyUsed, w')
          else (Err (apperrors.WithError apperrors.ErrDuplicateEntry err), w')
        else (Err (apperrors.WithError apperrors.ErrDatabaseError err), w')
    | (Ok u, w') => (Ok u, w')
    end.

(** The shared shape of the three lookups. *)
Definition lookup (cond : model.User -> bool) : M World model.User :=
  fun w =>
    match gorm.First cond w with
    | Err err =>
        if errors_Is err gorm.ErrRecordNotFound then (Err apperrors.ErrUserNotFound, w)
        else (Err (apperrors.WithError apperrors.ErrDatabaseError err), w)
    | Ok user => (Ok user, w)
    end.

Definition GetByID (id : string) : M World model.User :=
  lookup (fun u => sql_eq env (model.ID u) id).

Definition GetByUsernameOrEmail (usernameOrEmail : string) : M World model.User :=
  lookup (fun u => sql_eq env (model.Username u) usernameOrEmail
                   || sql_eq env (model.Email u) usernameOrEmail).

Definition UpdateFields (id : string) (fields : list (string * gorm.FieldValue))
    : M World unit :=
  fun w =>
    match gorm.Updates env (fun u => sql_eq env (model.ID u) id) fields w with
    | (Err err, w') =>
        if isDuplicateKeyError err then
          (Err (apperrors.WithError apperrors.ErrDuplicateEntry err), w')
        else (Err (apperrors.WithError apperrors.ErrDatabaseError err), w')
    | (Ok rowsAffected, w') =>
        if rowsAffected =? 0 then (Err apperrors.ErrUserNotFound, w')
        else (Ok tt, w')
    end.

Definition exists_where (cond : model.User -> bool) : M World bool :=
  fun w =>
    match gorm.Count cond w with
    | Err err => (Err (apperrors.WithError apperrors.ErrDatabaseError err), w)
    | Ok count => (Ok (0 <? count), w)
    end.

Definition ExistsByUsername (username : string) : M World bool :=
  exists_where (fun u => sql_eq env (model.Username u) username).

Definition ExistsByEmail (email : string) : M World bool :=
  exists_where (fun u => sql_eq env (model.Email u) email).

Definition UpdatePassword (id hashedPassword : string) : M World unit :=
  UpdateFields id [("password", gorm.FString hashedPassword)].

Definition UpdateLastLogin (id ip : string) : M World unit :=
  UpdateFields id [("last_login_at", gorm.FNow); ("last_login_ip", gorm.FString ip)].

Definition GetByUsername (username : string) : M World model.User :=
  lookup (fun u => sql_eq env (model.Username u) username).

Definition GetByEmail (email : string) : M World model.User :=
  lookup (fun u => sql_eq env (model.Email u) email).

Definition Delete (id : string) : M World unit :=
  fun w =>
    match gorm.Delete env (fun u => sql_eq env (model.ID u) id) w with
    | (Err err, w') => (Err (apperrors.WithError apperrors.ErrDatabaseError err), w')
    | (Ok rowsAffected, w') =>
        if rowsAffected =? 0 then (Err apperrors.ErrUserNotFound, w')
        else (Ok tt, w')
    end.

Definition HardDelete (id : string) : M World unit :=
  fun w =>
    match gorm.UnscopedDelete (fun u => sql_eq env (model.ID u) id) w with
    | (Err err, w') => (Err (apperrors.WithError apperrors.ErrDatabaseError err), w')
    | (Ok rowsAffected, w') =>
        if rowsAffected =? 0 then (Err apperrors.ErrUserNotFound, w')
        else (Ok tt, w')
    end.

Definition Count : M World Z :=
  fun w =>
    match gorm.Count (fun _ => true) w with
    | Err err => (Err (apperrors.WithError apperrors.ErrDatabaseError err), w)
    | Ok count => (Ok count, w)
    end.

#[local] Instance repo : UserRepository.UserRepository World := {|
  UserRepository.Create := Create;
  UserRepository.GetByID := GetByID;
  UserRepository.GetByUsernameOrEmail := GetByUsernameOrEmail;
  UserRepository.ExistsByUsername := ExistsByUsername;
  UserRepository.ExistsByEmail := ExistsByEmail;
  UserRepository.UpdatePassword := UpdatePassword;
  UserRepository.UpdateLastLogin := UpdateLastLogin
|}.

End Repo.

End userRepository.

(* ===================================================================== *)
(** ** The process as [main] wires it                                    *)
(* ===================================================================== *)

Module app.

Section Wiring.

Variable env : Env.
Variable cfg : config.Config.

(** [NewJWTService(&cfg.JWT)]: each call reads [time.Now()] once. *)
#[local] Instance jwtSvc : JWTService.JWTService World := {|
  JWTService.GenerateAccessToken user w :=
    (jwtService.GenerateAccessToken (wire env) (config.JWT cfg) user (wall env (ticks w)),
     tick w);
  JWTService.GenerateRefreshToken user w :=
    (jwtService.GenerateRefreshToken (wire env) (config.JWT cfg) user (wall env (ticks w)),
     tick w);
  JWTService.ValidateToken tokenString w :=
    (jwtService.ValidateToken (wire env) (config.JWT cfg) tokenString (wall env (ticks w)),
     tick w)
|}.

#[local] Instance crypt : bcrypt.Bcrypt World := {|
  bcrypt.GenerateFromPassword password cost w :=
    (bcrypt_generate env (random env (ticks w)) password cost, tick w);
  bcrypt.CompareHashAndPassword := bcrypt_compare env
|}.

Definition userRepo : UserRepository.UserRepository World := userRepository.repo env.

(** [NewUserService(userRepo, jwtService, cfg, log)] and
    [NewAuthMiddleware(jwtService, log)]. *)
Definition Register :=
  userService.Register (userRepo := userRepo) (crypt := crypt) cfg.
Definition Login :=
  userService.Login (userRepo := userRepo) (jwtSvc := jwtSvc) (crypt := crypt) cfg.
Definition UpdatePassword :=
  userService.UpdatePassword (userRepo := userRepo) (crypt := crypt) cfg.
Definition RefreshToken :=
  userService.RefreshToken (userRepo := userRepo) (jwtSvc := jwtSvc) cfg.
Definition RequireAuth := middleware.RequireAuth (jwtSvc := jwtSvc).

#[local] Instance clk : clock.Clock World := {|
  clock.Now w := (Ok (wall env (ticks w)), tick w)
|}.

#[local] Instance userRepoAdmin : UserRepositoryAdmin.UserRepositoryAdmin World := {|
  UserRepositoryAdmin.Delete := userRepository.Delete env;
  UserRepositoryAdmin.Count := userRepository.Count
|}.

Definition Delete :=
  userService.Delete (userRepo := userRepo) (userRepoAdmin := userRepoAdmin).
Definition CreateAdmin :=
  userService.CreateAdmin (userRepo := userRepo) (userRepoAdmin := userRepoAdmin)
    (crypt := crypt) (clk := clk) cfg.

End Wiring.

End app.

(* ===================================================================== *)
(** ** A reference wire format                                           *)
(* ===================================================================== *)

(** A small executable instance of [jwt.Wire], used to run the model on
    concrete tokens.  Segments escape ["."]; claims are written field by
    field; the keyed digest lists its inputs. *)
Module refwire.

Fixpoint escape (s : string) : string :=
  match s with
  | EmptyString => EmptyString
  | String c rest =>
      if Ascii.eqb c "."%char then String "-"%char (String "d"%char (escape rest))
      else if Ascii.eqb c "-"%char then String "-"%char (String "-"%char (escape rest))
      else String c (escape rest)
  end.

Fixpoint unescape (s : string) : option string :=
  match s with
  | EmptyString => Some EmptyString
  | String c rest =>
      if Ascii.eqb c "."%char then None
      else if Ascii.eqb c "-"%char then
        match rest with
        | EmptyString => None
        | String d rest' =>
            if Ascii.eqb d "d"%char then String "."%char <$> unescape rest'
            else if Ascii.eqb d "-"%char then String "-"%char <$> unescape rest'
            else None
        end
      else String c <$> unescape rest
  end.

(** A string field: every byte prefixed by [x], closed by [y]. *)
Fixpoint put (s : string) : string :=
  match s with
  | EmptyString => "y"
  | String c rest => String "x"%char (String c (put rest))
  end.

Fixpoint get (s : string) : option (string * string) :=
  match s with
  | EmptyString => None
  | String c rest =>
      if Ascii.eqb c "y"%char then Some (EmptyString, rest)
      else if Ascii.eqb c "x"%char then
        match rest with
        | EmptyString => None
        | String d rest' =>
            '(f, tail) ← get rest'; Some (String d f, tail)
        end
      else None
  end.

Definition put_time (t : option time.Time) : string :=
  match t with
  | None => put ""
  | Some z => put (DecimalString.NilZero.string_of_int (Z.to_int z))
  end.

Definition get_time (s : string) : option (option time.Time * string) :=
  '(f, tail) ← get s;
  if String.eqb f "" then Some (None, tail)
  else z ← DecimalString.NilZero.int_of_string f; Some (Some (Z.of_int z), tail).

Definition marshalClaims (c : jwtService.TokenClaims) : string :=
  let rc := jwtService.RegisteredClaims c in
  put (jwtService.UserID c) +:+ put (jwtService.Username c) +:+
  put (jwtService.Email c) +:+ put (jwtService.Role c) +:+
  put (jwtService.TokenType c) +:+
  put (jwt.Issuer rc) +:+ put (jwt.Subject rc) +:+
  put_time (jwt.ExpiresAt rc) +:+ put_time (jwt.NotBefore rc) +:+
  put_time (jwt.IssuedAt rc) +:+ put (jwt.ID rc) +:+
  String.concat "" (map put (jwt.Audience rc)).

Fixpoint get_all (fuel : nat) (s : string) : option (list string) :=
  match fuel with
  | O => None
  | Datatypes.S fuel =>
      if String.eqb s "" then Some []
      else '(f, tail) ← get s; l ← get_all fuel tail; Some (f :: l)
  end.

Definition unmarshalClaims (s : string) : option jwtService.TokenClaims :=
  '(uid, s) ← get s; '(uname, s) ← get s; '(email, s) ← get s;
  '(role, s) ← get s; '(kind, s) ← get s; '(iss, s) ← get s; '(sub, s) ← get s;
  '(exp, s) ← get_time s; '(nbf, s) ← get_time s; '(iat, s) ← get_time s;
  '(jti, s) ← get s; aud ← get_all (Datatypes.S (String.length s)) s;
  Some {| jwtService.UserID := uid; jwtService.Username := uname;
          jwtService.Email := email; jwtService.Role := role;
          jwtService.TokenType := kind;
          jwtService.RegisteredClaims :=
            {| jwt.Issuer := iss; jwt.Subject := sub; jwt.Audience := aud;
               jwt.ExpiresAt := exp; jwt.NotBefore := nbf; jwt.IssuedAt := iat;
               jwt.ID := jti |} |}.

Definition hash_name (h : jwt.Hash) : string :=
  match h with jwt.SHA256 => "256" | jwt.SHA384 => "384" | jwt.SHA512 => "512" end.

Definition format : jwt.Wire jwtService.TokenClaims :=
  {| jwt.EncodeSegment := escape;
     jwt.DecodeSegment := unescape;
     jwt.marshalHeader := fun alg => put "JWT" +:+ put alg;
     jwt.unmarshalHeader := fun s =>
       '(_, s) ← get s;
       Some (if String.eqb s "" then None else fst <$> get s);
     jwt.marshalClaims := marshalClaims;
     jwt.unmarshalClaims := unmarshalClaims;
     jwt.hmacSum := fun h key text => hash_name h +:+ put key +:+ put text |}.

Definition env : Env :=
  {| wall := fun n => (1700000000 + Z.of_nat n) * time.Second;
     random := fun n => "uuid-" +:+ put (String.concat "" (repeat "i" n));
     sql_eq := String.eqb;
     unique_violation := fun idx => "UNIQUE constraint failed: " +:+ idx;
     bcrypt_generate := fun salt password cost => Ok ("$2a$" +:+ salt +:+ "$" +:+ password);
     bcrypt_compare := fun hashed password =>
       if String.eqb hashed ("$2a$salt$" +:+ password) then None
       else Some (errorString "crypto/bcrypt: hashedPassword is not the hash of the given password");
     wire := format |}.

Definition cfg : config.Config :=
  {| config.JWT := {| config.Secret := "test-secret-key-at-least-32-characters";
                      config.Issuer := "test-issuer";
                      config.AccessTokenExpire := 24;
                      config.RefreshTokenExpire := 168 |};
     config.BcryptCost := 4 |}.

Definition alice : model.User :=
  {| model.ID := "id-alice"; model.CreatedAt := 0; model.UpdatedAt := 0;
     model.Username := "alice"; model.Email := "alice@x.com";
     model.Password := "$2a$salt$pw123456"; model.Nickname := "alice";
     model.Avatar := ""; model.Phone := ""; model.Bio := "";
     model.Gender := 0; model.Birthday := None;
     model.Status := model.UserStatusActive; model.Role := model.RoleUser;
     model.LastLoginAt := None; model.LastLoginIP := "";
     model.DeletedAt := None |}.

Definition bob : model.User :=
  {| model.ID := "id-bob"; model.CreatedAt := 0; model.UpdatedAt := 0;
     model.Username := "bob"; model.Email := "bob@x.com";
     model.Password := "$2a$salt$hunter22"; model.Nickname := "bob";
     model.Avatar := ""; model.Phone := ""; model.Bio := "";
     model.Gender := 0; model.Birthday := None;
     model.Status := model.UserStatusDisabled; model.Role := model.RoleUser;
     model.LastLoginAt := None; model.LastLoginIP := "";
     model.DeletedAt := None |}.

Definition world : World :=
  {| rows := [alice; bob]; down := None; ticks := 0 |}.

End refwire.

(* ===================================================================== *)
(** ** Properties of the token service                                   *)
(* ===================================================================== *)

(** The claims of a structurally sound token whose header names an HMAC
    method and whose signature is the keyed digest of its first two
    segments under [secret]. *)
Definition signed_claims (wire : jwt.Wire jwtService.TokenClaims) (secret tokenString : string)
    : option jwtService.TokenClaims :=
  match jwt.segments wire tokenString with
  | Some (alg, claims, text, sig) =>
      match jwt.GetSigningMethod alg with
      | Some (jwt.SigningMethodHMAC h) =>
          if String.eqb sig (jwt.hmacSum wire h secret text) then Some claims else None
      | _ => None
      end
  | None => None
  end.

Section TokenFacts.

Variable wire : jwt.Wire jwtService.TokenClaims.
Variable cfg : config.JWTConfig.

Lemma segments_inv tok alg c text sig :
  jwt.segments wire tok = Some (alg, c, text, sig) ->
  exists p0 p1 p2 hb cb,
    jwt.Split tok = [p0; p1; p2] /\
    jwt.DecodeSegment wire p0 = Some hb /\
    jwt.unmarshalHeader wire hb = Some (Some alg) /\
    jwt.DecodeSegment wire p1 = Some cb /\
    jwt.unmarshalClaims wire cb = Some c /\
    jwt.DecodeSegment wire p2 = Some sig /\
    text = p0 +:+ "." +:+ p1.
Proof.
  unfold jwt.segments. intros H.
  destruct (jwt.Split tok) as [|p0 [|p1 [|p2 [|]]]]; try discriminate.
  destruct (jwt.DecodeSegment wire p0) as [hb|] eqn:E0; simpl in H; try discriminate.
  destruct (jwt.unmarshalHeader wire hb) as [oalg|] eqn:E1; simpl in H; try discriminate.
  destruct (jwt.DecodeSegment wire p1) as [cb|] eqn:E2; simpl in H; try discriminate.
  destruct (jwt.unmarshalClaims wire cb) as [c'|] eqn:E3; simpl in H; try discriminate.
  destruct (jwt.DecodeSegment wire p2) as [sig'|] eqn:E4; simpl in H; try discriminate.
  destruct oalg as [alg'|]; simpl in H; try discriminate.
  injection H as -> -> <- ->.
  exists p0, p1, p2, hb, cb. repeat split; assumption.
Qed.

(** What the parser does with a structurally sound token. *)
Lemma ParseWithClaims_segments tok alg c text sig keyFunc now :
  jwt.segments wire tok = Some (alg, c, text, sig) ->
  jwt.ParseWithClaims jwtService.RegisteredClaims wire tok keyFunc now =
  match jwt.GetSigningMethod alg with
  | None => Err (jwt.newError "signing method (alg) is unavailable" jwt.ErrTokenUnverifiable [])
  | Some m =>
      match keyFunc {| jwt.Raw := tok; jwt.Method := m; jwt.Claims := c;
                       jwt.Signature := sig; jwt.Valid := false |} with
      | Err e => Err (jwt.newError "error while executing keyfunc" jwt.ErrTokenUnverifiable [e])
      | Ok key =>
          match jwt.Verify wire m text sig key with
          | Some e => Err (jwt.newError "" jwt.ErrTokenSignatureInvalid [e])
          | None =>
              match jwt.Validate (jwtService.RegisteredClaims c) now with
              | Some e => Err (jwt.newError "" jwt.ErrTokenInvalidClaims [e])
              | None => Ok {| jwt.Raw := tok; jwt.Method := m; jwt.Claims := c;
                              jwt.Signature := sig; jwt.Valid := true |}
              end
          end
      end
  end.
Proof.
  intros H. apply segments_inv in H.
  destruct H as (p0 & p1 & p2 & hb & cb & Hs & H0 & H1 & H2 & H3 & H4 & ->).
  unfold jwt.ParseWithClaims, jwt.ParseUnverified.
  rewrite Hs, H0, H1, H2, H3.
  destruct (jwt.GetSigningMethod alg) as [m|]; [|reflexivity].
  cbn [nth jwt.Raw jwt.Method jwt.Claims]. rewrite H4. reflexivity.
Qed.

(** The default validator accepts exactly inside the window. *)
Lemma Validate_None_iff rc now :
  jwt.Validate rc now = None <-> jwt.in_window rc now.
Proof.
  unfold jwt.Validate, jwt.in_window, jwt.verifyExpiresAt, jwt.verifyNotBefore, time.Before.
  destruct (jwt.ExpiresAt rc) as [exp|], (jwt.NotBefore rc) as [nbf|]; cbn;
    repeat match goal with
           | |- context [ ?a <? ?b ] => destruct (Z.ltb_spec a b); cbn
           end;
    split; try discriminate; try (intros _; split; intros ? [= <-]; lia);
    intros [Hn He]; try reflexivity;
    try (specialize (Hn _ eq_refl)); try (specialize (He _ eq_refl)); lia.
Qed.

(** An expired token is classified as expired, whatever else is wrong
    with its validity window. *)
Lemma Validate_expired rc now exp :
  jwt.ExpiresAt rc = Some exp -> exp <= now ->
  exists e, jwt.Validate rc now = Some e /\
            jwtService.handleParseError (jwt.newError "" jwt.ErrTokenInvalidClaims [e])
            = apperrors.ErrTokenExpired.
Proof.
  intros He Hle.
  unfold jwt.Validate, jwt.verifyExpiresAt, jwt.verifyNotBefore, time.Before.
  rewrite He. destruct (Z.ltb_spec now exp); [lia|].
  destruct (jwt.NotBefore rc) as [nbf|]; [destruct (now <? nbf)|];
    cbn; eexists; split; reflexivity.
Qed.

Lemma signed_claims_inv tok c :
  signed_claims wire (config.Secret cfg) tok = Some c ->
  exists alg h text,
    jwt.segments wire tok
      = Some (alg, c, text, jwt.hmacSum wire h (config.Secret cfg) text) /\
    jwt.GetSigningMethod alg = Some (jwt.SigningMethodHMAC h).
Proof.
  unfold signed_claims. intros H.
  destruct (jwt.segments wire tok) as [[[[alg c'] text] sig]|]; try discriminate.
  destruct (jwt.GetSigningMethod alg) as [[h| | | | |]|] eqn:Em; try discriminate.
  destruct (String.eqb_spec sig (jwt.hmacSum wire h (config.Secret cfg) text));
    try discriminate.
  injection H as ->. subst sig. exists alg, h, text. split; [reflexivity|assumption].
Qed.

(** A correctly signed token gets through to the claims validator. *)
Lemma ValidateToken_signed tok c now :
  signed_claims wire (config.Secret cfg) tok = Some c ->
  jwtService.ValidateToken wire cfg tok now =
  match jwt.Validate (jwtService.RegisteredClaims c) now with
  | Some e => Err (jwtService.handleParseError
                     (jwt.newError "" jwt.ErrTokenInvalidClaims [e]))
  | None => Ok c
  end.
Proof.
  intros H. apply signed_claims_inv in H. destruct H as (alg & h & text & Hs & Hm).
  unfold jwtService.ValidateToken.
  rewrite (ParseWithClaims_segments _ _ _ _ _ _ _ Hs), Hm.
  unfold jwtService.keyFunc. cbn [jwt.Method jwt.is_HMAC negb].
  unfold jwt.Verify. rewrite String.eqb_refl.
  destruct (jwt.Validate (jwtService.RegisteredClaims c) now); reflexivity.
Qed.

Lemma ValidateToken_signed_accepts tok c now :
  signed_claims wire (config.Secret cfg) tok = Some c ->
  jwt.in_window (jwtService.RegisteredClaims c) now ->
  jwtService.ValidateToken wire cfg tok now = Ok c.
Proof.
  intros H Hw. rewrite (ValidateToken_signed _ _ _ H).
  apply Validate_None_iff in Hw. rewrite Hw. reflexivity.
Qed.

Lemma ValidateToken_signed_rejects tok c now :
  signed_claims wire (config.Secret cfg) tok = Some c ->
  ~ jwt.in_window (jwtService.RegisteredClaims c) now ->
  exists e, jwtService.ValidateToken wire cfg tok now = Err e.
Proof.
  intros H Hw. rewrite (ValidateToken_signed _ _ _ H).
  destruct (jwt.Validate (jwtService.RegisteredClaims c) now) eqn:E.
  - eexists. reflexivity.
  - apply Validate_None_iff in E. contradiction.
Qed.

End TokenFacts.

(* ===================================================================== *)
(** ** Issuing and reading back                                          *)
(* ===================================================================== *)

Fixpoint dot_free (s : string) : bool :=
  match s with
  | EmptyString => true
  | String c rest => negb (Ascii.eqb c "."%char) && dot_free rest
  end.

(** What the byte-level primitives owe a token made of [alg], [claims]
    and [sig]: every segment decodes to what was encoded, and no encoded
    segment contains the separator. *)
Record faithful (wire : jwt.Wire jwtService.TokenClaims)
    (alg : string) (claims : jwtService.TokenClaims) (sig : string) : Prop := {
  faithful_header_segment :
    jwt.DecodeSegment wire (jwt.EncodeSegment wire (jwt.marshalHeader wire alg))
    = Some (jwt.marshalHeader wire alg);
  faithful_header :
    jwt.unmarshalHeader wire (jwt.marshalHeader wire alg) = Some (Some alg);
  faithful_claims_segment :
    jwt.DecodeSegment wire (jwt.EncodeSegment wire (jwt.marshalClaims wire claims))
    = Some (jwt.marshalClaims wire claims);
  faithful_claims :
    jwt.unmarshalClaims wire (jwt.marshalClaims wire claims) = Some claims;
  faithful_signature :
    jwt.DecodeSegment wire (jwt.EncodeSegment wire sig) = Some sig;
  faithful_separator :
    dot_free (jwt.EncodeSegment wire (jwt.marshalHeader wire alg))
    && dot_free (jwt.EncodeSegment wire (jwt.marshalClaims wire claims))
    && dot_free (jwt.EncodeSegment wire sig) = true
}.

Lemma Split_dot_free s : dot_free s = true -> jwt.Split s = [s].
Proof.
  induction s as [|c s IH]; cbn; [reflexivity|].
  intros H. apply andb_prop in H as [Hc Hs].
  destruct (Ascii.eqb c "."%char); [discriminate|].
  rewrite (IH Hs). reflexivity.
Qed.

Lemma Split_app a b :
  dot_free a = true -> jwt.Split (a +:+ "." +:+ b) = a :: jwt.Split b.
Proof.
  change ("." +:+ b) with (String "."%char b).
  induction a as [|c a IH]; intros H.
  - change ("" +:+ String "."%char b) with (String "."%char b). reflexivity.
  - cbn in H. apply andb_prop in H as [Hc Ha].
    change (String c a +:+ String "."%char b) with (String c (a +:+ String "."%char b)).
    cbn [jwt.Split]. destruct (Ascii.eqb c "."%char); [discriminate|].
    rewrite (IH Ha). reflexivity.
Qed.

Lemma append_assoc (a b c : string) : (a +:+ b) +:+ c = a +:+ (b +:+ c).
Proof.
  induction a as [|x a IH]; [reflexivity|].
  change (String x ((a +:+ b) +:+ c) = String x (a +:+ (b +:+ c))).
  rewrite IH. reflexivity.
Qed.

Section Issuing.

Variable wire : jwt.Wire jwtService.TokenClaims.
Variable cfg : config.JWTConfig.

(** A signed token decodes into the parts it was made of. *)
Lemma segments_SignedString h claims key :
  let m := jwt.SigningMethodHMAC h in
  let text := jwt.SigningString wire m claims in
  faithful wire (jwt.Alg m) claims (jwt.hmacSum wire h key text) ->
  exists tok,
    jwt.SignedString wire m claims key = Ok tok /\
    jwt.segments wire tok
    = Some (jwt.Alg m, claims, text, jwt.hmacSum wire h key text).
Proof.
  intros m text [H0 H1 H2 H3 H4 H5].
  apply andb_prop in H5 as [H5 Hd3]. apply andb_prop in H5 as [Hd1 Hd2].
  eexists. split; [reflexivity|].
  unfold jwt.segments. fold m. fold text. unfold text at 1, jwt.SigningString.
  rewrite !append_assoc.
  rewrite (Split_app _ _ Hd1), (Split_app _ _ Hd2), (Split_dot_free _ Hd3).
  rewrite H0. cbn [mbind option_bind]. rewrite H1. cbn [mbind option_bind].
  rewrite H2. cbn [mbind option_bind]. rewrite H3. cbn [mbind option_bind].
  rewrite H4. reflexivity.
Qed.

Lemma GetSigningMethod_Alg m : jwt.GetSigningMethod (jwt.Alg m) = Some m.
Proof. destruct m as [[]|[]|[]|[]| |]; reflexivity. Qed.

(** Every token [generateToken] builds is signed and reads back as the
    claims literal. *)
Lemma generateToken_signed user kind expiration now :
  let claims := jwtService.newClaims cfg user kind expiration now in
  faithful wire "HS256" claims
    (jwt.hmacSum wire jwt.SHA256 (config.Secret cfg)
       (jwt.SigningString wire jwt.SigningMethodHS256 claims)) ->
  exists tok,
    jwtService.generateToken wire cfg user kind expiration now = Ok tok /\
    signed_claims wire (config.Secret cfg) tok = Some claims.
Proof.
  intros claims Hf.
  destruct (segments_SignedString jwt.SHA256 claims (config.Secret cfg) Hf)
    as (tok & Hs & Hseg).
  exists tok. split.
  - unfold jwtService.generateToken. fold claims.
    unfold jwt.SigningMethodHS256. rewrite Hs. reflexivity.
  - unfold signed_claims. rewrite Hseg. cbn [jwt.Alg].
    change (jwt.GetSigningMethod "HS256") with (Some (jwt.SigningMethodHMAC jwt.SHA256)).
    cbv beta iota. rewrite String.eqb_refl. reflexivity.
Qed.

(** At the instant of issue the window is open, for every lifetime of
    at least one hour that fits an [int64] duration. *)
Lemma issue_instant_in_window (hours : Z) (now : time.Time) :
  1 <= hours <= 2562047 ->
  jwt.NewNumericDate now <= now
  < jwt.NewNumericDate (time.Add now (time.wrap64 (hours * time.Hour))).
Proof.
  intros Hh.
  assert (Hw : time.wrap64 (hours * time.Hour) = hours * 3600 * 1000000000).
  { unfold time.wrap64, time.Hour, time.Second.
    rewrite Z.mod_small by lia. lia. }
  rewrite Hw. unfold jwt.NewNumericDate, jwt.TimePrecision, time.Truncate, time.Add, time.Second.
  cbn [Z.leb Z.compare].
  rewrite Z.mod_add by lia.
  pose proof (Z.mod_pos_bound now 1000000000 ltac:(lia)). lia.
Qed.

End Issuing.

(* ===================================================================== *)
(** ** Example tokens                                                    *)
(* ===================================================================== *)

Module examples.

Definition jcfg : config.JWTConfig := config.JWT refwire.cfg.

(** The instant at which the example tokens are issued. *)
Definition t0 : time.Time := 1700000000 * time.Second + 5.

Definition token_of (r : result string) : string :=
  match r with Ok t => t | Err _ => "" end.

Definition access_token : string :=
  Eval vm_compute in
    token_of (jwtService.GenerateAccessToken refwire.format jcfg refwire.alice t0).

Definition refresh_token : string :=
  Eval vm_compute in
    token_of (jwtService.GenerateRefreshToken refwire.format jcfg refwire.alice t0).

(** A token of another issuer that holds the same secret. *)
Definition foreign_cfg : config.JWTConfig :=
  {| config.Secret := config.Secret jcfg; config.Issuer := "someone-else";
     config.AccessTokenExpire := 1; config.RefreshTokenExpire := 1 |}.

Definition foreign_token : string :=
  Eval vm_compute in
    token_of (jwtService.GenerateAccessToken refwire.format foreign_cfg refwire.alice t0).

(** An unsigned token: header [alg] is [none], the signature is empty. *)
Definition unsigned_token : string :=
  Eval vm_compute in
    jwt.SigningString refwire.format jwt.signingMethodNone
      (jwtService.newClaims jcfg refwire.alice jwtService.TokenTypeAccess
         (config.AccessTokenExpireDuration jcfg) t0) +:+ ".".

End examples.

(* ===================================================================== *)
(** ** The token service: round trip, expiry, algorithms, issuer         *)
(* ===================================================================== *)

(** C1 (round trip).  An access token issued for an account at [now] and
    validated at an instant [now'] inside its validity window is accepted,
    and the claims returned carry the account's id as subject and as
    [user_id], its username, email and role, and the kind ["access"].
    The account is valid when the byte-level primitives are faithful to
    the claims built from it. *)
Theorem access_token_round_trip
    (wire : jwt.Wire jwtService.TokenClaims) (cfg : config.JWTConfig)
    (user : model.User) (now now' : time.Time) :
  let expiration := config.AccessTokenExpireDuration cfg in
  let claims := jwtService.newClaims cfg user jwtService.TokenTypeAccess expiration now in
  faithful wire "HS256" claims
    (jwt.hmacSum wire jwt.SHA256 (config.Secret cfg)
       (jwt.SigningString wire jwt.SigningMethodHS256 claims)) ->
  jwt.NewNumericDate now <= now' < jwt.NewNumericDate (time.Add now expiration) ->
  exists tok c,
    jwtService.GenerateAccessToken wire cfg user now = Ok tok /\
    jwtService.ValidateToken wire cfg tok now' = Ok c /\
    jwt.Subject (jwtService.RegisteredClaims c) = model.ID user /\
    jwtService.UserID c = model.ID user /\
    jwtService.Username c = model.Username user /\
    jwtService.Email c = model.Email user /\
    jwtService.Role c = model.Role user /\
    jwtService.TokenType c = "access".
Proof.
  intros expiration claims Hf Hw.
  destruct (generateToken_signed wire cfg user jwtService.TokenTypeAccess expiration now Hf)
    as (tok & Hgen & Hsigned).
  exists tok, claims. split; [exact Hgen|]. split.
  - apply ValidateToken_signed_accepts; [exact Hsigned|].
    unfold claims, jwtService.newClaims, jwt.in_window.
    cbn [jwtService.RegisteredClaims jwt.NotBefore jwt.ExpiresAt].
    split; intros ? [= <-]; lia.
  - repeat split.
Qed.

Lemma access_token_round_trip_witness :
  let cfg := examples.jcfg in
  let now := examples.t0 in
  let now' := examples.t0 + 3 * time.Hour in
  let expiration := config.AccessTokenExpireDuration cfg in
  let claims :=
    jwtService.newClaims cfg refwire.alice jwtService.TokenTypeAccess expiration now in
  faithful refwire.format "HS256" claims
    (jwt.hmacSum refwire.format jwt.SHA256 (config.Secret cfg)
       (jwt.SigningString refwire.format jwt.SigningMethodHS256 claims)) /\
  jwt.NewNumericDate now <= now' < jwt.NewNumericDate (time.Add now expiration) /\
  exists tok c,
    jwtService.GenerateAccessToken refwire.format cfg refwire.alice now = Ok tok /\
    jwtService.ValidateToken refwire.format cfg tok now' = Ok c /\
    jwt.Subject (jwtService.RegisteredClaims c) = "id-alice" /\
    jwtService.UserID c = "id-alice" /\
    jwtService.Username c = "alice" /\
    jwtService.Email c = "alice@x.com" /\
    jwtService.Role c = "user" /\
    jwtService.TokenType c = "access".
Proof.
  assert (Hf : faithful refwire.format "HS256"
            (jwtService.newClaims examples.jcfg refwire.alice jwtService.TokenTypeAccess
               (config.AccessTokenExpireDuration examples.jcfg) examples.t0)
            (jwt.hmacSum refwire.format jwt.SHA256 (config.Secret examples.jcfg)
               (jwt.SigningString refwire.format jwt.SigningMethodHS256
                  (jwtService.newClaims examples.jcfg refwire.alice
                     jwtService.TokenTypeAccess
                     (config.AccessTokenExpireDuration examples.jcfg) examples.t0))))
    by (constructor; vm_compute; reflexivity).
  assert (Hw : jwt.NewNumericDate examples.t0 <= examples.t0 + 3 * time.Hour
               < jwt.NewNumericDate
                   (time.Add examples.t0 (config.AccessTokenExpireDuration examples.jcfg)))
    by (vm_compute; split; [discriminate | reflexivity]).
  split; [exact Hf|]. split; [exact Hw|].
  exact (access_token_round_trip refwire.format examples.jcfg refwire.alice
           examples.t0 (examples.t0 + 3 * time.Hour) Hf Hw).
Defined.

(** C3 (expiry boundary, no grace window).  For a correctly signed token
    carrying a not-before [nbf] and an expires-at [exp], and for every
    wall-clock reading [now]: the token is accepted exactly when
    [nbf <= now < exp]; once [exp <= now] it is rejected as
    [ErrTokenExpired]; inside the window the claims are returned. *)
Theorem expiry_boundary
    (wire : jwt.Wire jwtService.TokenClaims) (cfg : config.JWTConfig)
    (tok : string) (c : jwtService.TokenClaims) (now nbf exp : time.Time) :
  signed_claims wire (config.Secret cfg) tok = Some c ->
  jwt.NotBefore (jwtService.RegisteredClaims c) = Some nbf ->
  jwt.ExpiresAt (jwtService.RegisteredClaims c) = Some exp ->
  ((exists c', jwtService.ValidateToken wire cfg tok now = Ok c') <-> nbf <= now < exp) /\
  (exp <= now ->
   jwtService.ValidateToken wire cfg tok now = Err apperrors.ErrTokenExpired) /\
  (nbf <= now < exp -> jwtService.ValidateToken wire cfg tok now = Ok c).
Proof.
  intros Hs Hn He.
  assert (Hwin : jwt.in_window (jwtService.RegisteredClaims c) now <-> nbf <= now < exp).
  { unfold jwt.in_window. rewrite Hn, He. split.
    - intros [H1 H2]. split; [apply H1 | apply H2]; reflexivity.
    - intros [H1 H2]. split; intros ? [= <-]; assumption. }
  split; [split|split].
  - intros [c' Hc']. apply Hwin.
    destruct (Validate_None_iff (jwtService.RegisteredClaims c) now) as [Hv _].
    apply Hv. rewrite (ValidateToken_signed wire cfg _ _ now Hs) in Hc'.
    destruct (jwt.Validate (jwtService.RegisteredClaims c) now); [discriminate|reflexivity].
  - intros H. exists c. apply ValidateToken_signed_accepts; [exact Hs|]. apply Hwin, H.
  - intros Hle. rewrite (ValidateToken_signed wire cfg _ _ now Hs).
    destruct (Validate_expired (jwtService.RegisteredClaims c) now exp He Hle)
      as (e & -> & ->). reflexivity.
  - intros H. apply ValidateToken_signed_accepts; [exact Hs|]. apply Hwin, H.
Qed.

Lemma expiry_boundary_witness :
  let now := 1700086400 * time.Second in
  let c := jwtService.newClaims examples.jcfg refwire.alice jwtService.TokenTypeAccess
             (config.AccessTokenExpireDuration examples.jcfg) examples.t0 in
  signed_claims refwire.format (config.Secret examples.jcfg) examples.access_token = Some c /\
  jwt.NotBefore (jwtService.RegisteredClaims c) = Some (1700000000 * time.Second) /\
  jwt.ExpiresAt (jwtService.RegisteredClaims c) = Some (1700086400 * time.Second) /\
  jwtService.ValidateToken refwire.format examples.jcfg examples.access_token now
  = Err apperrors.ErrTokenExpired.
Proof.
  assert (Hs : signed_claims refwire.format (config.Secret examples.jcfg)
                 examples.access_token
               = Some (jwtService.newClaims examples.jcfg refwire.alice
                         jwtService.TokenTypeAccess
                         (config.AccessTokenExpireDuration examples.jcfg) examples.t0))
    by (vm_compute; reflexivity).
  split; [exact Hs|]. split; [reflexivity|]. split; [reflexivity|].
  refine (proj1 (proj2 (expiry_boundary refwire.format examples.jcfg
                          examples.access_token _ (1700086400 * time.Second)
                          (1700000000 * time.Second) (1700086400 * time.Second)
                          Hs eq_refl eq_refl)) _).
  vm_compute. discriminate.
Defined.

(** C10 (the issuer is never checked).  A token correctly signed with the
    configured secret under an HMAC method and presented inside its
    validity window is accepted whatever its issuer claim [iss] is, and
    validation gives the same answer for every configured issuer. *)
Theorem issuer_not_checked
    (wire : jwt.Wire jwtService.TokenClaims) (cfg : config.JWTConfig)
    (tok : string) (c : jwtService.TokenClaims) (now : time.Time) (iss : string) :
  signed_claims wire (config.Secret cfg) tok = Some c ->
  jwt.in_window (jwtService.RegisteredClaims c) now ->
  jwt.Issuer (jwtService.RegisteredClaims c) = iss ->
  jwtService.ValidateToken wire cfg tok now = Ok c /\
  forall (configured : string) (t : string) (at_ : time.Time),
    jwtService.ValidateToken wire
      {| config.Secret := config.Secret cfg; config.Issuer := configured;
         config.AccessTokenExpire := config.AccessTokenExpire cfg;
         config.RefreshTokenExpire := config.RefreshTokenExpire cfg |} t at_
    = jwtService.ValidateToken wire cfg t at_.
Proof.
  intros Hs Hw _. split.
  - apply ValidateToken_signed_accepts; assumption.
  - intros configured t at_. reflexivity.
Qed.

Lemma issuer_not_checked_witness :
  let c := jwtService.newClaims examples.foreign_cfg refwire.alice
             jwtService.TokenTypeAccess
             (config.AccessTokenExpireDuration examples.foreign_cfg) examples.t0 in
  signed_claims refwire.format (config.Secret examples.jcfg) examples.foreign_token = Some c /\
  jwt.in_window (jwtService.RegisteredClaims c) (examples.t0 + 1) /\
  jwt.Issuer (jwtService.RegisteredClaims c) = "someone-else" /\
  config.Issuer examples.jcfg = "test-issuer" /\
  jwtService.ValidateToken refwire.format examples.jcfg examples.foreign_token
    (examples.t0 + 1) = Ok c.
Proof.
  assert (Hs : signed_claims refwire.format (config.Secret examples.jcfg)
                 examples.foreign_token
               = Some (jwtService.newClaims examples.foreign_cfg refwire.alice
                         jwtService.TokenTypeAccess
                         (config.AccessTokenExpireDuration examples.foreign_cfg)
                         examples.t0))
    by (vm_compute; reflexivity).
  assert (Hw : jwt.in_window
                 (jwtService.RegisteredClaims
                    (jwtService.newClaims examples.foreign_cfg refwire.alice
                       jwtService.TokenTypeAccess
                       (config.AccessTokenExpireDuration examples.foreign_cfg)
                       examples.t0)) (examples.t0 + 1))
    by (split; intros ? [= <-]; vm_compute; [discriminate | reflexivity]).
  split; [exact Hs|]. split; [exact Hw|]. split; [reflexivity|]. split; [reflexivity|].
  exact (proj1 (issuer_not_checked refwire.format examples.jcfg examples.foreign_token
                  _ (examples.t0 + 1) "someone-else" Hs Hw eq_refl)).
Defined.

(** C4 (algorithm substitution).  A structurally sound token whose header
    names anything but an HMAC method (another registered method, [none],
    or an unknown name) is never accepted.  The error returned carries
    the code of [ErrInvalidToken]: the [ErrTokenMalformed] that the key
    function returns for a wrong method reaches [handleParseError]
    wrapped under the library's "unverifiable" error, which none of its
    tests recognises. *)
Theorem foreign_algorithm_rejected_as_invalid
    (wire : jwt.Wire jwtService.TokenClaims) (cfg : config.JWTConfig)
    (tok alg : string) (c : jwtService.TokenClaims) (text sig : string)
    (now : time.Time) :
  jwt.segments wire tok = Some (alg, c, text, sig) ->
  (forall h, jwt.GetSigningMethod alg <> Some (jwt.SigningMethodHMAC h)) ->
  exists e : apperrors.AppError,
    jwtService.ValidateToken wire cfg tok now = Err e /\
    apperrors.Code e = apperrors.CodeInvalidToken /\
    apperrors.Code e <> apperrors.CodeTokenMalformed.
Proof.
  intros Hseg Hm. unfold jwtService.ValidateToken.
  rewrite (ParseWithClaims_segments wire _ _ _ _ _ _ now Hseg).
  destruct (jwt.GetSigningMethod alg) as [m|] eqn:Em.
  - destruct m as [h| | | | |]; [exfalso; exact (Hm h eq_refl)| | | | |];
      cbn; eexists; (split; [reflexivity|split; [reflexivity|discriminate]]).
  - cbn. eexists. split; [reflexivity|]. split; [reflexivity|discriminate].
Qed.

Lemma foreign_algorithm_rejected_as_invalid_witness :
  (exists c text,
     jwt.segments refwire.format examples.unsigned_token = Some ("none", c, text, "")) /\
  (forall h, jwt.GetSigningMethod "none" <> Some (jwt.SigningMethodHMAC h)) /\
  exists e : apperrors.AppError,
    jwtService.ValidateToken refwire.format examples.jcfg examples.unsigned_token
      (examples.t0 + 1) = Err e /\
    apperrors.Code e = apperrors.CodeInvalidToken /\
    apperrors.Code e <> apperrors.CodeTokenMalformed.
Proof.
  assert (Hm : forall h, jwt.GetSigningMethod "none" <> Some (jwt.SigningMethodHMAC h))
    by (intros h; vm_compute; discriminate).
  assert (Hseg : jwt.segments refwire.format examples.unsigned_token
                 = Some ("none",
                         jwtService.newClaims examples.jcfg refwire.alice
                           jwtService.TokenTypeAccess
                           (config.AccessTokenExpireDuration examples.jcfg) examples.t0,
                         jwt.SigningString refwire.format jwt.signingMethodNone
                           (jwtService.newClaims examples.jcfg refwire.alice
                              jwtService.TokenTypeAccess
                              (config.AccessTokenExpireDuration examples.jcfg)
                              examples.t0),
                         ""))
    by (vm_compute; reflexivity).
  split; [eexists; eexists; exact Hseg|]. split; [exact Hm|].
  exact (foreign_algorithm_rejected_as_invalid refwire.format examples.jcfg
           examples.unsigned_token "none" _ _ "" (examples.t0 + 1) Hseg Hm).
Defined.

(** The unsigned example token, evaluated: rejected with code 11001
    ([CodeInvalidToken]), not 11005 ([CodeTokenMalformed]). *)
Example unsigned_token_code :
  match jwtService.ValidateToken refwire.format examples.jcfg examples.unsigned_token
          (examples.t0 + 1) with
  | Err (appError code _ _ _ _) => code
  | _ => 0
  end = 11001.
Proof. vm_compute. reflexivity. Qed.

(* ===================================================================== *)
(** ** Token kinds: the middleware and the refresh flow                  *)
(* ===================================================================== *)

Section KindsAndRefresh.

Context {S : Type}.
Context {userRepo : UserRepository.UserRepository S}.
Context {jwtSvc : JWTService.JWTService S}.
Variable cfg : config.Config.

(** C2 (kind isolation).  A bearer token that validates (signature and
    validity window are fine) with kind ["refresh"] makes [RequireAuth]
    abort the request with status 401 without running the rest of the
    chain and without attaching an identity; a token that validates
    with kind ["access"] makes [RefreshToken] fail with an
    [ErrInvalidToken] error before any account is fetched. *)
Theorem kind_isolation
    (next : gin.Context -> S -> gin.Context * S) (c : gin.Context)
    (refreshTok accessTok : string)
    (refreshClaims accessClaims : jwtService.TokenClaims) (s1 s1' s2 s2' : S) :
  middleware.extractToken c = inr refreshTok ->
  JWTService.ValidateToken refreshTok s1 = (Ok refreshClaims, s1') ->
  jwtService.TokenType refreshClaims = jwtService.TokenTypeRefresh ->
  JWTService.ValidateToken accessTok s2 = (Ok accessClaims, s2') ->
  jwtService.TokenType accessClaims = jwtService.TokenTypeAccess ->
  (let (c', s') := middleware.RequireAuth next c s1 in
   s' = s1' /\
   gin.IsAborted c' = true /\
   gin.Written c' = Some (apperrors.StatusUnauthorized,
                          {| gin.body_Code := response.CodeUnauthorized;
                             gin.body_Message := "请使用访问令牌" |}) /\
   gin.Keys c' = gin.Keys c) /\
  userService.RefreshToken cfg accessTok s2
  = (Err (apperrors.WithDetail apperrors.ErrInvalidToken "不是有效的刷新令牌"), s2') /\
  apperrors.Code (apperrors.WithDetail apperrors.ErrInvalidToken "不是有效的刷新令牌")
  = apperrors.CodeInvalidToken.
Proof.
  intros Hx Hr Hrk Ha Hak. split; [|split].
  - unfold middleware.RequireAuth, middleware.validateToken.
    rewrite Hx, Hr. unfold jwtService.IsAccessToken. rewrite Hrk.
    cbn. repeat split.
  - unfold userService.RefreshToken, bind, bindE. rewrite Ha, Hak. reflexivity.
  - reflexivity.
Qed.

(** C8 (refresh flow).  For a token that validates with kind
    ["refresh"], [RefreshToken] fetches the account under the id the
    token carries (its [user_id] claim, which [generateToken] sets
    equal to the subject, both being the account's id); a disabled
    account is rejected with [ErrUserDisabled]; otherwise a new access
    token is issued for the fetched account.  Every successful result
    comes about this way and carries no refresh token. *)
Theorem refresh_flow
    (tok : string) (claims : jwtService.TokenClaims) (s s1 : S) :
  JWTService.ValidateToken tok s = (Ok claims, s1) ->
  jwtService.TokenType claims = jwtService.TokenTypeRefresh ->
  (forall u s2,
     UserRepository.GetByID (jwtService.UserID claims) s1 = (Ok u, s2) ->
     model.IsDisabled u = true ->
     userService.RefreshToken cfg tok s = (Err apperrors.ErrUserDisabled, s2)) /\
  (forall u s2 accessToken s3,
     UserRepository.GetByID (jwtService.UserID claims) s1 = (Ok u, s2) ->
     model.IsDisabled u = false ->
     JWTService.GenerateAccessToken u s2 = (Ok accessToken, s3) ->
     userService.RefreshToken cfg tok s
     = (Ok {| model.rt_AccessToken := accessToken;
              model.rt_RefreshToken := "";
              model.rt_TokenType := "Bearer";
              model.rt_ExpiresIn :=
                time.Seconds (config.AccessTokenExpireDuration (config.JWT cfg)) |},
        s3)) /\
  (forall resp s',
     userService.RefreshToken cfg tok s = (Ok resp, s') ->
     model.rt_RefreshToken resp = "" /\
     exists u s2,
       UserRepository.GetByID (jwtService.UserID claims) s1 = (Ok u, s2) /\
       model.IsDisabled u = false /\
       JWTService.GenerateAccessToken u s2 = (Ok (model.rt_AccessToken resp), s')) /\
  (forall jcfg user kind expiration now,
     let issued := jwtService.newClaims jcfg user kind expiration now in
     jwtService.UserID issued = model.ID user /\
     jwt.Subject (jwtService.RegisteredClaims issued) = model.ID user).
Proof.
  intros Hv Hk.
  assert (Hrun : userService.RefreshToken cfg tok s =
                 match UserRepository.GetByID (jwtService.UserID claims) s1 with
                 | (Err e, s2) => (Err e, s2)
                 | (Ok u, s2) =>
                     if model.IsDisabled u then (Err apperrors.ErrUserDisabled, s2)
                     else
                       match JWTService.GenerateAccessToken u s2 with
                       | (Err e, s3) =>
                           (Err (apperrors.WithError apperrors.ErrInternalServer e), s3)
                       | (Ok accessToken, s3) =>
                           (Ok {| model.rt_AccessToken := accessToken;
                                  model.rt_RefreshToken := "";
                                  model.rt_TokenType := "Bearer";
                                  model.rt_ExpiresIn :=
                                    time.Seconds
                                      (config.AccessTokenExpireDuration (config.JWT cfg)) |},
                            s3)
                       end
                 end).
  { unfold userService.RefreshToken, bind, bindE, fail, ret. rewrite Hv, Hk.
    rewrite String.eqb_refl. cbn [negb].
    destruct (UserRepository.GetByID (jwtService.UserID claims) s1) as [[u|e] s2];
      [|reflexivity].
    destruct (model.IsDisabled u); [reflexivity|].
    destruct (JWTService.GenerateAccessToken u s2) as [[a|e] s3]; reflexivity. }
  split; [|split; [|split]].
  - intros u s2 Hg Hd. rewrite Hrun, Hg, Hd. reflexivity.
  - intros u s2 a s3 Hg Hd Hgen. rewrite Hrun, Hg, Hd, Hgen. reflexivity.
  - intros resp s' Hres. rewrite Hrun in Hres.
    destruct (UserRepository.GetByID (jwtService.UserID claims) s1) as [[u|e] s2];
      [|discriminate].
    destruct (model.IsDisabled u) eqn:Hd; [discriminate|].
    destruct (JWTService.GenerateAccessToken u s2) as [[a|e] s3] eqn:Hgen;
      [|discriminate].
    injection Hres as <- <-. split; [reflexivity|].
    exists u, s2. repeat split; assumption.
  - intros. split; reflexivity.
Qed.

End KindsAndRefresh.

(* ===================================================================== *)
(** ** The account service                                               *)
(* ===================================================================== *)

Section DisabledAccounts.

Context {S : Type}.
Context {userRepo : UserRepository.UserRepository S}.
Context {jwtSvc : JWTService.JWTService S}.
Context {crypt : bcrypt.Bcrypt S}.
Variable cfg : config.Config.

(** C6 (disabled accounts come first).  When the lookup returns an
    account whose status is disabled, [Login] returns [ErrUserDisabled]
    for every supplied password, the right one and any wrong one. *)
Theorem disabled_account_precedence
    (ident clientIP : string) (u : model.User) (s s1 : S) :
  UserRepository.GetByUsernameOrEmail ident s = (Ok u, s1) ->
  model.Status u = model.UserStatusDisabled ->
  forall password,
    userService.Login cfg
      {| model.login_Username := ident; model.login_Password := password |} clientIP s
    = (Err apperrors.ErrUserDisabled, s1).
Proof.
  intros Hg Hd password.
  unfold userService.Login, bind, bindE, fail. cbn [model.login_Username].
  rewrite Hg. unfold model.IsDisabled. rewrite Hd. reflexivity.
Qed.

End DisabledAccounts.

Section Accounts.

Variable env : Env.
Variable cfg : config.Config.

(** Whether a value is in use under a column among the live accounts
    (soft-deleted rows do not count), texts compared as the database
    compares them. *)
Definition in_use (column : model.User -> string) (value : string) (w : World) : bool :=
  existsb (fun u => gorm.live u && sql_eq env (column u) value) (rows w).

Lemma find_none_live (cond : model.User -> bool) (l : list model.User) :
  (forall x, In x l -> model.DeletedAt x = None -> cond x = false) ->
  find (fun u => gorm.live u && cond u) l = None.
Proof.
  induction l as [|x l IH]; intros H; [reflexivity|].
  cbn [find]. unfold gorm.live at 1.
  destruct (model.DeletedAt x) eqn:Ed; cbn [andb].
  - apply IH. intros y Hy. apply H. right. exact Hy.
  - rewrite (H x (or_introl eq_refl) Ed). apply IH.
    intros y Hy. apply H. right. exact Hy.
Qed.

Lemma count_positive (f : model.User -> bool) (l : list model.User) :
  (0 <? Z.of_nat (length (List.filter f l))) = existsb f l.
Proof.
  induction l as [|x l IH]; [reflexivity|].
  cbn [List.filter existsb]. destruct (f x); cbn [orb]; [|exact IH].
  cbn [length]. destruct (Z.ltb_spec 0 (Z.of_nat (Datatypes.S (length (List.filter f l)))));
    [reflexivity|lia].
Qed.

Lemma ExistsByUsername_up w name :
  down w = None ->
  userRepository.ExistsByUsername env name w = (Ok (in_use model.Username name w), w).
Proof.
  intros Hd. unfold userRepository.ExistsByUsername, userRepository.exists_where, gorm.Count.
  rewrite Hd, count_positive. reflexivity.
Qed.

Lemma ExistsByEmail_up w email :
  down w = None ->
  userRepository.ExistsByEmail env email w = (Ok (in_use model.Email email w), w).
Proof.
  intros Hd. unfold userRepository.ExistsByEmail, userRepository.exists_where, gorm.Count.
  rewrite Hd, count_positive. reflexivity.
Qed.

(** A lookup never changes the world. *)
Lemma lookup_readonly cond w r w' :
  userRepository.lookup cond w = (r, w') -> w' = w.
Proof.
  unfold userRepository.lookup.
  destruct (gorm.First cond w) as [u|e]; [|destruct (errors_Is e gorm.ErrRecordNotFound)];
    intros [= _ <-]; reflexivity.
Qed.

(** C5 (credential opacity).  With the database answering: a login
    whose identifier matches no live account (neither as username nor
    as email) and a login whose identifier finds an account that is not
    disabled but whose password does not verify return the same value,
    [ErrInvalidCredential], and leave the world as it was. *)
Theorem credential_opacity
    (w : World) (missing ident password1 password2 ip1 ip2 : string) (u : model.User) :
  down w = None ->
  (forall x, In x (rows w) -> model.DeletedAt x = None ->
             sql_eq env (model.Username x) missing = false /\
             sql_eq env (model.Email x) missing = false) ->
  userRepository.GetByUsernameOrEmail env ident w = (Ok u, w) ->
  model.IsDisabled u = false ->
  bcrypt_compare env (model.Password u) password2 <> None ->
  app.Login env cfg
    {| model.login_Username := missing; model.login_Password := password1 |} ip1 w
  = (Err apperrors.ErrInvalidCredential, w) /\
  app.Login env cfg
    {| model.login_Username := ident; model.login_Password := password2 |} ip2 w
  = (Err apperrors.ErrInvalidCredential, w).
Proof.
  intros Hup Hmiss Hfound Hen Hpw. split.
  - unfold app.Login, userService.Login, bindE. cbn [model.login_Username].
    cbn [UserRepository.GetByUsernameOrEmail app.userRepo userRepository.repo].
    unfold userRepository.GetByUsernameOrEmail, userRepository.lookup, gorm.First.
    rewrite Hup, find_none_live; [reflexivity|].
    intros x Hx Hl. destruct (Hmiss x Hx Hl) as [Hu He].
    apply orb_false_intro; assumption.
  - unfold app.Login, userService.Login, bindE, fail.
    cbn [model.login_Username model.login_Password].
    cbn [UserRepository.GetByUsernameOrEmail app.userRepo userRepository.repo].
    rewrite Hfound, Hen. unfold userService.checkPassword.
    cbn [bcrypt.CompareHashAndPassword app.crypt].
    destruct (bcrypt_compare env (model.Password u) password2); [reflexivity|].
    contradiction.
Qed.

(** C9 (registration conflicts).  With the database answering: a
    username in use among live accounts gives [ErrUsernameExists]; a
    free username with an email in use gives [ErrEmailAlreadyUsed];
    the two errors differ; and in both cases the world is returned
    unchanged: no hash is computed and no row is inserted. *)
Theorem registration_conflicts (w : World) (req : model.RegisterRequest) :
  down w = None ->
  (in_use model.Username (model.reg_Username req) w = true ->
   app.Register env cfg req w = (Err apperrors.ErrUsernameExists, w)) /\
  (in_use model.Username (model.reg_Username req) w = false ->
   in_use model.Email (model.reg_Email req) w = true ->
   app.Register env cfg req w = (Err apperrors.ErrEmailAlreadyUsed, w)) /\
  apperrors.Code apperrors.ErrUsernameExists <> apperrors.Code apperrors.ErrEmailAlreadyUsed.
Proof.
  intros Hup. split; [|split].
  - intros Hu. unfold app.Register, userService.Register, bind, bindE, fail.
    cbn [UserRepository.ExistsByUsername app.userRepo userRepository.repo].
    rewrite (ExistsByUsername_up _ _ Hup), Hu. reflexivity.
  - intros Hu He. unfold app.Register, userService.Register, bind, bindE, fail.
    cbn [UserRepository.ExistsByUsername UserRepository.ExistsByEmail
         app.userRepo userRepository.repo].
    rewrite (ExistsByUsername_up _ _ Hup), Hu.
    rewrite (ExistsByEmail_up _ _ Hup), He. reflexivity.
  - discriminate.
Qed.

(** A login that passes the three checks succeeds. *)
Lemma Login_succeeds w ident password ip u :
  userRepository.GetByUsernameOrEmail env ident w = (Ok u, w) ->
  model.IsDisabled u = false ->
  bcrypt_compare env (model.Password u) password = None ->
  exists resp w',
    app.Login env cfg
      {| model.login_Username := ident; model.login_Password := password |} ip w
    = (Ok resp, w').
Proof.
  intros Hfound Hen Hpw.
  unfold app.Login, userService.Login, bind, bindE, fail, ret, ignore_error.
  cbn [model.login_Username model.login_Password].
  cbn [UserRepository.GetByUsernameOrEmail app.userRepo userRepository.repo].
  rewrite Hfound, Hen. unfold userService.checkPassword.
  cbn [bcrypt.CompareHashAndPassword app.crypt]. rewrite Hpw. cbn [negb].
  cbn [JWTService.GenerateAccessToken JWTService.GenerateRefreshToken app.jwtSvc].
  eexists. eexists. reflexivity.
Qed.

(** C7 (changing the password with a wrong old password).  When the
    account is found and the supplied old password does not verify
    against its stored hash, [UpdatePassword] returns
    [ErrInvalidPassword], which is not [ErrInvalidCredential]; the
    world is returned unchanged (no hash is computed, no update is
    issued), so the stored hash is the old one and a login of that
    account with a password that verifies against it still succeeds. *)
Theorem wrong_old_password_changes_nothing
    (w : World) (id : string) (req : model.ChangePasswordRequest) (u : model.User) :
  userRepository.GetByID env id w = (Ok u, w) ->
  bcrypt_compare env (model.Password u) (model.OldPassword req) <> None ->
  app.UpdatePassword env cfg id req w = (Err apperrors.ErrInvalidPassword, w) /\
  apperrors.Code apperrors.ErrInvalidPassword
    <> apperrors.Code apperrors.ErrInvalidCredential /\
  userRepository.GetByID env id (snd (app.UpdatePassword env cfg id req w)) = (Ok u, w) /\
  forall password ip,
    userRepository.GetByUsernameOrEmail env (model.Username u) w = (Ok u, w) ->
    model.IsDisabled u = false ->
    bcrypt_compare env (model.Password u) password = None ->
    exists resp w',
      app.Login env cfg
        {| model.login_Username := model.Username u; model.login_Password := password |}
        ip (snd (app.UpdatePassword env cfg id req w))
      = (Ok resp, w').
Proof.
  intros Hfound Hpw.
  assert (Hrun : app.UpdatePassword env cfg id req w
                 = (Err apperrors.ErrInvalidPassword, w)).
  { unfold app.UpdatePassword, userService.UpdatePassword, bind, bindE, fail.
    cbn [UserRepository.GetByID app.userRepo userRepository.repo].
    rewrite Hfound. unfold userService.checkPassword.
    cbn [bcrypt.CompareHashAndPassword app.crypt].
    destruct (bcrypt_compare env (model.Password u) (model.OldPassword req));
      [reflexivity|contradiction]. }
  rewrite Hrun. cbn [snd]. repeat split; try assumption; try discriminate.
  intros password ip Hl Hen Hok. exact (Login_succeeds w _ password ip u Hl Hen Hok).
Qed.

End Accounts.

(* ===================================================================== *)
(** ** The theorems at work on the example world                         *)
(* ===================================================================== *)

Module runs.

Definition repo := app.userRepo refwire.env.
Definition tokens := app.jwtSvc refwire.env refwire.cfg.
Definition hasher := app.crypt refwire.env.

(** A request carrying the refresh token as its bearer credential. *)
Definition request : gin.Context :=
  {| gin.Header := {[ "Authorization" := "Bearer " +:+ examples.refresh_token ]};
     gin.Keys := ∅; gin.IsAborted := false; gin.Written := None |}.

Definition refresh_claims : jwtService.TokenClaims :=
  jwtService.newClaims examples.jcfg refwire.alice jwtService.TokenTypeRefresh
    (config.RefreshTokenExpireDuration examples.jcfg) examples.t0.

Definition access_claims : jwtService.TokenClaims :=
  jwtService.newClaims examples.jcfg refwire.alice jwtService.TokenTypeAccess
    (config.AccessTokenExpireDuration examples.jcfg) examples.t0.

Definition handler (c : gin.Context) (w : World) : gin.Context * World := (c, w).

(** Two registration requests: one reuses a username, one an email. *)
Definition taken_username : model.RegisterRequest :=
  {| model.reg_Username := "alice"; model.reg_Email := "other@x.com";
     model.reg_Password := "pw123456"; model.reg_ConfirmPassword := "pw123456";
     model.reg_Nickname := "" |}.

Definition taken_email : model.RegisterRequest :=
  {| model.reg_Username := "carol"; model.reg_Email := "alice@x.com";
     model.reg_Password := "pw123456"; model.reg_ConfirmPassword := "pw123456";
     model.reg_Nickname := "" |}.

Lemma request_token : middleware.extractToken request = inr examples.refresh_token.
Proof. vm_compute. reflexivity. Qed.

Lemma refresh_validates :
  JWTService.ValidateToken (JWTService := tokens) examples.refresh_token refwire.world
  = (Ok refresh_claims, tick refwire.world).
Proof. vm_compute. reflexivity. Qed.

Lemma access_validates :
  JWTService.ValidateToken (JWTService := tokens) examples.access_token refwire.world
  = (Ok access_claims, tick refwire.world).
Proof. vm_compute. reflexivity. Qed.

End runs.

Lemma kind_isolation_witness :
  middleware.extractToken runs.request = inr examples.refresh_token /\
  JWTService.ValidateToken (JWTService := runs.tokens) examples.refresh_token refwire.world
  = (Ok runs.refresh_claims, tick refwire.world) /\
  jwtService.TokenType runs.refresh_claims = jwtService.TokenTypeRefresh /\
  JWTService.ValidateToken (JWTService := runs.tokens) examples.access_token refwire.world
  = (Ok runs.access_claims, tick refwire.world) /\
  jwtService.TokenType runs.access_claims = jwtService.TokenTypeAccess /\
  gin.Written (fst (middleware.RequireAuth (jwtSvc := runs.tokens) runs.handler
                      runs.request refwire.world))
  = Some (401, {| gin.body_Code := 10002; gin.body_Message := "请使用访问令牌" |}) /\
  userService.RefreshToken (userRepo := runs.repo) (jwtSvc := runs.tokens) refwire.cfg
    examples.access_token refwire.world
  = (Err (apperrors.WithDetail apperrors.ErrInvalidToken "不是有效的刷新令牌"),
     tick refwire.world).
Proof.
  pose proof (@kind_isolation World runs.repo runs.tokens refwire.cfg runs.handler
                runs.request examples.refresh_token examples.access_token
                runs.refresh_claims runs.access_claims
                refwire.world (tick refwire.world) refwire.world (tick refwire.world)
                runs.request_token runs.refresh_validates eq_refl
                runs.access_validates eq_refl) as [Hauth [Hrefresh _]].
  split; [exact runs.request_token|]. split; [exact runs.refresh_validates|].
  split; [reflexivity|]. split; [exact runs.access_validates|]. split; [reflexivity|].
  split; [|exact Hrefresh].
  destruct (middleware.RequireAuth runs.handler runs.request refwire.world) as [c' s'].
  destruct Hauth as (_ & _ & Hw & _). exact Hw.
Defined.

Lemma refresh_flow_witness :
  JWTService.ValidateToken (JWTService := runs.tokens) examples.refresh_token refwire.world
  = (Ok runs.refresh_claims, tick refwire.world) /\
  jwtService.TokenType runs.refresh_claims = jwtService.TokenTypeRefresh /\
  exists accessToken,
    userService.RefreshToken (userRepo := runs.repo) (jwtSvc := runs.tokens) refwire.cfg
      examples.refresh_token refwire.world
    = (Ok {| model.rt_AccessToken := accessToken; model.rt_RefreshToken := "";
             model.rt_TokenType := "Bearer"; model.rt_ExpiresIn := 86400 |},
       tick (tick refwire.world)).
Proof.
  split; [exact runs.refresh_validates|]. split; [reflexivity|].
  destruct (@refresh_flow World runs.repo runs.tokens refwire.cfg
              examples.refresh_token runs.refresh_claims refwire.world
              (tick refwire.world) runs.refresh_validates eq_refl)
    as (_ & Hissue & _).
  eexists.
  exact (Hissue refwire.alice (tick refwire.world) _ (tick (tick refwire.world))
           eq_refl eq_refl eq_refl).
Defined.

Lemma disabled_account_precedence_witness :
  UserRepository.GetByUsernameOrEmail (UserRepository := runs.repo) "bob" refwire.world
  = (Ok refwire.bob, refwire.world) /\
  model.Status refwire.bob = model.UserStatusDisabled /\
  bcrypt_compare refwire.env (model.Password refwire.bob) "hunter22" = None /\
  userService.Login (userRepo := runs.repo) (jwtSvc := runs.tokens) (crypt := runs.hasher)
    refwire.cfg {| model.login_Username := "bob"; model.login_Password := "hunter22" |}
    "10.0.0.1" refwire.world
  = (Err apperrors.ErrUserDisabled, refwire.world) /\
  userService.Login (userRepo := runs.repo) (jwtSvc := runs.tokens) (crypt := runs.hasher)
    refwire.cfg {| model.login_Username := "bob"; model.login_Password := "not-it" |}
    "10.0.0.1" refwire.world
  = (Err apperrors.ErrUserDisabled, refwire.world).
Proof.
  pose proof (@disabled_account_precedence World runs.repo runs.tokens runs.hasher
                refwire.cfg "bob" "10.0.0.1" refwire.bob refwire.world refwire.world
                eq_refl eq_refl) as H.
  split; [reflexivity|]. split; [reflexivity|]. split; [reflexivity|].
  split; [exact (H "hunter22") | exact (H "not-it")].
Defined.

Lemma credential_opacity_witness :
  down refwire.world = None /\
  (forall x, In x (rows refwire.world) -> model.DeletedAt x = None ->
             sql_eq refwire.env (model.Username x) "nonexistent-user" = false /\
             sql_eq refwire.env (model.Email x) "nonexistent-user" = false) /\
  userRepository.GetByUsernameOrEmail refwire.env "alice" refwire.world
  = (Ok refwire.alice, refwire.world) /\
  model.IsDisabled refwire.alice = false /\
  bcrypt_compare refwire.env (model.Password refwire.alice) "wrongpassword" <> None /\
  app.Login refwire.env refwire.cfg
    {| model.login_Username := "nonexistent-user"; model.login_Password := "anything" |}
    "10.0.0.1" refwire.world
  = app.Login refwire.env refwire.cfg
      {| model.login_Username := "alice"; model.login_Password := "wrongpassword" |}
      "10.0.0.1" refwire.world.
Proof.
  assert (Hmiss : forall x, In x (rows refwire.world) -> model.DeletedAt x = None ->
                    sql_eq refwire.env (model.Username x) "nonexistent-user" = false /\
                    sql_eq refwire.env (model.Email x) "nonexistent-user" = false)
    by (intros x [<-|[<-|[]]] _; split; reflexivity).
  assert (Hpw : bcrypt_compare refwire.env (model.Password refwire.alice) "wrongpassword"
                <> None) by (vm_compute; discriminate).
  split; [reflexivity|]. split; [exact Hmiss|]. split; [reflexivity|].
  split; [reflexivity|]. split; [exact Hpw|].
  destruct (credential_opacity refwire.env refwire.cfg refwire.world
              "nonexistent-user" "alice" "anything" "wrongpassword" "10.0.0.1" "10.0.0.1"
              refwire.alice eq_refl Hmiss eq_refl eq_refl Hpw) as [-> ->].
  reflexivity.
Defined.

Lemma registration_conflicts_witness :
  down refwire.world = None /\
  in_use refwire.env model.Username "alice" refwire.world = true /\
  in_use refwire.env model.Username "carol" refwire.world = false /\
  in_use refwire.env model.Email "alice@x.com" refwire.world = true /\
  app.Register refwire.env refwire.cfg runs.taken_username refwire.world
  = (Err apperrors.ErrUsernameExists, refwire.world) /\
  app.Register refwire.env refwire.cfg runs.taken_email refwire.world
  = (Err apperrors.ErrEmailAlreadyUsed, refwire.world).
Proof.
  split; [reflexivity|]. split; [reflexivity|]. split; [reflexivity|].
  split; [reflexivity|]. split.
  - exact (proj1 (registration_conflicts refwire.env refwire.cfg refwire.world
                    runs.taken_username eq_refl) eq_refl).
  - exact (proj1 (proj2 (registration_conflicts refwire.env refwire.cfg refwire.world
                           runs.taken_email eq_refl)) eq_refl eq_refl).
Defined.

Lemma wrong_old_password_changes_nothing_witness :
  userRepository.GetByID refwire.env "id-alice" refwire.world
  = (Ok refwire.alice, refwire.world) /\
  bcrypt_compare refwire.env (model.Password refwire.alice) "not-my-password" <> None /\
  app.UpdatePassword refwire.env refwire.cfg "id-alice"
    {| model.OldPassword := "not-my-password"; model.NewPassword := "brand-new";
       model.ConfirmPassword := "brand-new" |} refwire.world
  = (Err apperrors.ErrInvalidPassword, refwire.world) /\
  exists resp w',
    app.Login refwire.env refwire.cfg
      {| model.login_Username := "alice"; model.login_Password := "pw123456" |} "10.0.0.1"
      (snd (app.UpdatePassword refwire.env refwire.cfg "id-alice"
              {| model.OldPassword := "not-my-password"; model.NewPassword := "brand-new";
                 model.ConfirmPassword := "brand-new" |} refwire.world))
    = (Ok resp, w').
Proof.
  assert (Hpw : bcrypt_compare refwire.env (model.Password refwire.alice) "not-my-password"
                <> None) by (vm_compute; discriminate).
  destruct (wrong_old_password_changes_nothing refwire.env refwire.cfg refwire.world
              "id-alice"
              {| model.OldPassword := "not-my-password"; model.NewPassword := "brand-new";
                 model.ConfirmPassword := "brand-new" |}
              refwire.alice eq_refl Hpw) as (Hrun & _ & _ & Hlogin).
  split; [reflexivity|]. split; [exact Hpw|]. split; [exact Hrun|].
  exact (Hlogin "pw123456" "10.0.0.1" eq_refl eq_refl eq_refl).
Defined.


(* ===================================================================== *)
(** ** More on the token service                                         *)
(* ===================================================================== *)

Section TokenErrors.

Variable wire : jwt.Wire jwtService.TokenClaims.
Variable cfg : config.JWTConfig.

(** [handleParseError] always lands in one of three classifications. *)
Lemma handleParseError_codes (err : error) :
  let a := jwtService.handleParseError err in
  apperrors.HTTPStatus a = apperrors.StatusUnauthorized /\
  (apperrors.Code a = apperrors.CodeTokenExpired \/
   apperrors.Code a = apperrors.CodeInvalidToken \/
   apperrors.Code a = apperrors.CodeTokenMalformed).
Proof.
  unfold jwtService.handleParseError.
  destruct (errors_Is err jwt.ErrTokenExpired); [split; [reflexivity|auto]|].
  destruct (errors_Is err jwt.ErrSignatureInvalid); [split; [reflexivity|auto]|].
  destruct (errors_Is err jwt.ErrTokenMalformed); [split; [reflexivity|auto]|].
  destruct (errors_Is err jwt.ErrTokenNotValidYet); split; (reflexivity || auto).
Qed.

(** X1.  Whatever the token string and the instant, an error returned by
    [ValidateToken] is an [AppError] with HTTP status 401 whose code is
    that of [ErrTokenExpired], [ErrInvalidToken] or [ErrTokenMalformed]. *)
Theorem ValidateToken_error_is_classified (tok : string) (now : time.Time) (e : error) :
  jwtService.ValidateToken wire cfg tok now = Err e ->
  exists a : apperrors.AppError,
    e = apperrors.to_error a /\
    apperrors.AsAppError e = Some a /\
    apperrors.HTTPStatus a = 401 /\
    (apperrors.Code a = 11002 \/ apperrors.Code a = 11001 \/ apperrors.Code a = 11005).
Proof.
  unfold jwtService.ValidateToken.
  destruct (jwt.ParseWithClaims jwtService.RegisteredClaims wire tok
              (jwtService.keyFunc cfg) now) as [token|err].
  - destruct (jwt.Valid token); cbn [negb]; [discriminate|].
    intros [= <-]. exists apperrors.ErrInvalidToken. repeat split; auto.
  - intros [= <-]. exists (jwtService.handleParseError err).
    destruct (handleParseError_codes err) as [Hs Hc].
    split; [reflexivity|]. split; [|split; assumption].
    destruct (jwtService.handleParseError err); reflexivity.
Qed.

(** X2.  A token string that does not consist of exactly three
    dot-separated segments (the empty string, a string without dots, a
    string with four parts) is rejected as [ErrTokenMalformed]. *)
Theorem wrong_segment_count_is_malformed (tok : string) (now : time.Time) :
  length (jwt.Split tok) <> 3%nat ->
  jwtService.ValidateToken wire cfg tok now = Err apperrors.ErrTokenMalformed.
Proof.
  intros H. unfold jwtService.ValidateToken, jwt.ParseWithClaims, jwt.ParseUnverified.
  destruct (jwt.Split tok) as [|p0 [|p1 [|p2 [|p3 l]]]]; try reflexivity.
  exfalso. apply H. reflexivity.
Qed.

(** X3.  The signature is checked before the validity window: a
    structurally sound token under an HMAC method whose signature is not
    the keyed digest of its first two segments is rejected as
    [ErrInvalidToken] with the signature detail, at every instant, expired
    or not. *)
Theorem bad_signature_is_invalid
    (tok alg text sig : string) (c : jwtService.TokenClaims) (h : jwt.Hash)
    (now : time.Time) :
  jwt.segments wire tok = Some (alg, c, text, sig) ->
  jwt.GetSigningMethod alg = Some (jwt.SigningMethodHMAC h) ->
  sig <> jwt.hmacSum wire h (config.Secret cfg) text ->
  jwtService.ValidateToken wire cfg tok now
  = Err (apperrors.WithDetail apperrors.ErrInvalidToken "令牌签名无效").
Proof.
  intros Hseg Hm Hsig. unfold jwtService.ValidateToken.
  rewrite (ParseWithClaims_segments wire _ _ _ _ _ _ now Hseg), Hm.
  unfold jwtService.keyFunc. cbn [jwt.Method jwt.is_HMAC negb]. unfold jwt.Verify.
  destruct (String.eqb_spec sig (jwt.hmacSum wire h (config.Secret cfg) text));
    [contradiction|reflexivity].
Qed.

(** X4.  A correctly signed token presented before its not-before
    instant, and not expired, is rejected as [ErrInvalidToken] with the
    not-yet-valid detail. *)
Theorem not_yet_valid_is_invalid
    (tok : string) (c : jwtService.TokenClaims) (now nbf : time.Time) :
  signed_claims wire (config.Secret cfg) tok = Some c ->
  jwt.NotBefore (jwtService.RegisteredClaims c) = Some nbf ->
  now < nbf ->
  (forall exp, jwt.ExpiresAt (jwtService.RegisteredClaims c) = Some exp -> now < exp) ->
  jwtService.ValidateToken wire cfg tok now
  = Err (apperrors.WithDetail apperrors.ErrInvalidToken "令牌尚未生效").
Proof.
  intros Hs Hn Hlt Hexp. rewrite (ValidateToken_signed wire cfg _ _ now Hs).
  unfold jwt.Validate, jwt.verifyExpiresAt, jwt.verifyNotBefore, time.Before.
  rewrite Hn. destruct (Z.ltb_spec now nbf); [|lia].
  destruct (jwt.ExpiresAt (jwtService.RegisteredClaims c)) as [exp|]; [|reflexivity].
  specialize (Hexp exp eq_refl). destruct (Z.ltb_spec now exp); [reflexivity|lia].
Qed.

(** X5.  Whatever [ValidateToken] accepts, [ParseTokenUnvalidated] reads
    the same way: it returns the same claims. *)
Theorem unvalidated_parse_agrees (tok : string) (now : time.Time) (c : jwtService.TokenClaims) :
  jwtService.ValidateToken wire cfg tok now = Ok c ->
  jwtService.ParseTokenUnvalidated wire tok = Ok c.
Proof.
  unfold jwtService.ValidateToken, jwtService.ParseTokenUnvalidated, jwt.ParseWithClaims.
  destruct (jwt.ParseUnverified wire tok) as [[token parts]|err]; [|discriminate].
  destruct (jwt.DecodeSegment wire (nth 2 parts "")); [|discriminate].
  destruct (jwtService.keyFunc cfg _); [|discriminate].
  destruct (jwt.Verify wire _ _ _ _); [discriminate|].
  destruct (jwt.Validate _ now); [discriminate|].
  cbn. intros [= <-]. reflexivity.
Qed.

(** X6.  [ParseTokenUnvalidated] checks neither signature nor validity
    window nor method family: every structurally sound token whose header
    names a registered method yields its claims, and every failure is
    classified [ErrTokenMalformed] around the library's error. *)
Theorem unvalidated_parse_checks_nothing
    (tok alg text sig : string) (c : jwtService.TokenClaims) (m : jwt.SigningMethod) :
  jwt.segments wire tok = Some (alg, c, text, sig) ->
  jwt.GetSigningMethod alg = Some m ->
  jwtService.ParseTokenUnvalidated wire tok = Ok c /\
  forall t e,
    jwtService.ParseTokenUnvalidated wire t = Err e ->
    exists cause, e = apperrors.to_error (apperrors.WithError apperrors.ErrTokenMalformed cause).
Proof.
  intros Hseg Hm. split.
  - apply segments_inv in Hseg.
    destruct Hseg as (p0 & p1 & p2 & hb & cb & Hs & H0 & H1 & H2 & H3 & H4 & ->).
    unfold jwtService.ParseTokenUnvalidated, jwt.ParseUnverified.
    rewrite Hs, H0, H1, H2, H3, Hm. reflexivity.
  - intros t e. unfold jwtService.ParseTokenUnvalidated.
    destruct (jwt.ParseUnverified wire t) as [[token parts]|err]; [discriminate|].
    intros [= <-]. exists err. reflexivity.
Qed.

End TokenErrors.

Lemma ValidateToken_error_is_classified_witness :
  jwtService.ValidateToken refwire.format examples.jcfg "not-a-token" examples.t0
  = Err apperrors.ErrTokenMalformed /\
  exists a : apperrors.AppError,
    apperrors.to_error apperrors.ErrTokenMalformed = apperrors.to_error a /\
    apperrors.AsAppError apperrors.ErrTokenMalformed = Some a /\
    apperrors.HTTPStatus a = 401 /\
    (apperrors.Code a = 11002 \/ apperrors.Code a = 11001 \/ apperrors.Code a = 11005).
Proof.
  assert (H : jwtService.ValidateToken refwire.format examples.jcfg "not-a-token" examples.t0
              = Err apperrors.ErrTokenMalformed) by (vm_compute; reflexivity).
  split; [exact H|].
  exact (ValidateToken_error_is_classified refwire.format examples.jcfg
           "not-a-token" examples.t0 _ H).
Defined.


(** More example tokens. *)
Module cases.

(** Claims naming alice an administrator, signed by nobody. *)
Definition forged_claims : jwtService.TokenClaims :=
  {| jwtService.UserID := "id-alice"; jwtService.Username := "alice";
     jwtService.Email := "alice@x.com"; jwtService.Role := "admin";
     jwtService.TokenType := "access";
     jwtService.RegisteredClaims :=
       {| jwt.Issuer := "test-issuer"; jwt.Subject := "id-alice"; jwt.Audience := [];
          jwt.ExpiresAt := Some (1700086400 * time.Second);
          jwt.NotBefore := Some (1700000000 * time.Second);
          jwt.IssuedAt := Some (1700000000 * time.Second); jwt.ID := "" |} |}.

Definition forged_text : string :=
  Eval vm_compute in jwt.SigningString refwire.format jwt.SigningMethodHS256 forged_claims.

Definition forged_token : string := Eval vm_compute in forged_text +:+ ".forged".

(** A token issued ten hours after the instant it is presented at. *)
Definition early_claims : jwtService.TokenClaims :=
  jwtService.newClaims examples.jcfg refwire.alice jwtService.TokenTypeAccess
    (config.AccessTokenExpireDuration examples.jcfg) (examples.t0 + 10 * time.Hour).

Definition early_token : string :=
  Eval vm_compute in
    examples.token_of
      (jwtService.GenerateAccessToken refwire.format examples.jcfg refwire.alice
         (examples.t0 + 10 * time.Hour)).

End cases.

Lemma wrong_segment_count_is_malformed_witness :
  length (jwt.Split "not-a-token") <> 3%nat /\
  jwtService.ValidateToken refwire.format examples.jcfg "not-a-token" examples.t0
  = Err apperrors.ErrTokenMalformed.
Proof.
  assert (H : length (jwt.Split "not-a-token") <> 3%nat) by (vm_compute; discriminate).
  split; [exact H|].
  exact (wrong_segment_count_is_malformed refwire.format examples.jcfg
           "not-a-token" examples.t0 H).
Defined.

Lemma bad_signature_is_invalid_witness :
  jwt.segments refwire.format cases.forged_token
  = Some ("HS256", cases.forged_claims, cases.forged_text, "forged") /\
  jwt.GetSigningMethod "HS256" = Some (jwt.SigningMethodHMAC jwt.SHA256) /\
  "forged" <> jwt.hmacSum refwire.format jwt.SHA256 (config.Secret examples.jcfg)
                cases.forged_text /\
  jwtService.ValidateToken refwire.format examples.jcfg cases.forged_token
    (1700100000 * time.Second)
  = Err (apperrors.WithDetail apperrors.ErrInvalidToken "令牌签名无效").
Proof.
  assert (Hseg : jwt.segments refwire.format cases.forged_token
                 = Some ("HS256", cases.forged_claims, cases.forged_text, "forged"))
    by (vm_compute; reflexivity).
  assert (Hsig : "forged" <> jwt.hmacSum refwire.format jwt.SHA256
                               (config.Secret examples.jcfg) cases.forged_text)
    by (vm_compute; discriminate).
  split; [exact Hseg|]. split; [reflexivity|]. split; [exact Hsig|].
  exact (bad_signature_is_invalid refwire.format examples.jcfg cases.forged_token
           "HS256" cases.forged_text "forged" cases.forged_claims jwt.SHA256
           (1700100000 * time.Second) Hseg eq_refl Hsig).
Defined.

Lemma not_yet_valid_is_invalid_witness :
  signed_claims refwire.format (config.Secret examples.jcfg) cases.early_token
  = Some cases.early_claims /\
  jwt.NotBefore (jwtService.RegisteredClaims cases.early_claims)
  = Some (1700036000 * time.Second) /\
  examples.t0 < 1700036000 * time.Second /\
  jwtService.ValidateToken refwire.format examples.jcfg cases.early_token examples.t0
  = Err (apperrors.WithDetail apperrors.ErrInvalidToken "令牌尚未生效").
Proof.
  assert (Hs : signed_claims refwire.format (config.Secret examples.jcfg) cases.early_token
               = Some cases.early_claims) by (vm_compute; reflexivity).
  assert (Hlt : examples.t0 < 1700036000 * time.Second) by (vm_compute; reflexivity).
  split; [exact Hs|]. split; [reflexivity|]. split; [exact Hlt|].
  refine (not_yet_valid_is_invalid refwire.format examples.jcfg cases.early_token
            cases.early_claims examples.t0 (1700036000 * time.Second) Hs eq_refl Hlt _).
  intros exp [= <-]. vm_compute. reflexivity.
Defined.

Lemma unvalidated_parse_agrees_witness :
  jwtService.ValidateToken refwire.format examples.jcfg examples.access_token
    (examples.t0 + 1) = Ok runs.access_claims /\
  jwtService.ParseTokenUnvalidated refwire.format examples.access_token
  = Ok runs.access_claims.
Proof.
  assert (H : jwtService.ValidateToken refwire.format examples.jcfg examples.access_token
                (examples.t0 + 1) = Ok runs.access_claims) by (vm_compute; reflexivity).
  split; [exact H|].
  exact (unvalidated_parse_agrees refwire.format examples.jcfg examples.access_token
           (examples.t0 + 1) runs.access_claims H).
Defined.

Lemma unvalidated_parse_checks_nothing_witness :
  jwt.segments refwire.format cases.forged_token
  = Some ("HS256", cases.forged_claims, cases.forged_text, "forged") /\
  jwt.GetSigningMethod "HS256" = Some (jwt.SigningMethodHMAC jwt.SHA256) /\
  jwtService.ParseTokenUnvalidated refwire.format cases.forged_token
  = Ok cases.forged_claims.
Proof.
  assert (Hseg : jwt.segments refwire.format cases.forged_token
                 = Some ("HS256", cases.forged_claims, cases.forged_text, "forged"))
    by (vm_compute; reflexivity).
  split; [exact Hseg|]. split; [reflexivity|].
  exact (proj1 (unvalidated_parse_checks_nothing refwire.format cases.forged_token
                  "HS256" cases.forged_text "forged" cases.forged_claims
                  (jwt.SigningMethodHMAC jwt.SHA256) Hseg eq_refl)).
Defined.

(* ===================================================================== *)
(** ** Expiry helpers and token pairs                                    *)
(* ===================================================================== *)

(** X7.  The two expiry helpers of the claims agree at every instant:
    [IsExpired] holds exactly when [TimeToExpire] is negative, also for
    claims without an expiry and for distances beyond an [int64]. *)
Theorem IsExpired_iff_negative_TimeToExpire (c : jwtService.TokenClaims) (now : time.Time) :
  jwtService.IsExpired c now = true <-> jwtService.TimeToExpire c now < 0.
Proof.
  unfold jwtService.IsExpired, jwtService.TimeToExpire.
  destruct (jwt.ExpiresAt (jwtService.RegisteredClaims c)) as [exp|]; [|split; [lia|reflexivity]].
  unfold time.After, time.Until, time.Sub, time.maxDuration, time.minDuration.
  change (2 ^ 63) with 9223372036854775808.
  repeat match goal with
         | |- context [ ?a <? ?b ] => destruct (Z.ltb_spec a b)
         end;
    split; intros; (reflexivity || discriminate || lia).
Qed.

(** X8.  [IsExpired] is one instant behind the validator: whenever
    [IsExpired] holds the validator reports expiry too, but at the
    expiry instant itself the validator already rejects the token while
    [IsExpired] still answers no. *)
Theorem IsExpired_lags_validator (c : jwtService.TokenClaims) (now exp : time.Time) :
  jwt.ExpiresAt (jwtService.RegisteredClaims c) = Some exp ->
  (jwtService.IsExpired c now = true ->
   jwt.verifyExpiresAt (jwtService.RegisteredClaims c) now = Some jwt.ErrTokenExpired) /\
  jwtService.IsExpired c exp = false /\
  jwt.verifyExpiresAt (jwtService.RegisteredClaims c) exp = Some jwt.ErrTokenExpired.
Proof.
  intros He. unfold jwtService.IsExpired, jwt.verifyExpiresAt, time.After, time.Before.
  rewrite He. rewrite Z.ltb_irrefl. repeat split.
  destruct (Z.ltb_spec exp now); [|discriminate].
  intros _. destruct (Z.ltb_spec now exp); [lia|reflexivity].
Qed.

Lemma IsExpired_lags_validator_witness :
  jwt.ExpiresAt (jwtService.RegisteredClaims runs.access_claims)
  = Some (1700086400 * time.Second) /\
  jwtService.IsExpired runs.access_claims (1700086400 * time.Second) = false /\
  jwtService.ValidateToken refwire.format examples.jcfg examples.access_token
    (1700086400 * time.Second) = Err apperrors.ErrTokenExpired.
Proof.
  split; [reflexivity|]. split.
  - exact (proj1 (proj2 (IsExpired_lags_validator runs.access_claims
                           (1700086400 * time.Second) (1700086400 * time.Second)
                           eq_refl))).
  - vm_compute. reflexivity.
Defined.

(** X9.  The two tokens of a pair, read back inside both validity
    windows, carry the same identity (id, username, email, role,
    subject, issuer) and differ in kind: the first is an access token,
    the second a refresh token. *)
Theorem token_pair_coherent
    (wire : jwt.Wire jwtService.TokenClaims) (cfg : config.JWTConfig)
    (user : model.User) (now1 now2 now' : time.Time) :
  let ca := jwtService.newClaims cfg user jwtService.TokenTypeAccess
              (config.AccessTokenExpireDuration cfg) now1 in
  let cr := jwtService.newClaims cfg user jwtService.TokenTypeRefresh
              (config.RefreshTokenExpireDuration cfg) now2 in
  faithful wire "HS256" ca
    (jwt.hmacSum wire jwt.SHA256 (config.Secret cfg)
       (jwt.SigningString wire jwt.SigningMethodHS256 ca)) ->
  faithful wire "HS256" cr
    (jwt.hmacSum wire jwt.SHA256 (config.Secret cfg)
       (jwt.SigningString wire jwt.SigningMethodHS256 cr)) ->
  jwt.in_window (jwtService.RegisteredClaims ca) now' ->
  jwt.in_window (jwtService.RegisteredClaims cr) now' ->
  exists accessToken refreshToken a r,
    jwtService.GenerateTokenPair wire cfg user now1 now2 = Ok (accessToken, refreshToken) /\
    jwtService.ValidateToken wire cfg accessToken now' = Ok a /\
    jwtService.ValidateToken wire cfg refreshToken now' = Ok r /\
    jwtService.IsAccessToken a = true /\ jwtService.IsRefreshToken a = false /\
    jwtService.IsRefreshToken r = true /\ jwtService.IsAccessToken r = false /\
    jwtService.UserID a = model.ID user /\ jwtService.UserID r = model.ID user /\
    jwtService.Username a = jwtService.Username r /\
    jwtService.Email a = jwtService.Email r /\
    jwtService.Role a = jwtService.Role r /\
    jwt.Subject (jwtService.RegisteredClaims a) = jwt.Subject (jwtService.RegisteredClaims r) /\
    jwt.Issuer (jwtService.RegisteredClaims a) = config.Issuer cfg /\
    jwt.Issuer (jwtService.RegisteredClaims r) = config.Issuer cfg.
Proof.
  intros ca cr Hfa Hfr Hwa Hwr.
  destruct (generateToken_signed wire cfg user jwtService.TokenTypeAccess
              (config.AccessTokenExpireDuration cfg) now1 Hfa) as (ta & Hga & Hsa).
  destruct (generateToken_signed wire cfg user jwtService.TokenTypeRefresh
              (config.RefreshTokenExpireDuration cfg) now2 Hfr) as (tr & Hgr & Hsr).
  exists ta, tr, ca, cr. split.
  - unfold jwtService.GenerateTokenPair, jwtService.GenerateAccessToken,
      jwtService.GenerateRefreshToken. rewrite Hga, Hgr. reflexivity.
  - split; [apply ValidateToken_signed_accepts; assumption|].
    split; [apply ValidateToken_signed_accepts; assumption|].
    repeat split.
Qed.

Lemma token_pair_coherent_witness :
  exists accessToken refreshToken a r,
    jwtService.GenerateTokenPair refwire.format examples.jcfg refwire.alice
      examples.t0 (examples.t0 + 7) = Ok (accessToken, refreshToken) /\
    jwtService.ValidateToken refwire.format examples.jcfg accessToken
      (examples.t0 + time.Hour) = Ok a /\
    jwtService.ValidateToken refwire.format examples.jcfg refreshToken
      (examples.t0 + time.Hour) = Ok r /\
    jwtService.TokenType a = "access" /\ jwtService.TokenType r = "refresh" /\
    jwtService.UserID a = "id-alice" /\ jwtService.UserID r = "id-alice".
Proof.
  assert (Hfa : faithful refwire.format "HS256"
            (jwtService.newClaims examples.jcfg refwire.alice jwtService.TokenTypeAccess
               (config.AccessTokenExpireDuration examples.jcfg) examples.t0)
            (jwt.hmacSum refwire.format jwt.SHA256 (config.Secret examples.jcfg)
               (jwt.SigningString refwire.format jwt.SigningMethodHS256
                  (jwtService.newClaims examples.jcfg refwire.alice
                     jwtService.TokenTypeAccess
                     (config.AccessTokenExpireDuration examples.jcfg) examples.t0))))
    by (constructor; vm_compute; reflexivity).
  assert (Hfr : faithful refwire.format "HS256"
            (jwtService.newClaims examples.jcfg refwire.alice jwtService.TokenTypeRefresh
               (config.RefreshTokenExpireDuration examples.jcfg) (examples.t0 + 7))
            (jwt.hmacSum refwire.format jwt.SHA256 (config.Secret examples.jcfg)
               (jwt.SigningString refwire.format jwt.SigningMethodHS256
                  (jwtService.newClaims examples.jcfg refwire.alice
                     jwtService.TokenTypeRefresh
                     (config.RefreshTokenExpireDuration examples.jcfg)
                     (examples.t0 + 7)))))
    by (constructor; vm_compute; reflexivity).
  assert (Hwa : jwt.in_window
                  (jwtService.RegisteredClaims
                     (jwtService.newClaims examples.jcfg refwire.alice
                        jwtService.TokenTypeAccess
                        (config.AccessTokenExpireDuration examples.jcfg) examples.t0))
                  (examples.t0 + time.Hour))
    by (split; intros ? [= <-]; vm_compute; [discriminate | reflexivity]).
  assert (Hwr : jwt.in_window
                  (jwtService.RegisteredClaims
                     (jwtService.newClaims examples.jcfg refwire.alice
                        jwtService.TokenTypeRefresh
                        (config.RefreshTokenExpireDuration examples.jcfg)
                        (examples.t0 + 7)))
                  (examples.t0 + time.Hour))
    by (split; intros ? [= <-]; vm_compute; [discriminate | reflexivity]).
  destruct (token_pair_coherent refwire.format examples.jcfg refwire.alice
              examples.t0 (examples.t0 + 7) (examples.t0 + time.Hour) Hfa Hfr Hwa Hwr)
    as (ta & tr & a & r & Hp & Hva & Hvr & Hka & _ & Hkr & _ & Hia & Hir & _).
  exists ta, tr, a, r.
  split; [exact Hp|]. split; [exact Hva|]. split; [exact Hvr|].
  split; [apply String.eqb_eq; exact Hka|]. split; [apply String.eqb_eq; exact Hkr|].
  split; [exact Hia | exact Hir].
Defined.

(* ===================================================================== *)
(** ** More on the auth middleware                                       *)
(* ===================================================================== *)

Lemma substring_all (s : string) : String.substring 0 (String.length s) s = s.
Proof. induction s as [|c s IH]; [reflexivity|]. cbn. rewrite IH. reflexivity. Qed.

Lemma prefix_app (p s : string) : String.prefix p (p +:+ s) = true.
Proof.
  induction p as [|c p IH]; [destruct s; reflexivity|].
  change (String c p +:+ s) with (String c (p +:+ s)). cbn [String.prefix].
  destruct (ascii_dec c c); [exact IH|contradiction].
Qed.

Lemma TrimPrefix_app (p s : string) : middleware.TrimPrefix (p +:+ s) p = s.
Proof.
  unfold middleware.TrimPrefix. rewrite prefix_app.
  induction p as [|c p IH].
  - change ("" +:+ s) with s. cbn [String.length]. rewrite Nat.sub_0_r. apply substring_all.
  - change (String c p +:+ s) with (String c (p +:+ s)). cbn. exact IH.
Qed.

Lemma prefix_inv (p s : string) :
  String.prefix p s = true -> exists rest, s = p +:+ rest.
Proof.
  revert s. induction p as [|c p IH]; intros s H.
  - exists s. reflexivity.
  - destruct s as [|d s]; [discriminate|]. cbn [String.prefix] in H.
    destruct (ascii_dec c d) as [->|]; [|discriminate].
    destruct (IH s H) as [rest ->]. exists rest. reflexivity.
Qed.

(** X10.  [extractToken] yields a token exactly when the Authorization
    header is ["Bearer "] followed by a non-empty rest, and the token is
    that rest, byte for byte (no trimming, case-sensitive prefix). *)
Theorem extractToken_bearer (c : gin.Context) (tok : string) :
  middleware.extractToken c = inr tok <->
  tok <> "" /\ gin.GetHeader c "Authorization" = "Bearer " +:+ tok.
Proof.
  unfold middleware.extractToken, middleware.AuthorizationHeader, middleware.BearerPrefix.
  split.
  - destruct (String.eqb_spec (gin.GetHeader c "Authorization") ""); [discriminate|].
    destruct (String.prefix "Bearer " (gin.GetHeader c "Authorization")) eqn:Hp;
      cbn [negb]; [|discriminate].
    destruct (prefix_inv _ _ Hp) as [rest Hrest]. rewrite Hrest, TrimPrefix_app.
    destruct (String.eqb_spec rest ""); [discriminate|].
    intros [= <-]. split; [assumption|reflexivity].
  - intros [Hne ->]. rewrite prefix_app, TrimPrefix_app. cbn [negb].
    destruct (String.eqb_spec tok ""); [contradiction|].
    reflexivity.
Qed.

(** The three ways [extractToken] fails. *)
Lemma extractToken_failures (c : gin.Context) :
  (gin.GetHeader c "Authorization" = "" ->
   middleware.extractToken c = inl apperrors.ErrTokenNotFound) /\
  (gin.GetHeader c "Authorization" = "Bearer " ->
   middleware.extractToken c = inl apperrors.ErrTokenNotFound) /\
  (gin.GetHeader c "Authorization" <> "" ->
   String.prefix "Bearer " (gin.GetHeader c "Authorization") = false ->
   middleware.extractToken c
   = inl (apperrors.WithDetail apperrors.ErrTokenMalformed "令牌必须以 Bearer 开头")).
Proof.
  unfold middleware.extractToken, middleware.AuthorizationHeader, middleware.BearerPrefix.
  repeat split.
  - intros ->. reflexivity.
  - intros ->. reflexivity.
  - intros Hne Hp. rewrite Hp.
    destruct (String.eqb_spec (gin.GetHeader c "Authorization") ""); [contradiction|].
    reflexivity.
Qed.

(** The role set of [RequireRole] answers membership in the role list. *)
Lemma roleSet_lookup (roles : list string) (role : string) :
  default false (middleware.roleSet roles !! role) = existsb (String.eqb role) roles.
Proof.
  unfold middleware.roleSet.
  assert (H : forall (m : gmap string bool),
            default false (fold_left (fun m r => <[r := true]> m) roles m !! role)
            = existsb (String.eqb role) roles || default false (m !! role)).
  { induction roles as [|x roles IH]; intros m; [reflexivity|].
    cbn [fold_left existsb]. rewrite IH.
    destruct (String.eqb_spec role x) as [->|Hne].
    - rewrite lookup_insert_eq. cbn. rewrite orb_true_r. reflexivity.
    - rewrite lookup_insert_ne by congruence. reflexivity. }
  rewrite H, lookup_empty. cbn. apply orb_false_r.
Qed.

(** X11.  The identity accessors read back what [setContextValues]
    stored from the claims, whatever the context held before; the
    request counts as authenticated exactly when the claims' user id is
    not empty, and as an administrator's exactly when the role is
    ["admin"]. *)
Theorem accessors_after_setContextValues (c : gin.Context) (claims : jwtService.TokenClaims) :
  let c' := middleware.setContextValues c claims in
  middleware.GetUserID c' = jwtService.UserID claims /\
  middleware.GetUsername c' = jwtService.Username claims /\
  middleware.GetUserRole c' = jwtService.Role claims /\
  middleware.GetUserEmail c' = jwtService.Email claims /\
  middleware.GetClaims c' = Some claims /\
  middleware.IsAuthenticated c' = negb (String.eqb (jwtService.UserID claims) "") /\
  middleware.IsAdmin c' = String.eqb (jwtService.Role claims) "admin" /\
  gin.Header c' = gin.Header c /\ gin.IsAborted c' = gin.IsAborted c /\
  gin.Written c' = gin.Written c.
Proof.
  cbv zeta.
  assert (Hid : middleware.GetUserID (middleware.setContextValues c claims)
                = jwtService.UserID claims).
  { unfold middleware.GetUserID, middleware.get_string, middleware.setContextValues,
      gin.Get, gin.Set_. cbn [gin.Keys].
    rewrite !lookup_insert_ne by discriminate. rewrite lookup_insert_eq. reflexivity. }
  assert (Hrole : middleware.GetUserRole (middleware.setContextValues c claims)
                  = jwtService.Role claims).
  { unfold middleware.GetUserRole, middleware.get_string, middleware.setContextValues,
      gin.Get, gin.Set_. cbn [gin.Keys].
    rewrite !lookup_insert_ne by discriminate. rewrite lookup_insert_eq. reflexivity. }
  split; [exact Hid|]. split; [|split; [exact Hrole|split; [|split]]].
  - unfold middleware.GetUsername, middleware.get_string, middleware.setContextValues,
      gin.Get, gin.Set_. cbn [gin.Keys].
    rewrite !lookup_insert_ne by discriminate. rewrite lookup_insert_eq. reflexivity.
  - unfold middleware.GetUserEmail, middleware.get_string, middleware.setContextValues,
      gin.Get, gin.Set_. cbn [gin.Keys].
    rewrite !lookup_insert_ne by discriminate. rewrite lookup_insert_eq. reflexivity.
  - unfold middleware.GetClaims, middleware.setContextValues, gin.Get, gin.Set_.
    cbn [gin.Keys]. rewrite lookup_insert_eq. reflexivity.
  - unfold middleware.IsAuthenticated, middleware.IsAdmin. rewrite Hid, Hrole.
    repeat split.
Qed.

Section Gatekeeping.

Context {S : Type} {jwtSvc : JWTService.JWTService S}.


(** X13.  [OptionalAuth] never rejects: the rest of the chain always
    runs, on a context whose header, abort flag and response are
    untouched; the identity is attached only for a bearer token that the
    token service accepts with kind ["access"]. *)
Theorem OptionalAuth_never_aborts
    (next : gin.Context -> S -> gin.Context * S) (c : gin.Context) (s : S) :
  exists c' s',
    middleware.OptionalAuth next c s = next c' s' /\
    gin.Header c' = gin.Header c /\
    gin.IsAborted c' = gin.IsAborted c /\
    gin.Written c' = gin.Written c /\
    (c' = c \/
     exists tok claims,
       middleware.extractToken c = inr tok /\
       JWTService.ValidateToken tok s = (Ok claims, s') /\
       jwtService.TokenType claims = "access" /\
       c' = middleware.setContextValues c claims).
Proof.
  unfold middleware.OptionalAuth, middleware.validateToken.
  destruct (middleware.extractToken c) as [err|tok] eqn:Hx.
  - exists c, s. repeat split. left. reflexivity.
  - destruct (JWTService.ValidateToken tok s) as [[claims|err] s'] eqn:Hv.
    + unfold jwtService.IsAccessToken.
      destruct (String.eqb_spec (jwtService.TokenType claims) jwtService.TokenTypeAccess)
        as [Hk|Hk]; cbn [negb].
      * exists (middleware.setContextValues c claims), s'. repeat split.
        right. exists tok, claims. repeat split; assumption.
      * exists c, s'. repeat split. left. reflexivity.
    + destruct (apperrors.AsAppError err); exists c, s'; repeat split; left; reflexivity.
Qed.

(** X14.  [RequireRole] decides on the role stored in the context: no
    stored role aborts with 401 and the default message; a stored string
    that is one of [roles] lets the request through unchanged; any other
    stored value aborts with 403. *)
Theorem RequireRole_outcomes
    (roles : list string) (next : gin.Context -> S -> gin.Context * S)
    (c : gin.Context) (s : S) :
  middleware.RequireRole roles next c s =
  match gin.Get c "userRole" with
  | None =>
      ({| gin.Header := gin.Header c; gin.Keys := gin.Keys c; gin.IsAborted := true;
          gin.Written := Some (401, {| gin.body_Code := 10002;
                                       gin.body_Message := "请先登录" |}) |}, s)
  | Some (gin.VString role) =>
      if existsb (String.eqb role) roles then next c s
      else
        ({| gin.Header := gin.Header c; gin.Keys := gin.Keys c; gin.IsAborted := true;
            gin.Written := Some (403, {| gin.body_Code := 10003;
                                         gin.body_Message := "权限不足" |}) |}, s)
  | Some (gin.VClaims _) =>
      ({| gin.Header := gin.Header c; gin.Keys := gin.Keys c; gin.IsAborted := true;
          gin.Written := Some (403, {| gin.body_Code := 10003;
                                       gin.body_Message := "权限不足" |}) |}, s)
  end.
Proof.
  unfold middleware.RequireRole, middleware.ContextKeyUserRole.
  destruct (gin.Get c "userRole") as [[role|claims]|]; [|reflexivity|reflexivity].
  rewrite roleSet_lookup. cbn [negb orb].
  destruct (existsb (String.eqb role) roles); reflexivity.
Qed.

(** X15.  [RequireAuth] followed by [RequireRole]: for a bearer token
    accepted with kind ["access"], the handler behind both runs exactly
    when the token's role is one of the allowed roles, on the context
    carrying the identity; otherwise the request is aborted with 403. *)
Theorem RequireAuth_then_RequireRole
    (roles : list string) (next : gin.Context -> S -> gin.Context * S)
    (c : gin.Context) (s s' : S) (tok : string) (claims : jwtService.TokenClaims) :
  middleware.extractToken c = inr tok ->
  JWTService.ValidateToken tok s = (Ok claims, s') ->
  jwtService.TokenType claims = "access" ->
  let c' := middleware.setContextValues c claims in
  middleware.RequireAuth (middleware.RequireRole roles next) c s =
  if existsb (String.eqb (jwtService.Role claims)) roles then next c' s'
  else
    ({| gin.Header := gin.Header c'; gin.Keys := gin.Keys c'; gin.IsAborted := true;
        gin.Written := Some (403, {| gin.body_Code := 10003;
                                     gin.body_Message := "权限不足" |}) |}, s').
Proof.
  intros Hx Hv Hk c'.
  unfold middleware.RequireAuth, middleware.validateToken.
  rewrite Hx, Hv. unfold jwtService.IsAccessToken. rewrite Hk. cbn [String.eqb negb].
  change (jwtService.TokenTypeAccess =? "access")%string with true. cbn match.
  fold c'.
  assert (Hr : gin.Get c' "userRole" = Some (gin.VString (jwtService.Role claims))).
  { unfold c', middleware.setContextValues, gin.Get, gin.Set_. cbn [gin.Keys].
    rewrite !lookup_insert_ne by discriminate. rewrite lookup_insert_eq. reflexivity. }
  unfold middleware.RequireRole, middleware.ContextKeyUserRole.
  rewrite Hr, roleSet_lookup. cbn [negb orb].
  destruct (existsb (String.eqb (jwtService.Role claims)) roles); reflexivity.
Qed.

End Gatekeeping.

Lemma RequireAuth_then_RequireRole_witness :
  let request :=
    {| gin.Header := {[ "Authorization" := "Bearer " +:+ examples.access_token ]};
       gin.Keys := ∅; gin.IsAborted := false; gin.Written := None |} in
  middleware.extractToken request = inr examples.access_token /\
  JWTService.ValidateToken (JWTService := runs.tokens) examples.access_token refwire.world
  = (Ok runs.access_claims, tick refwire.world) /\
  jwtService.TokenType runs.access_claims = "access" /\
  gin.Written
    (fst (middleware.RequireAuth (jwtSvc := runs.tokens)
            (middleware.RequireAdmin runs.handler) request refwire.world))
  = Some (403, {| gin.body_Code := 10003; gin.body_Message := "权限不足" |}) /\
  gin.Written
    (fst (middleware.RequireAuth (jwtSvc := runs.tokens)
            (middleware.RequireRole ["admin"; "user"] runs.handler) request refwire.world))
  = None.
Proof.
  intros request.
  assert (Hx : middleware.extractToken request = inr examples.access_token)
    by (vm_compute; reflexivity).
  split; [exact Hx|]. split; [exact runs.access_validates|]. split; [reflexivity|].
  split.
  - unfold middleware.RequireAdmin.
    rewrite (@RequireAuth_then_RequireRole World runs.tokens ["admin"] runs.handler
               request refwire.world (tick refwire.world) examples.access_token
               runs.access_claims Hx runs.access_validates eq_refl).
    reflexivity.
  - rewrite (@RequireAuth_then_RequireRole World runs.tokens ["admin"; "user"] runs.handler
               request refwire.world (tick refwire.world) examples.access_token
               runs.access_claims Hx runs.access_validates eq_refl).
    reflexivity.
Defined.

(* ===================================================================== *)
(** ** pkg/errors: FromError                                             *)
(* ===================================================================== *)




(* ===================================================================== *)
(** ** internal/model: pagination                                        *)
(* ===================================================================== *)

Lemma wrap64_small (z : Z) : - 2 ^ 63 <= z < 2 ^ 63 -> time.wrap64 z = z.
Proof. intros H. unfold time.wrap64. rewrite Z.mod_small; lia. Qed.

(** X17.  With a default and a maximum page size of at least one,
    [NewPagination] always returns a page number of at least one and a
    page size between one and the maximum; valid inputs pass through
    unchanged, the result is a fixed point, and its [Offset] is the
    non-negative product [(Page - 1) * PageSize] as long as that fits an
    [int]. *)
Theorem NewPagination_bounds (page pageSize defaultPageSize maxPageSize : Z) :
  1 <= defaultPageSize -> 1 <= maxPageSize ->
  let p := model.NewPagination page pageSize defaultPageSize maxPageSize in
  1 <= model.Page p /\
  1 <= model.PageSize p <= maxPageSize /\
  (1 <= page -> model.Page p = page) /\
  (1 <= pageSize <= maxPageSize -> model.PageSize p = pageSize) /\
  model.NewPagination (model.Page p) (model.PageSize p) defaultPageSize maxPageSize = p /\
  (model.Page p <= 2 ^ 63 -> (model.Page p - 1) * model.PageSize p < 2 ^ 63 ->
   model.Offset p = (model.Page p - 1) * model.PageSize p /\ 0 <= model.Offset p).
Proof.
  intros Hd Hm. unfold model.NewPagination. cbv zeta.
  cbn [model.Page model.PageSize].
  set (P := if page <? 1 then 1 else page).
  set (Q0 := if pageSize <? 1 then defaultPageSize else pageSize).
  set (Q := if maxPageSize <? Q0 then maxPageSize else Q0).
  assert (HP : 1 <= P /\ (1 <= page -> P = page))
    by (unfold P; destruct (Z.ltb_spec page 1); lia).
  assert (HQ0 : 1 <= Q0 /\ (1 <= pageSize -> Q0 = pageSize))
    by (unfold Q0; destruct (Z.ltb_spec pageSize 1); lia).
  assert (HQ : 1 <= Q <= maxPageSize /\ (Q0 <= maxPageSize -> Q = Q0))
    by (unfold Q; destruct (Z.ltb_spec maxPageSize Q0); lia).
  split; [lia|]. split; [lia|]. split; [lia|]. split; [lia|]. split.
  - assert (E1 : (P <? 1) = false) by (apply Z.ltb_ge; lia).
    assert (E2 : (Q <? 1) = false) by (apply Z.ltb_ge; lia).
    assert (E3 : (maxPageSize <? Q) = false) by (apply Z.ltb_ge; lia).
    rewrite E1, E2, E3. reflexivity.
  - intros Hp Ho. unfold model.Offset. cbn [model.Page model.PageSize].
    rewrite (wrap64_small (P - 1)) by lia. rewrite wrap64_small by nia. nia.
Qed.

Lemma NewPagination_bounds_witness :
  1 <= 20 /\ 1 <= 100 /\
  model.NewPagination 0 500 20 100 = {| model.Page := 1; model.PageSize := 100 |} /\
  model.NewPagination 3 0 20 100 = {| model.Page := 3; model.PageSize := 20 |} /\
  model.Offset (model.NewPagination 3 0 20 100) = 40.
Proof.
  destruct (NewPagination_bounds 3 0 20 100 ltac:(lia) ltac:(lia))
    as (_ & _ & _ & _ & _ & Ho).
  split; [lia|]. split; [lia|]. split; [reflexivity|]. split; [reflexivity|].
  destruct Ho as [Ho _]; [vm_compute; discriminate | vm_compute; reflexivity |].
  rewrite Ho. reflexivity.
Defined.

(** X18.  For a positive page size and a non-negative total,
    [NewPageResult] reports the least number of pages that holds all
    records: [(TotalPages - 1) * PageSize < total <= TotalPages * PageSize]
    (zero pages for zero records); the other fields are copied.  A page
    size of zero makes the division panic. *)
Theorem NewPageResult_total_pages {T : Type} (l : list T) (total : Z) (p : model.Pagination) :
  0 < model.PageSize p -> 0 <= total < 2 ^ 63 ->
  exists r,
    model.NewPageResult l total p = Some r /\
    (model.pr_TotalPages r - 1) * model.PageSize p < total
      <= model.pr_TotalPages r * model.PageSize p /\
    model.pr_List r = l /\ model.pr_Total r = total /\
    model.pr_Page r = model.Page p /\ model.pr_PageSize r = model.PageSize p.
Proof.
  intros Hps Ht. unfold model.NewPageResult.
  destruct (Z.eqb_spec (model.PageSize p) 0); [lia|].
  eexists. split; [reflexivity|]. cbn [model.pr_TotalPages model.pr_List model.pr_Total
                                        model.pr_Page model.pr_PageSize].
  split; [|repeat split].
  rewrite Z.quot_div_nonneg, Z.rem_mod_nonneg by lia.
  pose proof (Z.div_mod total (model.PageSize p) ltac:(lia)) as Hdm.
  pose proof (Z.mod_pos_bound total (model.PageSize p) Hps) as Hmod.
  assert (Hq : 0 <= total / model.PageSize p <= total).
  { split; [apply Z.div_pos; lia|]. apply Z.div_le_upper_bound; nia. }
  rewrite (wrap64_small (total / model.PageSize p)) by lia.
  destruct (Z.ltb_spec 0 (total mod model.PageSize p)).
  - rewrite wrap64_small by nia. nia.
  - nia.
Qed.

Lemma NewPageResult_total_pages_witness :
  0 < 20 /\ 0 <= 41 < 2 ^ 63 /\
  model.NewPageResult ["a"; "b"] 41 {| model.Page := 3; model.PageSize := 20 |}
  = Some {| model.pr_List := ["a"; "b"]; model.pr_Total := 41; model.pr_Page := 3;
            model.pr_PageSize := 20; model.pr_TotalPages := 3 |} /\
  model.NewPageResult ["a"] 41 {| model.Page := 1; model.PageSize := 0 |} = None.
Proof.
  assert (H1 : 0 < 20) by lia.
  assert (H2 : 0 <= 41 < 2 ^ 63) by lia.
  destruct (NewPageResult_total_pages ["a"; "b"] 41
              {| model.Page := 3; model.PageSize := 20 |} H1 H2) as (r & Hr & _).
  split; [exact H1|]. split; [exact H2|]. split; [|reflexivity].
  rewrite Hr. vm_compute in Hr. injection Hr as <-. reflexivity.
Defined.

(** X19.  The list request's two getters compute the same page and page
    size as [NewPagination] whenever the default size does not exceed
    the maximum; when it does, a missing page size comes back as the
    unclamped default from [GetDefaultPageSize] but clamped to the
    maximum from [NewPagination]. *)
Theorem list_request_defaults (r : model.UserListRequest) (defaultSize maxSize : Z) :
  (defaultSize <= maxSize ->
   model.NewPagination (model.list_Page r) (model.list_PageSize r) defaultSize maxSize
   = {| model.Page := model.GetDefaultPage r;
        model.PageSize := model.GetDefaultPageSize r defaultSize maxSize |}) /\
  (maxSize < defaultSize -> model.list_PageSize r < 1 ->
   model.GetDefaultPageSize r defaultSize maxSize = defaultSize /\
   model.PageSize
     (model.NewPagination (model.list_Page r) (model.list_PageSize r) defaultSize maxSize)
   = maxSize).
Proof.
  unfold model.NewPagination, model.GetDefaultPage, model.GetDefaultPageSize. split.
  - intros H. destruct (Z.ltb_spec (model.list_Page r) 1), (Z.ltb_spec (model.list_PageSize r) 1);
      repeat match goal with
             | |- context [ ?a <? ?b ] => destruct (Z.ltb_spec a b)
             end; try reflexivity; lia.
  - intros H Hs. destruct (Z.ltb_spec (model.list_PageSize r) 1); [|lia].
    cbn [model.PageSize]. destruct (Z.ltb_spec maxSize defaultSize); [|lia].
    split; reflexivity.
Qed.

(* ===================================================================== *)
(** ** More on the repository                                            *)
(* ===================================================================== *)

Section Store.

Variable env : Env.

(** X20.  The lookups ([GetByID], [GetByUsername], [GetByEmail] and
    [GetByUsernameOrEmail] are [lookup] under their condition) never
    change the world and never return a soft-deleted row: a result is a
    live row of the table satisfying the condition; a failure is
    [ErrUserNotFound] when the database answers and no live row matches,
    and the driver's error wrapped in [ErrDatabaseError] otherwise. *)
Theorem lookup_answers (cond : model.User -> bool) (w : World) :
  let (r, w') := userRepository.lookup cond w in
  w' = w /\
  match r with
  | Ok u =>
      down w = None /\ In u (rows w) /\ model.DeletedAt u = None /\ cond u = true
  | Err e =>
      (down w = None /\ e = apperrors.to_error apperrors.ErrUserNotFound /\
       forall x, In x (rows w) -> model.DeletedAt x = None -> cond x = false) \/
      (exists text, down w = Some text /\
                    e = apperrors.to_error
                          (apperrors.WithError apperrors.ErrDatabaseError (opaqueError text)))
  end.
Proof.
  unfold userRepository.lookup, gorm.First.
  destruct (down w) as [text|] eqn:Hd.
  - cbn. split; [reflexivity|]. right. exists text. split; reflexivity.
  - destruct (find (fun u => gorm.live u && cond u) (rows w)) as [u|] eqn:Hf.
    + split; [reflexivity|]. apply find_some in Hf as [Hin Hc].
      apply andb_prop in Hc as [Hl Hc]. unfold gorm.live in Hl.
      destruct (model.DeletedAt u) eqn:Hdel; [discriminate|]. auto.
    + cbn. split; [reflexivity|]. left. split; [reflexivity|]. split; [reflexivity|].
      intros x Hx Hdel. pose proof (find_none _ _ Hf x Hx) as Hn. cbn in Hn.
      unfold gorm.live in Hn. rewrite Hdel in Hn. exact Hn.
Qed.

Lemma find_inserted (u : model.User) (l : list model.User) :
  gorm.live u = true ->
  sql_eq env (model.ID u) (model.ID u) = true ->
  existsb (fun x => sql_eq env (model.ID x) (model.ID u)) l = false ->
  find (fun x => gorm.live x && sql_eq env (model.ID x) (model.ID u)) (gorm.insert_by_key u l)
  = Some u.
Proof.
  intros Hl Hr. induction l as [|x l IH]; intros He.
  - cbn. rewrite Hl, Hr. reflexivity.
  - cbn [existsb] in He. apply orb_false_elim in He as [Hx He].
    cbn [gorm.insert_by_key]. destruct (String.leb (model.ID u) (model.ID x)).
    + cbn [find]. rewrite Hl, Hr. reflexivity.
    + cbn [find]. rewrite Hx, andb_false_r. exact (IH He).
Qed.

Lemma In_insert_by_key (u x : model.User) (l : list model.User) :
  In x (gorm.insert_by_key u l) <-> x = u \/ In x l.
Proof.
  induction l as [|y l IH]; cbn [gorm.insert_by_key].
  - cbn. intuition.
  - destruct (String.leb (model.ID u) (model.ID y)); cbn; [intuition|].
    rewrite IH. intuition.
Qed.

Lemma length_insert_by_key (u : model.User) (l : list model.User) :
  length (gorm.insert_by_key u l) = Datatypes.S (length l).
Proof.
  induction l as [|y l IH]; [reflexivity|]. cbn [gorm.insert_by_key].
  destruct (String.leb (model.ID u) (model.ID y)); cbn; [reflexivity|].
  rewrite IH. reflexivity.
Qed.

(** X21.  A user that [Create] stored is found by [GetByID] under the id
    it was given; the rows that were there before are all still there,
    and there is exactly one more.  An empty id is replaced by a freshly
    drawn one, a given id is kept. *)
Theorem Create_then_GetByID (u u' : model.User) (w w' : World) :
  userRepository.Create env u w = (Ok u', w') ->
  model.DeletedAt u = None ->
  sql_eq env (model.ID u') (model.ID u') = true ->
  userRepository.GetByID env (model.ID u') w' = (Ok u', w') /\
  (forall x, In x (rows w) -> In x (rows w')) /\
  length (rows w') = Datatypes.S (length (rows w)) /\
  model.ID u' = (if String.eqb (model.ID u) "" then random env (ticks w) else model.ID u) /\
  model.Username u' = model.Username u /\ model.Email u' = model.Email u /\
  model.Password u' = model.Password u.
Proof.
  unfold userRepository.Create, gorm.Create.
  set (u0 := gorm.prepare (random env (ticks w)) (wall env (ticks w)) u).
  cbn [down tick rows].
  destruct (down w) as [text|] eqn:Hd.
  { destruct (userRepository.isDuplicateKeyError (opaqueError text));
      [destruct (strings.Contains _ "username"); [|destruct (strings.Contains _ "email")]|];
      discriminate. }
  destruct (existsb (fun x => sql_eq env (model.ID x) (model.ID u0)) (rows w)) eqn:E1.
  { destruct (userRepository.isDuplicateKeyError _);
      [destruct (strings.Contains _ "username"); [|destruct (strings.Contains _ "email")]|];
      discriminate. }
  destruct (existsb (fun x => sql_eq env (model.Username x) (model.Username u0)) (rows w)).
  { destruct (userRepository.isDuplicateKeyError _);
      [destruct (strings.Contains _ "username"); [|destruct (strings.Contains _ "email")]|];
      discriminate. }
  destruct (existsb (fun x => sql_eq env (model.Email x) (model.Email u0)) (rows w)).
  { destruct (userRepository.isDuplicateKeyError _);
      [destruct (strings.Contains _ "username"); [|destruct (strings.Contains _ "email")]|];
      discriminate. }
  intros [= <- <-] Hdel Hrefl. cbn [rows set_rows].
  split; [|split; [|split; [|repeat split]]].
  - unfold userRepository.GetByID, userRepository.lookup, gorm.First.
    cbn [down set_rows tick rows]. rewrite Hd.
    rewrite find_inserted; [reflexivity| |exact Hrefl|exact E1].
    unfold gorm.live, u0. cbn [gorm.prepare model.DeletedAt]. rewrite Hdel. reflexivity.
  - intros x Hx. apply In_insert_by_key. right. exact Hx.
  - apply length_insert_by_key.
Qed.

Lemma no_live_hit_after_delete (now : time.Time) (cond : model.User -> bool)
    (l : list model.User) :
  (forall u, cond (gorm.mark_deleted now u) = cond u) ->
  forall x,
    In x (map (fun u => if gorm.live u && cond u then gorm.mark_deleted now u else u) l) ->
    gorm.live x && cond x = false.
Proof.
  intros Hc x Hx. apply in_map_iff in Hx as (u & <- & _).
  destruct (gorm.live u && cond u) eqn:E; [reflexivity|exact E].
Qed.

(** X22.  After [Delete] succeeded for an id, the account is gone for
    the lookups ([GetByID] answers [ErrUserNotFound], and so does a
    second [Delete]) but its row is still in the table, marked deleted
    and otherwise unchanged: the table has as many rows as before. *)
Theorem Delete_is_soft (id : string) (w w' : World) :
  userRepository.Delete env id w = (Ok tt, w') ->
  userRepository.GetByID env id w' = (Err apperrors.ErrUserNotFound, w') /\
  fst (userRepository.Delete env id w') = Err apperrors.ErrUserNotFound /\
  length (rows w') = length (rows w) /\
  (forall x, In x (rows w') ->
     exists u, In u (rows w) /\
       (x = u \/ (model.DeletedAt u = None /\
                  x = gorm.mark_deleted (wall env (ticks w)) u))) /\
  exists u, In u (rows w) /\ model.DeletedAt u = None /\
            sql_eq env (model.ID u) id = true /\
            In (gorm.mark_deleted (wall env (ticks w)) u) (rows w').
Proof.
  unfold userRepository.Delete at 1, gorm.Delete. cbn [down tick rows].
  destruct (down w) as [text|] eqn:Hd; [discriminate|].
  pose (cond := fun u => sql_eq env (model.ID u) id).
  set (now := wall env (ticks w)).
  set (hit := fun u => gorm.live u && sql_eq env (model.ID u) id).
  destruct (Z.eqb_spec (Z.of_nat (length (List.filter hit (rows w)))) 0) as [|Hn];
    [discriminate|].
  intros [= <-]. cbn [rows set_rows tick].
  assert (Hnone : forall x,
            In x (map (fun u => if hit u then gorm.mark_deleted now u else u) (rows w)) ->
            hit x = false).
  { intros x Hx. exact (no_live_hit_after_delete now cond (rows w) (fun _ => eq_refl) x Hx). }
  assert (Hfilter : List.filter hit
                      (map (fun u => if hit u then gorm.mark_deleted now u else u) (rows w))
                    = []).
  { remember (map _ (rows w)) as l' eqn:El. clear El.
    induction l' as [|x l' IH]; [reflexivity|]. cbn [List.filter].
    rewrite (Hnone x (or_introl eq_refl)). apply IH.
    intros y Hy. apply Hnone. right. exact Hy. }
  split; [|split; [|split; [|split]]].
  - unfold userRepository.GetByID, userRepository.lookup, gorm.First.
    cbn [down set_rows tick rows]. rewrite Hd.
    destruct (find _ _) as [x|] eqn:Hf; [|reflexivity].
    apply find_some in Hf as [Hin Hx]. change (hit x = true) in Hx.
    rewrite (Hnone x Hin) in Hx. discriminate.
  - unfold userRepository.Delete, gorm.Delete. cbn [down set_rows tick rows].
    rewrite Hd. unfold hit in Hfilter. cbv beta in Hfilter. rewrite Hfilter. reflexivity.
  - apply length_map.
  - intros x Hx. apply in_map_iff in Hx as (u & Hu & Hin). exists u. split; [exact Hin|].
    change (gorm.live u && sql_eq env (model.ID u) id) with (hit u) in Hu.
    destruct (hit u) eqn:Hh; [|left; symmetry; exact Hu].
    right. split; [|symmetry; exact Hu].
    unfold hit, gorm.live in Hh. destruct (model.DeletedAt u); [discriminate|reflexivity].
  - destruct (List.filter hit (rows w)) as [|u rest] eqn:Hfl; [contradiction Hn; reflexivity|].
    assert (Hu : In u (List.filter hit (rows w))) by (rewrite Hfl; left; reflexivity).
    apply filter_In in Hu as [Hin Hh]. exists u. split; [exact Hin|].
    pose proof Hh as Hh'. unfold hit in Hh'. apply andb_prop in Hh' as [Hl Hc].
    unfold gorm.live in Hl. destruct (model.DeletedAt u) eqn:Hdel; [discriminate|].
    split; [reflexivity|]. split; [exact Hc|].
    apply in_map_iff. exists u. split; [|exact Hin].
    change (gorm.live u && sql_eq env (model.ID u) id) with (hit u).
    rewrite Hh. reflexivity.
Qed.

End Store.

Module store_cases.

(** A new account, as the service hands it to [Create]. *)
Definition carol : model.User :=
  {| model.ID := ""; model.CreatedAt := time.zero; model.UpdatedAt := time.zero;
     model.Username := "carol"; model.Email := "carol@x.com";
     model.Password := "$2a$salt$carolpw1"; model.Nickname := "carol";
     model.Avatar := ""; model.Phone := ""; model.Bio := "";
     model.Gender := 0; model.Birthday := None;
     model.Status := model.UserStatusActive; model.Role := model.RoleUser;
     model.LastLoginAt := None; model.LastLoginIP := "";
     model.DeletedAt := None |}.

Definition with_carol : result model.User * World :=
  userRepository.Create refwire.env carol refwire.world.

Definition without_alice : World :=
  snd (userRepository.Delete refwire.env "id-alice" refwire.world).

End store_cases.

Lemma Create_then_GetByID_witness :
  exists u',
    store_cases.with_carol = (Ok u', snd store_cases.with_carol) /\
    userRepository.GetByID refwire.env (model.ID u') (snd store_cases.with_carol)
    = (Ok u', snd store_cases.with_carol) /\
    length (rows (snd store_cases.with_carol)) = 3%nat.
Proof.
  exists (gorm.prepare (random refwire.env 0) (wall refwire.env 0) store_cases.carol).
  assert (H : userRepository.Create refwire.env store_cases.carol refwire.world
              = (Ok (gorm.prepare (random refwire.env 0) (wall refwire.env 0)
                       store_cases.carol),
                 snd store_cases.with_carol)) by (vm_compute; reflexivity).
  split; [exact H|].
  destruct (Create_then_GetByID refwire.env store_cases.carol _ refwire.world _ H
              eq_refl eq_refl) as (Hget & _ & Hlen & _).
  split; [exact Hget|exact Hlen].
Defined.

Lemma Delete_is_soft_witness :
  userRepository.Delete refwire.env "id-alice" refwire.world
  = (Ok tt, store_cases.without_alice) /\
  userRepository.GetByID refwire.env "id-alice" store_cases.without_alice
  = (Err apperrors.ErrUserNotFound, store_cases.without_alice) /\
  length (rows store_cases.without_alice) = 2%nat.
Proof.
  assert (H : userRepository.Delete refwire.env "id-alice" refwire.world
              = (Ok tt, store_cases.without_alice)) by (vm_compute; reflexivity).
  split; [exact H|].
  destruct (Delete_is_soft refwire.env "id-alice" refwire.world _ H)
    as (Hget & _ & Hlen & _).
  split; [exact Hget|exact Hlen].
Defined.

(* ===================================================================== *)
(** ** More on the account service                                       *)
(* ===================================================================== *)

Lemma lookup_Ok_inv (cond : model.User -> bool) (w w' : World) (u : model.User) :
  userRepository.lookup cond w = (Ok u, w') ->
  w' = w /\ down w = None /\
  find (fun x => gorm.live x && cond x) (rows w) = Some u.
Proof.
  unfold userRepository.lookup, gorm.First.
  destruct (down w) as [text|]; [cbn; discriminate|].
  destruct (find _ (rows w)) as [x|]; [|cbn; discriminate].
  intros [= <- <-]. auto.
Qed.

Lemma find_map_stable {A : Type} (f : A -> bool) (g : A -> A) (l : list A) :
  (forall x, f (g x) = f x) ->
  find f (map (fun x => if f x then g x else x) l) = option_map g (find f l).
Proof.
  intros Hfg. induction l as [|x l IH]; [reflexivity|].
  cbn [map find]. destruct (f x) eqn:E.
  - rewrite Hfg, E. reflexivity.
  - rewrite E. exact IH.
Qed.

Lemma find_some_count {A : Type} (f : A -> bool) (l : list A) (x : A) :
  find f l = Some x -> (Z.of_nat (length (List.filter f l)) =? 0) = false.
Proof.
  intros H. apply find_some in H as [Hin Hf].
  assert (Hx : In x (List.filter f l)) by (apply filter_In; auto).
  destruct (List.filter f l); [contradiction|]. reflexivity.
Qed.

Section AccountService.

Variable env : Env.
Variable cfg : config.Config.

(** X23.  A password change with the right old password takes effect:
    the call succeeds, the account's row (and no other) now carries the
    hash bcrypt produced for the new password and a fresh [updated_at],
    and [GetByID] returns the account with that hash and with its
    identity, status and role as before. *)
Theorem password_change_takes_effect
    (w : World) (id : string) (req : model.ChangePasswordRequest) (u : model.User)
    (hashed : string) :
  userRepository.GetByID env id w = (Ok u, w) ->
  bcrypt_compare env (model.Password u) (model.OldPassword req) = None ->
  bcrypt_generate env (random env (ticks w)) (model.NewPassword req) (config.BcryptCost cfg)
  = Ok hashed ->
  let now := wall env (Datatypes.S (ticks w)) in
  let changed x := gorm.touch now (gorm.set_column now x ("password", gorm.FString hashed)) in
  let w' :=
    {| rows := map (fun x => if gorm.live x && sql_eq env (model.ID x) id
                             then changed x else x) (rows w);
       down := down w;
       ticks := Datatypes.S (Datatypes.S (ticks w)) |} in
  app.UpdatePassword env cfg id req w = (Ok tt, w') /\
  userRepository.GetByID env id w' = (Ok (changed u), w') /\
  model.Password (changed u) = hashed /\
  model.UpdatedAt (changed u) = now /\
  (model.ID (changed u), model.Username (changed u), model.Email (changed u),
   model.Status (changed u), model.Role (changed u))
  = (model.ID u, model.Username u, model.Email u, model.Status u, model.Role u) /\
  (forall x, In x (rows w) -> sql_eq env (model.ID x) id = false -> In x (rows w')).
Proof.
  intros Hg Hold Hgen now changed w'.
  pose proof Hg as Hg'. unfold userRepository.GetByID in Hg'.
  apply lookup_Ok_inv in Hg' as (_ & Hd & Hf).
  split; [|split; [|split; [|split; [|split]]]].
  - unfold app.UpdatePassword, userService.UpdatePassword, bind, bindE, fail, ret.
    cbn [UserRepository.GetByID UserRepository.UpdatePassword app.userRepo userRepository.repo].
    rewrite Hg. unfold userService.checkPassword.
    cbn [bcrypt.CompareHashAndPassword app.crypt]. rewrite Hold. cbn [negb].
    unfold userService.hashPassword, bind, bindE, ret.
    cbn [bcrypt.GenerateFromPassword app.crypt]. rewrite Hgen. cbv beta iota.
    unfold userRepository.UpdatePassword, userRepository.UpdateFields, gorm.Updates.
    cbn [down tick rows ticks]. rewrite Hd.
    rewrite (find_some_count _ _ _ Hf). reflexivity.
  - unfold userRepository.GetByID, userRepository.lookup, gorm.First.
    cbn [down rows w']. rewrite Hd.
    rewrite (find_map_stable (fun x => gorm.live x && sql_eq env (model.ID x) id) changed)
      by reflexivity.
    rewrite Hf. reflexivity.
  - cbn. reflexivity.
  - reflexivity.
  - reflexivity.
  - intros x Hx Hne. cbn [rows w']. apply in_map_iff. exists x. split; [|exact Hx].
    rewrite Hne, andb_false_r. reflexivity.
Qed.

(** X24.  While the database is unreachable, [Login], [Register],
    [UpdatePassword], [Delete] and [CreateAdmin] each report it as
    [ErrDatabaseError] (code 50001, status 500) carrying the driver's
    error as its cause, and change nothing; in particular a login does
    not turn the outage into [ErrInvalidCredential]. *)
Theorem storage_failure_is_reported (w : World) (text : string) :
  down w = Some text ->
  let E := apperrors.WithError apperrors.ErrDatabaseError (opaqueError text) in
  (forall req ip, app.Login env cfg req ip w = (Err E, w)) /\
  (forall req, app.Register env cfg req w = (Err E, w)) /\
  (forall id req, app.UpdatePassword env cfg id req w = (Err E, w)) /\
  (forall id, app.Delete env id w = (Err E, w)) /\
  (forall username email password,
     app.CreateAdmin env cfg username email password w = (Err E, w)) /\
  apperrors.Code E = 50001 /\ apperrors.HTTPStatus E = 500 /\
  apperrors.Err E = Some (opaqueError text) /\
  apperrors.to_error E <> apperrors.to_error apperrors.ErrInvalidCredential.
Proof.
  intros Hd E.
  assert (Hl : forall cond, userRepository.lookup cond w = (Err E, w)).
  { intros cond. unfold userRepository.lookup, gorm.First. rewrite Hd. reflexivity. }
  assert (Hc : forall cond, gorm.Count cond w = Err (opaqueError text)).
  { intros cond. unfold gorm.Count. rewrite Hd. reflexivity. }
  split; [|split; [|split; [|split; [|split]]]].
  - intros req ip. unfold app.Login, userService.Login, bindE.
    cbn [UserRepository.GetByUsernameOrEmail app.userRepo userRepository.repo].
    unfold userRepository.GetByUsernameOrEmail. rewrite Hl. reflexivity.
  - intros req. unfold app.Register, userService.Register, bind, bindE.
    cbn [UserRepository.ExistsByUsername app.userRepo userRepository.repo].
    unfold userRepository.ExistsByUsername, userRepository.exists_where.
    rewrite Hc. reflexivity.
  - intros id req. unfold app.UpdatePassword, userService.UpdatePassword, bind, bindE.
    cbn [UserRepository.GetByID app.userRepo userRepository.repo].
    unfold userRepository.GetByID. rewrite Hl. reflexivity.
  - intros id. unfold app.Delete, userService.Delete, bind, bindE.
    cbn [UserRepository.GetByID app.userRepo userRepository.repo].
    unfold userRepository.GetByID. rewrite Hl. reflexivity.
  - intros username email password.
    unfold app.CreateAdmin, userService.CreateAdmin, bind, bindE.
    cbn [UserRepositoryAdmin.Count app.userRepoAdmin].
    unfold userRepository.Count. rewrite Hc. reflexivity.
  - repeat split. discriminate.
Qed.

Lemma in_use_inserted (column : model.User -> string) (value : string)
    (u : model.User) (w : World) (l : list model.User) :
  gorm.live u = true ->
  sql_eq env (column u) value = true ->
  rows w = gorm.insert_by_key u l ->
  in_use env column value w = true.
Proof.
  intros Hl He Hr. unfold in_use. rewrite Hr. apply existsb_exists. exists u.
  split; [apply In_insert_by_key; left; reflexivity|]. rewrite Hl, He. reflexivity.
Qed.

(** X25.  What a successful [Register] has done: the username and the
    email were free among the live accounts; the stored password is the
    bcrypt output for the submitted one; the account is active, has the
    role ["user"], a freshly drawn id, and the username as nickname when
    none was given; it has been added to the table next to the existing
    rows.  From then on a registration under the same username is
    refused with [ErrUsernameExists] and changes nothing. *)
Theorem registration_takes_effect
    (w w' : World) (req : model.RegisterRequest) (u : model.User) :
  app.Register env cfg req w = (Ok u, w') ->
  in_use env model.Username (model.reg_Username req) w = false /\
  in_use env model.Email (model.reg_Email req) w = false /\
  bcrypt_generate env (random env (ticks w)) (model.reg_Password req) (config.BcryptCost cfg)
  = Ok (model.Password u) /\
  model.Username u = model.reg_Username req /\
  model.Email u = model.reg_Email req /\
  model.Nickname u = (if String.eqb (model.reg_Nickname req) "" then model.reg_Username req
                      else model.reg_Nickname req) /\
  model.Status u = model.UserStatusActive /\
  model.Role u = model.RoleUser /\
  model.ID u = random env (Datatypes.S (ticks w)) /\
  model.DeletedAt u = None /\
  In u (rows w') /\
  (forall x, In x (rows w) -> In x (rows w')) /\
  (sql_eq env (model.Username u) (model.Username u) = true ->
   forall req', model.reg_Username req' = model.reg_Username req ->
     app.Register env cfg req' w' = (Err apperrors.ErrUsernameExists, w')).
Proof.
  unfold app.Register at 1, userService.Register, bind, bindE, fail, ret.
  cbn [UserRepository.ExistsByUsername UserRepository.ExistsByEmail UserRepository.Create
       app.userRepo userRepository.repo].
  destruct (down w) as [text|] eqn:Hd.
  { unfold userRepository.ExistsByUsername, userRepository.exists_where, gorm.Count.
    rewrite Hd. discriminate. }
  rewrite (ExistsByUsername_up env w _ Hd).
  destruct (in_use env model.Username (model.reg_Username req) w) eqn:Hu; [discriminate|].
  rewrite (ExistsByEmail_up env w _ Hd).
  destruct (in_use env model.Email (model.reg_Email req) w) eqn:He; [discriminate|].
  unfold userService.hashPassword, bind, bindE, ret.
  cbn [bcrypt.GenerateFromPassword app.crypt].
  destruct (bcrypt_generate env (random env (ticks w)) (model.reg_Password req)
              (config.BcryptCost cfg)) as [hashed|e] eqn:Hgen; [|discriminate].
  cbv beta iota.
  unfold userRepository.Create, gorm.Create. cbn [down tick rows ticks]. rewrite Hd.
  match goal with
  | |- context [gorm.prepare ?a ?b ?c] => set (u0 := gorm.prepare a b c)
  end.
  destruct (existsb (fun x => sql_eq env (model.ID x) (model.ID u0)) (rows w)).
  { destruct (userRepository.isDuplicateKeyError _);
      [destruct (strings.Contains _ "username"); [|destruct (strings.Contains _ "email")]|];
      discriminate. }
  destruct (existsb (fun x => sql_eq env (model.Username x) (model.Username u0)) (rows w)).
  { destruct (userRepository.isDuplicateKeyError _);
      [destruct (strings.Contains _ "username"); [|destruct (strings.Contains _ "email")]|];
      discriminate. }
  destruct (existsb (fun x => sql_eq env (model.Email x) (model.Email u0)) (rows w)).
  { destruct (userRepository.isDuplicateKeyError _);
      [destruct (strings.Contains _ "username"); [|destruct (strings.Contains _ "email")]|];
      discriminate. }
  intros [= <- <-].
  split; [reflexivity|]. split; [reflexivity|]. split; [reflexivity|].
  split; [reflexivity|]. split; [reflexivity|]. split; [reflexivity|].
  split; [reflexivity|]. split; [reflexivity|]. split; [reflexivity|].
  split; [reflexivity|].
  split; [cbn [rows set_rows]; apply In_insert_by_key; left; reflexivity|].
  split; [intros x Hx; cbn [rows set_rows]; apply In_insert_by_key; right; exact Hx|].
  intros Hrefl req' Hsame.
  unfold app.Register, userService.Register, bind, bindE, fail.
  cbn [UserRepository.ExistsByUsername app.userRepo userRepository.repo].
  rewrite ExistsByUsername_up by exact Hd.
  rewrite (in_use_inserted model.Username (model.reg_Username req') u0 _ (rows w));
    [reflexivity|reflexivity| |reflexivity].
  rewrite Hsame. exact Hrefl.
Qed.

(** X26.  The username of a soft-deleted account stays reserved.  The
    unique index of the table covers deleted rows, the existence check
    does not: when only a deleted row holds the username, the check
    reports the name as free, the password is hashed, and the insert is
    then refused by the index.  With a driver whose message for that
    index is recognised as a duplicate on ["username"], [Register]
    returns [ErrUsernameExists]; no row is added. *)
Theorem deleted_username_stays_reserved
    (w : World) (req : model.RegisterRequest) (hashed : string) :
  down w = None ->
  in_use env model.Username (model.reg_Username req) w = false ->
  in_use env model.Email (model.reg_Email req) w = false ->
  existsb (fun x => sql_eq env (model.Username x) (model.reg_Username req)) (rows w) = true ->
  existsb (fun x => sql_eq env (model.ID x) (random env (Datatypes.S (ticks w)))) (rows w)
  = false ->
  bcrypt_generate env (random env (ticks w)) (model.reg_Password req) (config.BcryptCost cfg)
  = Ok hashed ->
  userRepository.isDuplicateKeyError (opaqueError (unique_violation env "idx_users_username"))
  = true ->
  strings.Contains (unique_violation env "idx_users_username") "username" = true ->
  userRepository.ExistsByUsername env (model.reg_Username req) w = (Ok false, w) /\
  app.Register env cfg req w = (Err apperrors.ErrUsernameExists, tick (tick w)) /\
  rows (tick (tick w)) = rows w.
Proof.
  intros Hd Hu He Hdel Hid Hgen Hdup Hname.
  split; [rewrite (ExistsByUsername_up env w _ Hd), Hu; reflexivity|].
  split; [|reflexivity].
  unfold app.Register, userService.Register, bind, bindE, fail, ret.
  cbn [UserRepository.ExistsByUsername UserRepository.ExistsByEmail UserRepository.Create
       app.userRepo userRepository.repo].
  rewrite (ExistsByUsername_up env w _ Hd), Hu.
  rewrite (ExistsByEmail_up env w _ Hd), He.
  unfold userService.hashPassword, bind, bindE, ret.
  cbn [bcrypt.GenerateFromPassword app.crypt]. rewrite Hgen. cbv beta iota.
  unfold userRepository.Create, gorm.Create. cbn [down tick rows ticks]. rewrite Hd.
  cbn [gorm.prepare model.ID model.Username String.eqb].
  rewrite Hid, Hdel. cbn [Error_]. rewrite Hdup, Hname. reflexivity.
Qed.

Lemma no_match_after_delete (id : string) (cond : model.User -> bool) (l : list model.User)
    (now : time.Time) :
  (forall x, In x l -> model.DeletedAt x = None -> cond x = true ->
             sql_eq env (model.ID x) id = true) ->
  find (fun x => gorm.live x && cond x)
       (map (fun x => if gorm.live x && sql_eq env (model.ID x) id
                      then gorm.mark_deleted now x else x) l)
  = None.
Proof.
  intros H. apply find_none_live. intros x Hx Hlive.
  apply in_map_iff in Hx as (y & Hy & Hin).
  destruct (gorm.live y && sql_eq env (model.ID y) id) eqn:Hh.
  - subst x. discriminate.
  - subst x. destruct (cond y) eqn:Hc; [|reflexivity].
    rewrite (H y Hin Hlive Hc) in Hh. unfold gorm.live in Hh. rewrite Hlive in Hh.
    discriminate.
Qed.

(** X27.  The service's [Delete] checks that the account exists and
    then soft-deletes it.  Afterwards the account cannot log in: a
    login under an identifier that named only this account is answered
    [ErrInvalidCredential], the same as for an account that never
    existed, and [GetByID] no longer finds it.  Deleting the same id
    again is answered [ErrUserNotFound] and changes nothing. *)
Theorem deleted_account_cannot_log_in (w w' : World) (id ident : string) :
  app.Delete env id w = (Ok tt, w') ->
  (forall x, In x (rows w) -> model.DeletedAt x = None ->
             sql_eq env (model.Username x) ident || sql_eq env (model.Email x) ident = true ->
             sql_eq env (model.ID x) id = true) ->
  (forall password ip,
     app.Login env cfg {| model.login_Username := ident; model.login_Password := password |}
       ip w'
     = (Err apperrors.ErrInvalidCredential, w')) /\
  userRepository.GetByID env id w' = (Err apperrors.ErrUserNotFound, w') /\
  app.Delete env id w' = (Err apperrors.ErrUserNotFound, w') /\
  length (rows w') = length (rows w).
Proof.
  intros Hdel Hident.
  unfold app.Delete, userService.Delete, bind, bindE, ret in Hdel.
  cbn [UserRepository.GetByID UserRepositoryAdmin.Delete app.userRepo app.userRepoAdmin
       userRepository.repo] in Hdel.
  destruct (userRepository.GetByID env id w) as [[u|e] w1] eqn:Hg; [|discriminate].
  unfold userRepository.GetByID in Hg. apply lookup_Ok_inv in Hg as (-> & Hd & Hf).
  unfold userRepository.Delete, gorm.Delete in Hdel.
  cbn [down tick rows ticks] in Hdel. rewrite Hd in Hdel.
  rewrite (find_some_count _ _ _ Hf) in Hdel.
  injection Hdel as <-.
  assert (Hget : userRepository.GetByID env id
                   (set_rows (tick w)
                      (map (fun x => if gorm.live x && sql_eq env (model.ID x) id
                                     then gorm.mark_deleted (wall env (ticks w)) x else x)
                         (rows w)))
                 = (Err apperrors.ErrUserNotFound,
                    set_rows (tick w)
                      (map (fun x => if gorm.live x && sql_eq env (model.ID x) id
                                     then gorm.mark_deleted (wall env (ticks w)) x else x)
                         (rows w)))).
  { unfold userRepository.GetByID, userRepository.lookup, gorm.First.
    cbn [down set_rows tick rows]. rewrite Hd.
    rewrite (no_match_after_delete id (fun x => sql_eq env (model.ID x) id));
      [reflexivity|]. intros x _ _ Hx. exact Hx. }
  split; [|split; [exact Hget|split]].
  - intros password ip. unfold app.Login, userService.Login, bindE.
    cbn [model.login_Username UserRepository.GetByUsernameOrEmail app.userRepo
         userRepository.repo].
    unfold userRepository.GetByUsernameOrEmail, userRepository.lookup, gorm.First.
    cbn [down set_rows tick rows]. rewrite Hd.
    rewrite (no_match_after_delete id
               (fun x => sql_eq env (model.Username x) ident
                         || sql_eq env (model.Email x) ident));
      [reflexivity|exact Hident].
  - unfold app.Delete, userService.Delete, bind, bindE.
    cbn [UserRepository.GetByID app.userRepo userRepository.repo].
    rewrite Hget. reflexivity.
  - cbn [rows set_rows]. apply length_map.
Qed.

(** X28.  [CreateAdmin] creates the administrator only into a table
    without live accounts.  With any live account it returns no user and
    no error, and changes nothing.  When it does create one, the account
    is an active administrator named ["Administrator"], its password is
    the bcrypt output for the given one, and its last login is the
    instant of creation. *)
Theorem CreateAdmin_only_without_accounts (w : World) (username email password : string) :
  down w = None ->
  (existsb gorm.live (rows w) = true ->
   app.CreateAdmin env cfg username email password w = (Ok None, w)) /\
  (forall r w', existsb gorm.live (rows w) = false ->
     app.CreateAdmin env cfg username email password w = (r, w') ->
     r <> Ok None /\
     forall admin, r = Ok (Some admin) ->
       model.Role admin = model.RoleAdmin /\ model.IsAdmin admin = true /\
       model.Status admin = model.UserStatusActive /\
       model.Nickname admin = "Administrator" /\
       model.Username admin = username /\ model.Email admin = email /\
       bcrypt_generate env (random env (ticks w)) password (config.BcryptCost cfg)
       = Ok (model.Password admin) /\
       model.LastLoginAt admin = Some (wall env (Datatypes.S (ticks w))) /\
       In admin (rows w')).
Proof.
  intros Hd.
  assert (Hcount : userRepository.Count w
                   = (Ok (Z.of_nat (length (List.filter
                                              (fun u => gorm.live u && true) (rows w)))), w)).
  { unfold userRepository.Count, gorm.Count. rewrite Hd. reflexivity. }
  assert (Hpos : (0 <? Z.of_nat (length (List.filter
                                           (fun u => gorm.live u && true) (rows w))))
                 = existsb gorm.live (rows w)).
  { rewrite count_positive. generalize (rows w). intros l.
    induction l as [|x l IH]; [reflexivity|].
    cbn [existsb]. rewrite IH, andb_true_r. reflexivity. }
  split.
  - intros Hlive. unfold app.CreateAdmin, userService.CreateAdmin, bind, bindE, ret.
    cbn [UserRepositoryAdmin.Count app.userRepoAdmin].
    rewrite Hcount. cbv beta iota. unfold id. rewrite Hpos, Hlive. reflexivity.
  - intros r w' Hnone.
    unfold app.CreateAdmin, userService.CreateAdmin, bind, bindE, ret.
    cbn [UserRepositoryAdmin.Count UserRepository.Create clock.Now
         app.userRepoAdmin app.userRepo app.clk userRepository.repo].
    rewrite Hcount. cbv beta iota. unfold id. rewrite Hpos, Hnone.
    unfold userService.hashPassword, bind, bindE, ret.
    cbn [bcrypt.GenerateFromPassword app.crypt].
    destruct (bcrypt_generate env (random env (ticks w)) password (config.BcryptCost cfg))
      as [hashed|e] eqn:Hgen.
    2:{ intros [= <- <-]. split; [discriminate|]. intros admin [=]. }
    cbv beta iota. unfold id.
    unfold userRepository.Create, gorm.Create. cbn [down tick rows ticks]. rewrite Hd.
    match goal with
    | |- context [gorm.prepare ?a ?b ?c] => set (u0 := gorm.prepare a b c)
    end.
    destruct (existsb (fun x => sql_eq env (model.ID x) (model.ID u0)) (rows w)).
    { destruct (userRepository.isDuplicateKeyError _);
        [destruct (strings.Contains _ "username"); [|destruct (strings.Contains _ "email")]|];
        intros [= <- <-]; (split; [discriminate|]); intros admin [=]. }
    destruct (existsb (fun x => sql_eq env (model.Username x) (model.Username u0)) (rows w)).
    { destruct (userRepository.isDuplicateKeyError _);
        [destruct (strings.Contains _ "username"); [|destruct (strings.Contains _ "email")]|];
        intros [= <- <-]; (split; [discriminate|]); intros admin [=]. }
    destruct (existsb (fun x => sql_eq env (model.Email x) (model.Email u0)) (rows w)).
    { destruct (userRepository.isDuplicateKeyError _);
        [destruct (strings.Contains _ "username"); [|destruct (strings.Contains _ "email")]|];
        intros [= <- <-]; (split; [discriminate|]); intros admin [=]. }
    intros [= <- <-]. split; [discriminate|]. intros admin [= <-].
    repeat (split; [reflexivity|]).
    cbn [rows set_rows]. apply In_insert_by_key. left. reflexivity.
Qed.

Lemma extractToken_of_bearer (c : gin.Context) (tok : string) :
  tok <> "" ->
  gin.GetHeader c "Authorization" = "Bearer " +:+ tok ->
  middleware.extractToken c = inr tok.
Proof.
  intros Hne Hh.
  unfold middleware.extractToken, middleware.AuthorizationHeader, middleware.BearerPrefix.
  rewrite Hh, prefix_app, TrimPrefix_app. cbn [negb].
  destruct (String.eqb_spec tok ""); [contradiction|]. reflexivity.
Qed.

Lemma UpdateLastLogin_ticks (id ip : string) (w : World) :
  ticks (snd (userRepository.UpdateLastLogin env id ip w)) = Datatypes.S (ticks w).
Proof.
  unfold userRepository.UpdateLastLogin, userRepository.UpdateFields, gorm.Updates.
  cbn [down tick]. destruct (down w) as [text|].
  - destruct (userRepository.isDuplicateKeyError (opaqueError text)); reflexivity.
  - destruct (Z.of_nat _ =? 0); reflexivity.
Qed.

(** X29.  The access token a successful [Login] returns is accepted by
    [RequireAuth].  For an account that is found, not disabled and whose
    password verifies (the byte-level primitives being faithful on the
    two tokens issued), [Login] succeeds with the account's public
    record; a request that presents the returned access token as bearer
    credential, while the token's window is open at the clock reading of
    the middleware, reaches the handler with the account's id, name and
    role attached. *)
Theorem login_token_is_accepted
    (w : World) (ident password ip : string) (u : model.User) :
  userRepository.GetByUsernameOrEmail env ident w = (Ok u, w) ->
  model.IsDisabled u = false ->
  bcrypt_compare env (model.Password u) password = None ->
  let jcfg := config.JWT cfg in
  let ac := jwtService.newClaims jcfg u jwtService.TokenTypeAccess
              (config.AccessTokenExpireDuration jcfg) (wall env (ticks w)) in
  let rc := jwtService.newClaims jcfg u jwtService.TokenTypeRefresh
              (config.RefreshTokenExpireDuration jcfg) (wall env (Datatypes.S (ticks w))) in
  faithful (wire env) "HS256" ac
    (jwt.hmacSum (wire env) jwt.SHA256 (config.Secret jcfg)
       (jwt.SigningString (wire env) jwt.SigningMethodHS256 ac)) ->
  faithful (wire env) "HS256" rc
    (jwt.hmacSum (wire env) jwt.SHA256 (config.Secret jcfg)
       (jwt.SigningString (wire env) jwt.SigningMethodHS256 rc)) ->
  jwt.in_window (jwtService.RegisteredClaims ac)
    (wall env (Datatypes.S (Datatypes.S (Datatypes.S (ticks w))))) ->
  exists resp w',
    app.Login env cfg {| model.login_Username := ident; model.login_Password := password |}
      ip w
    = (Ok resp, w') /\
    model.User_ resp = model.ToResponse u /\
    model.TokenType resp = "Bearer" /\
    model.ExpiresIn resp = time.Seconds (config.AccessTokenExpireDuration jcfg) /\
    (forall (next : gin.Context -> World -> gin.Context * World) (c : gin.Context),
       gin.GetHeader c "Authorization" = "Bearer " +:+ model.AccessToken resp ->
       app.RequireAuth env cfg next c w' = next (middleware.setContextValues c ac) (tick w')) /\
    jwtService.UserID ac = model.ID u /\
    jwtService.Username ac = model.Username u /\
    jwtService.Role ac = model.Role u.
Proof.
  intros Hfound Hen Hpw jcfg ac rc Hfa Hfr Hwin.
  destruct (generateToken_signed (wire env) jcfg u jwtService.TokenTypeAccess
              (config.AccessTokenExpireDuration jcfg) (wall env (ticks w)) Hfa)
    as (a & Ha & Hsa).
  destruct (generateToken_signed (wire env) jcfg u jwtService.TokenTypeRefresh
              (config.RefreshTokenExpireDuration jcfg) (wall env (Datatypes.S (ticks w))) Hfr)
    as (r & Hr & Hsr).
  fold ac in Hsa.
  eexists. exists (snd (userRepository.UpdateLastLogin env (model.ID u) ip (tick (tick w)))).
  split.
  { unfold app.Login, userService.Login, bind, bindE, fail, ret, ignore_error.
    cbn [model.login_Username model.login_Password].
    cbn [UserRepository.GetByUsernameOrEmail UserRepository.UpdateLastLogin
         app.userRepo userRepository.repo].
    rewrite Hfound, Hen. unfold userService.checkPassword.
    cbn [bcrypt.CompareHashAndPassword app.crypt]. rewrite Hpw. cbn [negb].
    cbn [JWTService.GenerateAccessToken JWTService.GenerateRefreshToken app.jwtSvc].
    unfold jwtService.GenerateAccessToken, jwtService.GenerateRefreshToken.
    fold jcfg. rewrite Ha. cbn [tick ticks]. rewrite Hr. reflexivity. }
  split; [reflexivity|]. split; [reflexivity|]. split; [reflexivity|].
  split; [|repeat split].
  intros next c Hh. cbn [model.AccessToken] in Hh.
  assert (Hne : a <> "").
  { intros ->. discriminate Hsa. }
  unfold app.RequireAuth, middleware.RequireAuth, middleware.validateToken.
  rewrite (extractToken_of_bearer c a Hne Hh).
  cbn [JWTService.ValidateToken app.jwtSvc].
  rewrite UpdateLastLogin_ticks. cbn [tick ticks]. fold jcfg.
  rewrite (ValidateToken_signed_accepts (wire env) jcfg a ac _ Hsa Hwin).
  reflexivity.
Qed.

(** X30.  [RequireAuth] never consults the accounts.  Its decision
    and the context it hands on are the same whatever the user table
    holds and whether or not the database answers: they depend on the
    request and on the clock only, and the table is left as it was.  So
    an access token keeps being accepted until it expires, also after
    its account was disabled or deleted. *)
Theorem RequireAuth_never_consults_accounts
    (c : gin.Context) (w : World) (rows' : list model.User) (down' : option string) :
  let pass := fun (c : gin.Context) (s : World) => (c, s) in
  let w2 := {| rows := rows'; down := down'; ticks := ticks w |} in
  fst (app.RequireAuth env cfg pass c w) = fst (app.RequireAuth env cfg pass c w2) /\
  rows (snd (app.RequireAuth env cfg pass c w)) = rows w /\
  down (snd (app.RequireAuth env cfg pass c w)) = down w.
Proof.
  intros pass w2.
  unfold app.RequireAuth, middleware.RequireAuth, middleware.validateToken.
  cbn [JWTService.ValidateToken app.jwtSvc]. cbn [ticks w2].
  destruct (middleware.extractToken c) as [err|tok]; [repeat split|].
  destruct (jwtService.ValidateToken (wire env) (config.JWT cfg) tok (wall env (ticks w)))
    as [claims|err].
  - destruct (negb (jwtService.IsAccessToken claims)); repeat split.
  - destruct (apperrors.AsAppError err); repeat split.
Qed.

End AccountService.

Module account_cases.

Definition new_password : model.ChangePasswordRequest :=
  {| model.OldPassword := "pw123456"; model.NewPassword := "brand-new";
     model.ConfirmPassword := "brand-new" |}.

(** The example world with the database unreachable. *)
Definition offline : World :=
  {| rows := [refwire.alice; refwire.bob];
     down := Some "dial tcp 127.0.0.1:3306: connect: connection refused";
     ticks := 0 |}.

Definition new_account : model.RegisterRequest :=
  {| model.reg_Username := "dave"; model.reg_Email := "dave@x.com";
     model.reg_Password := "davepw12"; model.reg_ConfirmPassword := "davepw12";
     model.reg_Nickname := "" |}.

Definition registered : result model.User * World :=
  app.Register refwire.env refwire.cfg new_account refwire.world.

Definition dave : model.User :=
  Eval vm_compute in
    match fst registered with Ok u => u | Err _ => refwire.alice end.

Definition alice_login : model.LoginRequest :=
  {| model.login_Username := "alice"; model.login_Password := "pw123456" |}.

End account_cases.

Lemma password_change_takes_effect_witness :
  userRepository.GetByID refwire.env "id-alice" refwire.world
  = (Ok refwire.alice, refwire.world) /\
  bcrypt_compare refwire.env (model.Password refwire.alice) "pw123456" = None /\
  bcrypt_generate refwire.env (random refwire.env 0) "brand-new"
    (config.BcryptCost refwire.cfg)
  = Ok "$2a$uuid-y$brand-new" /\
  fst (app.UpdatePassword refwire.env refwire.cfg "id-alice" account_cases.new_password
         refwire.world) = Ok tt /\
  exists u',
    userRepository.GetByID refwire.env "id-alice"
      (snd (app.UpdatePassword refwire.env refwire.cfg "id-alice" account_cases.new_password
              refwire.world))
    = (Ok u',
       snd (app.UpdatePassword refwire.env refwire.cfg "id-alice" account_cases.new_password
              refwire.world)) /\
    model.Password u' = "$2a$uuid-y$brand-new" /\
    model.Username u' = "alice".
Proof.
  split; [reflexivity|]. split; [reflexivity|]. split; [reflexivity|].
  destruct (password_change_takes_effect refwire.env refwire.cfg refwire.world "id-alice"
              account_cases.new_password refwire.alice "$2a$uuid-y$brand-new"
              eq_refl eq_refl eq_refl) as (Hrun & Hget & Hpw & _).
  rewrite Hrun. cbn [fst snd]. split; [reflexivity|].
  eexists. split; [exact Hget|]. split; [exact Hpw|reflexivity].
Defined.

Lemma storage_failure_is_reported_witness :
  down account_cases.offline
  = Some "dial tcp 127.0.0.1:3306: connect: connection refused" /\
  app.Login refwire.env refwire.cfg account_cases.alice_login "10.0.0.1" account_cases.offline
  = (Err (apperrors.WithError apperrors.ErrDatabaseError
            (opaqueError "dial tcp 127.0.0.1:3306: connect: connection refused")),
     account_cases.offline).
Proof.
  split; [reflexivity|].
  exact (proj1 (storage_failure_is_reported refwire.env refwire.cfg account_cases.offline
                  "dial tcp 127.0.0.1:3306: connect: connection refused" eq_refl)
           account_cases.alice_login "10.0.0.1").
Defined.

Lemma registration_takes_effect_witness :
  app.Register refwire.env refwire.cfg account_cases.new_account refwire.world
  = (Ok account_cases.dave, snd account_cases.registered) /\
  sql_eq refwire.env (model.Username account_cases.dave) (model.Username account_cases.dave)
  = true /\
  model.Role account_cases.dave = "user" /\
  In account_cases.dave (rows (snd account_cases.registered)) /\
  app.Register refwire.env refwire.cfg account_cases.new_account
    (snd account_cases.registered)
  = (Err apperrors.ErrUsernameExists, snd account_cases.registered).
Proof.
  assert (H : app.Register refwire.env refwire.cfg account_cases.new_account refwire.world
              = (Ok account_cases.dave, snd account_cases.registered))
    by (vm_compute; reflexivity).
  split; [exact H|]. split; [reflexivity|].
  destruct (registration_takes_effect refwire.env refwire.cfg refwire.world _
              account_cases.new_account account_cases.dave H)
    as (_ & _ & _ & _ & _ & _ & _ & Hrole & _ & _ & Hin & _ & Hagain).
  split; [exact Hrole|]. split; [exact Hin|].
  exact (Hagain eq_refl account_cases.new_account eq_refl).
Defined.

Lemma deleted_username_stays_reserved_witness :
  down store_cases.without_alice = None /\
  in_use refwire.env model.Username "alice" store_cases.without_alice = false /\
  in_use refwire.env model.Email "other@x.com" store_cases.without_alice = false /\
  existsb (fun x => sql_eq refwire.env (model.Username x) "alice")
    (rows store_cases.without_alice) = true /\
  userRepository.ExistsByUsername refwire.env "alice" store_cases.without_alice
  = (Ok false, store_cases.without_alice) /\
  app.Register refwire.env refwire.cfg runs.taken_username store_cases.without_alice
  = (Err apperrors.ErrUsernameExists, tick (tick store_cases.without_alice)).
Proof.
  split; [reflexivity|]. split; [reflexivity|]. split; [reflexivity|].
  split; [reflexivity|].
  destruct (deleted_username_stays_reserved refwire.env refwire.cfg
              store_cases.without_alice runs.taken_username
              ("$2a$" +:+ random refwire.env 1 +:+ "$" +:+ "pw123456")
              eq_refl eq_refl eq_refl eq_refl eq_refl eq_refl eq_refl eq_refl)
    as (Hfree & Hrun & _).
  split; [exact Hfree|exact Hrun].
Defined.

Lemma deleted_account_cannot_log_in_witness :
  app.Delete refwire.env "id-alice" refwire.world = (Ok tt, store_cases.without_alice) /\
  app.Login refwire.env refwire.cfg account_cases.alice_login "10.0.0.1"
    store_cases.without_alice
  = (Err apperrors.ErrInvalidCredential, store_cases.without_alice) /\
  app.Delete refwire.env "id-alice" store_cases.without_alice
  = (Err apperrors.ErrUserNotFound, store_cases.without_alice).
Proof.
  assert (H : app.Delete refwire.env "id-alice" refwire.world
              = (Ok tt, store_cases.without_alice)) by (vm_compute; reflexivity).
  assert (Hident : forall x, In x (rows refwire.world) -> model.DeletedAt x = None ->
             sql_eq refwire.env (model.Username x) "alice"
             || sql_eq refwire.env (model.Email x) "alice" = true ->
             sql_eq refwire.env (model.ID x) "id-alice" = true).
  { intros x [<-|[<-|[]]] _ Hm; [reflexivity|]. vm_compute in Hm. discriminate Hm. }
  split; [exact H|].
  destruct (deleted_account_cannot_log_in refwire.env refwire.cfg refwire.world
              store_cases.without_alice "id-alice" "alice" H Hident)
    as (Hlogin & _ & Hagain & _).
  split; [exact (Hlogin "pw123456" "10.0.0.1")|exact Hagain].
Defined.

Lemma CreateAdmin_only_without_accounts_witness :
  down refwire.world = None /\
  existsb gorm.live (rows refwire.world) = true /\
  app.CreateAdmin refwire.env refwire.cfg "root" "root@x.com" "rootpw12" refwire.world
  = (Ok None, refwire.world).
Proof.
  split; [reflexivity|]. split; [reflexivity|].
  exact (proj1 (CreateAdmin_only_without_accounts refwire.env refwire.cfg refwire.world
                  "root" "root@x.com" "rootpw12" eq_refl) eq_refl).
Defined.

Lemma login_token_is_accepted_witness :
  userRepository.GetByUsernameOrEmail refwire.env "alice" refwire.world
  = (Ok refwire.alice, refwire.world) /\
  model.IsDisabled refwire.alice = false /\
  bcrypt_compare refwire.env (model.Password refwire.alice) "pw123456" = None /\
  exists resp w',
    app.Login refwire.env refwire.cfg account_cases.alice_login "10.0.0.1" refwire.world
    = (Ok resp, w') /\
    let request :=
      {| gin.Header := {[ "Authorization" := "Bearer " +:+ model.AccessToken resp ]};
         gin.Keys := ∅; gin.IsAborted := false; gin.Written := None |} in
    middleware.GetUserID (fst (app.RequireAuth refwire.env refwire.cfg runs.handler request w'))
    = "id-alice".
Proof.
  split; [reflexivity|]. split; [reflexivity|]. split; [reflexivity|].
  assert (Hfa : faithful (wire refwire.env) "HS256"
            (jwtService.newClaims (config.JWT refwire.cfg) refwire.alice
               jwtService.TokenTypeAccess
               (config.AccessTokenExpireDuration (config.JWT refwire.cfg))
               (wall refwire.env (ticks refwire.world)))
            (jwt.hmacSum (wire refwire.env) jwt.SHA256 (config.Secret (config.JWT refwire.cfg))
               (jwt.SigningString (wire refwire.env) jwt.SigningMethodHS256
                  (jwtService.newClaims (config.JWT refwire.cfg) refwire.alice
                     jwtService.TokenTypeAccess
                     (config.AccessTokenExpireDuration (config.JWT refwire.cfg))
                     (wall refwire.env (ticks refwire.world))))))
    by (constructor; vm_compute; reflexivity).
  assert (Hfr : faithful (wire refwire.env) "HS256"
            (jwtService.newClaims (config.JWT refwire.cfg) refwire.alice
               jwtService.TokenTypeRefresh
               (config.RefreshTokenExpireDuration (config.JWT refwire.cfg))
               (wall refwire.env (Datatypes.S (ticks refwire.world))))
            (jwt.hmacSum (wire refwire.env) jwt.SHA256 (config.Secret (config.JWT refwire.cfg))
               (jwt.SigningString (wire refwire.env) jwt.SigningMethodHS256
                  (jwtService.newClaims (config.JWT refwire.cfg) refwire.alice
                     jwtService.TokenTypeRefresh
                     (config.RefreshTokenExpireDuration (config.JWT refwire.cfg))
                     (wall refwire.env (Datatypes.S (ticks refwire.world)))))))
    by (constructor; vm_compute; reflexivity).
  assert (Hw : jwt.in_window
            (jwtService.RegisteredClaims
               (jwtService.newClaims (config.JWT refwire.cfg) refwire.alice
                  jwtService.TokenTypeAccess
                  (config.AccessTokenExpireDuration (config.JWT refwire.cfg))
                  (wall refwire.env (ticks refwire.world))))
            (wall refwire.env
               (Datatypes.S (Datatypes.S (Datatypes.S (ticks refwire.world)))))).
  { split; intros x [= <-]; vm_compute; [discriminate|reflexivity]. }
  destruct (login_token_is_accepted refwire.env refwire.cfg refwire.world "alice" "pw123456"
              "10.0.0.1" refwire.alice eq_refl eq_refl eq_refl Hfa Hfr Hw)
    as (resp & w' & HL & _ & _ & _ & HA & _).
  exists resp, w'. split; [exact HL|]. intros request.
  rewrite (HA runs.handler request) by (vm_compute; reflexivity).
  reflexivity.
Defined.
